(** * Component AI agent: the IDE shell's service client, chat agent,
      Copilot tools and sidebar, embedded in Rocq

    The TypeScript sources embedded here are
      - [packages/vscode-extension/src/rag-client/client.ts]  (RAGClient,
        getRAGClient, resetRAGClient),
      - [packages/vscode-extension/src/copilot/agent.ts]      (CopilotAgent),
      - [packages/vscode-extension/src/copilot/tools.ts]      (the four
        Copilot tools),
      - [packages/vscode-extension/src/sidebar/provider.ts]   (the sidebar
        provider),
      - [packages/vscode-extension/src/utils/service-manager.ts] (the
        ServiceManager),
      - [packages/vscode-extension/src/extension.ts]           (the commands,
        activate and deactivate).

    Values that cross the HTTP boundary, tool parameters and webview
    messages are untyped at run time, so they are modelled as JavaScript
    values with the dynamic semantics the code relies on (property reads
    that throw on undefined and null, truthiness, strict equality, template
    literal conversion).  Effects are modelled by a state-and-exception
    monad in which a thrown exception keeps the state reached so far. *)

From Stdlib Require Import String Ascii List ZArith Bool Lia DecimalString.
Import ListNotations.
Open Scope string_scope.
Set Warnings "-register-all".

(* ===================================================================== *)
(** ** Text: the string operations of the host language                   *)
(* ===================================================================== *)

(** Strings are sequences of bytes, the UTF-8 encoding of the text.  The
    case mapping acts on the ASCII letters and carries every other byte
    through unchanged (the keywords the code looks for are ASCII).  The
    class [\w] is ASCII by definition; the class [\s] also has
    characters outside ASCII, which are matched in their encoding.  A
    loop over a string visits its characters, not its bytes, and its
    [length] counts UTF-16 code units. *)
Module Text.

Definition nl : string := String (ascii_of_nat 10) EmptyString.
Definition dq : string := String (ascii_of_nat 34) EmptyString.
Definition bq : string := String (ascii_of_nat 96) EmptyString.

Definition isUpper (c : ascii) : bool :=
  let n := nat_of_ascii c in (65 <=? n)%nat && (n <=? 90)%nat.

Definition lowerChar (c : ascii) : ascii :=
  if isUpper c then ascii_of_nat (nat_of_ascii c + 32) else c.

(** [String.prototype.toLowerCase]. *)
Fixpoint toLowerCase (s : string) : string :=
  match s with
  | EmptyString => EmptyString
  | String c rest => String (lowerChar c) (toLowerCase rest)
  end.

(** [String.prototype.startsWith], used by [includes]. *)
Fixpoint startsWith (s sub : string) {struct sub} : bool :=
  match sub, s with
  | EmptyString, _ => true
  | String _ _, EmptyString => false
  | String a sub', String b s' => Ascii.eqb a b && startsWith s' sub'
  end.

(** [String.prototype.includes]: [sub] occurs somewhere in [s]. *)
Fixpoint includes (s sub : string) : bool :=
  startsWith s sub ||
  match s with
  | EmptyString => false
  | String _ rest => includes rest sub
  end.

(** The regular-expression classes [\s] and [\w].  [isSpace] is the
    part of [\s] inside ASCII: tab, line feed, vertical tab, form feed,
    carriage return and space. *)
Definition isSpace (c : ascii) : bool :=
  let n := nat_of_ascii c in
  ((9 <=? n)%nat && (n <=? 13)%nat) || (n =? 32)%nat.

(** The rest of [\s], in UTF-8: U+00A0 in two bytes (C2 A0), and in
    three bytes U+1680 (E1 9A 80), U+2000 to U+200A, U+2028, U+2029 and
    U+202F (E2 80 80 to 8A, A8, A9, AF), U+205F (E2 81 9F), U+3000
    (E3 80 80) and U+FEFF (EF BB BF). *)
Definition isSpace2 (a b : ascii) : bool :=
  (nat_of_ascii a =? 194)%nat && (nat_of_ascii b =? 160)%nat.

Definition isSpace3 (a b c : ascii) : bool :=
  let x := nat_of_ascii a in
  let y := nat_of_ascii b in
  let z := nat_of_ascii c in
  ((x =? 225) && (y =? 154) && (z =? 128))%nat ||
  ((x =? 226) && (y =? 128) &&
   (((128 <=? z) && (z <=? 138)) || (z =? 168) || (z =? 169) || (z =? 175)))%nat ||
  ((x =? 226) && (y =? 129) && (z =? 159))%nat ||
  ((x =? 227) && (y =? 128) && (z =? 128))%nat ||
  ((x =? 239) && (y =? 187) && (z =? 191))%nat.

(** [\s] at the head of [s]: the rest of [s] after one white-space
    character. *)
Definition dropSpace (s : string) : option string :=
  match s with
  | EmptyString => None
  | String a r1 =>
      if isSpace a then Some r1
      else match r1 with
           | EmptyString => None
           | String b r2 =>
               if isSpace2 a b then Some r2
               else match r2 with
                    | EmptyString => None
                    | String c r3 => if isSpace3 a b c then Some r3 else None
                    end
           end
  end.

(** [\s*] at the head of [s]: the rest of [s] after the longest run of
    white-space characters. *)
Fixpoint skipSpaces (s : string) : string :=
  match s with
  | EmptyString => s
  | String a r1 =>
      if isSpace a then skipSpaces r1
      else match r1 with
           | EmptyString => s
           | String b r2 =>
               if isSpace2 a b then skipSpaces r2
               else match r2 with
                    | EmptyString => s
                    | String c r3 =>
                        if isSpace3 a b c then skipSpaces r3 else s
                    end
           end
  end.

(** The string with the given bytes. *)
Definition ofBytes (bytes : list nat) : string :=
  string_of_list_ascii (map ascii_of_nat bytes).

(** U+00A0, the no-break space. *)
Definition nbsp : string := ofBytes [194; 160].

Definition isWord (c : ascii) : bool :=
  let n := nat_of_ascii c in
  ((48 <=? n)%nat && (n <=? 57)%nat) ||
  ((65 <=? n)%nat && (n <=? 90)%nat) ||
  (n =? 95)%nat ||
  ((97 <=? n)%nat && (n <=? 122)%nat).

(** Longest prefix of [s] whose characters satisfy [p], and the rest. *)
Fixpoint span (p : ascii -> bool) (s : string) : string * string :=
  match s with
  | EmptyString => (EmptyString, EmptyString)
  | String c rest =>
      if p c
      then let '(run, tail) := span p rest in (String c run, tail)
      else (EmptyString, s)
  end.

(** Case-insensitive literal at the head of [s] (regex flag [i] over an
    ASCII literal): the rest of [s] after the literal when it matches. *)
Fixpoint dropLiteralCI (lit s : string) {struct lit} : option string :=
  match lit, s with
  | EmptyString, _ => Some s
  | String _ _, EmptyString => None
  | String a lit', String b s' =>
      if Ascii.eqb (lowerChar a) (lowerChar b) then dropLiteralCI lit' s'
      else None
  end.

(** Decimal rendering of an integer, as [Number.prototype.toString]
    prints integers (below 10^21, where it turns to exponents). *)
Definition showZ (n : Z) : string := NilZero.string_of_int (Z.to_int n).

(** A byte that continues the encoding of a character (80 to BF). *)
Definition isContinuation (c : ascii) : bool :=
  let n := nat_of_ascii c in (128 <=? n)%nat && (n <=? 191)%nat.

(** The characters of a string, each as a string: a byte together with
    the continuation bytes that follow it. *)
Fixpoint chars (s : string) : list string :=
  match s with
  | EmptyString => []
  | String c rest =>
      match chars rest with
      | String d next :: more =>
          if isContinuation d
          then String c (String d next) :: more
          else String c EmptyString :: String d next :: more
      | more => String c EmptyString :: more
      end
  end.

(** [String.prototype.length]: the UTF-16 code units of the text, one
    for a character of up to three bytes and two for one of four. *)
Fixpoint units (s : string) : nat :=
  match s with
  | EmptyString => 0
  | String c rest =>
      let n := nat_of_ascii c in
      (if isContinuation c then 0 else if (240 <=? n)%nat then 2 else 1) +
      units rest
  end.

End Text.

(* ===================================================================== *)
(** ** Js: run-time values and the dynamic operations the code uses        *)
(* ===================================================================== *)

Module Js.
Import Text.

(** Run-time values.  Numbers are the integers and [NaN]; an object is
    the list of its own properties, keys distinct, in insertion order. *)
Inductive JsValue : Type :=
| JUndefined
| JNull
| JBool (b : bool)
| JNaN
| JNum (n : Z)
| JStr (s : string)
| JArr (items : list JsValue)
| JObj (fields : list (string * JsValue)).

(** Exceptions: an error object with its [name] and [message]. *)
Record JsError : Type := mkError { errName : string; errMessage : string }.

Definition Error (msg : string) : JsError := mkError "Error" msg.
Definition TypeError (msg : string) : JsError := mkError "TypeError" msg.

(** [Error.prototype.toString], which a template literal applies to a
    caught error. *)
Definition errorToString (e : JsError) : string :=
  match errName e, errMessage e with
  | EmptyString, m => m
  | n, EmptyString => n
  | n, m => n ++ ": " ++ m
  end.

(** Outcome of an evaluation: a value, or a thrown exception. *)
Inductive Res (A : Type) : Type :=
| Ok (a : A)
| Throw (e : JsError).
Arguments Ok {A} a.
Arguments Throw {A} e.

Definition isNullish (v : JsValue) : bool :=
  match v with JUndefined | JNull => true | _ => false end.

Definition isArray (v : JsValue) : bool :=
  match v with JArr _ => true | _ => false end.

(** ToBoolean. *)
Definition truthy (v : JsValue) : bool :=
  match v with
  | JUndefined | JNull | JNaN => false
  | JBool b => b
  | JNum n => negb (n =? 0)%Z
  | JStr s => negb (String.eqb s "")
  | JArr _ | JObj _ => true
  end.

(** [a || b] and [a ?? b] on values. *)
Definition or_else (a b : JsValue) : JsValue := if truthy a then a else b.
Definition coalesce (a b : JsValue) : JsValue := if isNullish a then b else a.

(** [a === b].  Arrays and objects are compared by reference; two values
    that reached the code through different messages are never the same
    reference. *)
Definition strictEq (a b : JsValue) : bool :=
  match a, b with
  | JUndefined, JUndefined => true
  | JNull, JNull => true
  | JBool x, JBool y => Bool.eqb x y
  | JNum x, JNum y => (x =? y)%Z
  | JStr x, JStr y => String.eqb x y
  | _, _ => false
  end.

(** ToString, as applied by a template literal. *)
Fixpoint toStr (v : JsValue) : string :=
  match v with
  | JUndefined => "undefined"
  | JNull => "null"
  | JBool true => "true"
  | JBool false => "false"
  | JNaN => "NaN"
  | JNum n => showZ n
  | JStr s => s
  | JArr items =>
      (fix join (l : list JsValue) : string :=
         match l with
         | [] => ""
         | x :: rest =>
             let here := match x with
                         | JUndefined | JNull => ""
                         | _ => toStr x
                         end in
             match rest with
             | [] => here
             | _ :: _ => here ++ "," ++ join rest
             end
         end) items
  | JObj _ => "[object Object]"
  end.

Fixpoint lookup (k : string) (fields : list (string * JsValue)) : JsValue :=
  match fields with
  | [] => JUndefined
  | (k', v) :: rest => if String.eqb k k' then v else lookup k rest
  end.

Definition typeName (v : JsValue) : string :=
  match v with JNull => "null" | _ => "undefined" end.

(** [v.k] for a property name [k]: reading from [undefined] or [null]
    throws; arrays and strings have [length]; every other read of a name
    the value does not own yields [undefined].  (None of the names the
    code reads is inherited from a prototype.) *)
Definition getProp (v : JsValue) (k : string) : Res JsValue :=
  match v with
  | JUndefined | JNull =>
      Throw (TypeError ("Cannot read properties of " ++ typeName v ++
                        " (reading '" ++ k ++ "')"))
  | JObj fields => Ok (lookup k fields)
  | JArr items =>
      Ok (if String.eqb k "length" then JNum (Z.of_nat (List.length items))
          else JUndefined)
  | JStr s =>
      Ok (if String.eqb k "length" then JNum (Z.of_nat (units s))
          else JUndefined)
  | _ => Ok JUndefined
  end.

(** [v.k] where [v] is known not to be [undefined] or [null]. *)
Definition lookupProp (v : JsValue) (k : string) : JsValue :=
  match getProp v k with Ok x => x | Throw _ => JUndefined end.

(** [v[0]]. *)
Definition getFirst (v : JsValue) : Res JsValue :=
  match v with
  | JUndefined | JNull =>
      Throw (TypeError ("Cannot read properties of " ++ typeName v ++
                        " (reading '0')"))
  | JArr items => Ok (nth 0 items JUndefined)
  | JStr s => Ok (match chars s with c :: _ => JStr c | [] => JUndefined end)
  | JObj fields => Ok (lookup "0" fields)
  | _ => Ok JUndefined
  end.

(** The elements a [for ... of] loop visits. *)
Definition iterate (what : string) (v : JsValue) : Res (list JsValue) :=
  match v with
  | JArr items => Ok items
  | JStr s => Ok (map JStr (chars s))
  | _ => Throw (TypeError (what ++ " is not iterable"))
  end.

(** [v.slice(0, n)]: arrays and strings have the method; of a string it
    keeps the first [n] characters. *)
Definition sliceFirst (what : string) (n : nat) (v : JsValue) : Res JsValue :=
  match v with
  | JUndefined | JNull =>
      Throw (TypeError ("Cannot read properties of " ++ typeName v ++
                        " (reading 'slice')"))
  | JArr items => Ok (JArr (firstn n items))
  | JStr s => Ok (JStr (String.concat "" (firstn n (chars s))))
  | _ => Throw (TypeError (what ++ ".slice is not a function"))
  end.

(** The receiver of [v.map(f)] / [v.filter(f)]: only arrays have them. *)
Definition arrayItems (what method : string) (v : JsValue) : Res (list JsValue) :=
  match v with
  | JUndefined | JNull =>
      Throw (TypeError ("Cannot read properties of " ++ typeName v ++
                        " (reading '" ++ method ++ "')"))
  | JArr items => Ok items
  | _ => Throw (TypeError (what ++ "." ++ method ++ " is not a function"))
  end.

(** StringToNumber restricted to what the number model holds: blank
    text is 0, an optionally signed run of decimal digits is that
    integer, anything else is [NaN]. *)
Definition isDigit (c : ascii) : bool :=
  let n := nat_of_ascii c in (48 <=? n)%nat && (n <=? 57)%nat.

Fixpoint digitsValue (acc : Z) (s : string) : option Z :=
  match s with
  | EmptyString => Some acc
  | String c rest =>
      if isDigit c
      then digitsValue (10 * acc + Z.of_nat (nat_of_ascii c - 48)) rest
      else None
  end.

Definition trimEnd (s : string) : string :=
  string_of_list_ascii
    (rev (list_ascii_of_string
            (snd (span isSpace (string_of_list_ascii
                                  (rev (list_ascii_of_string s))))))).

Definition stringToNumber (s : string) : option Z :=
  let body := trimEnd (snd (span isSpace s)) in
  match body with
  | EmptyString => Some 0%Z
  | String c rest =>
      if Ascii.eqb c "-"%char then
        match rest with
        | EmptyString => None
        | _ => option_map Z.opp (digitsValue 0 rest)
        end
      else if Ascii.eqb c "+"%char then
        match rest with
        | EmptyString => None
        | _ => digitsValue 0 rest
        end
      else digitsValue 0 body
  end.

(** ToNumber; [None] is [NaN]. *)
Definition toNumber (v : JsValue) : option Z :=
  match v with
  | JUndefined | JNaN | JObj _ => None
  | JNull => Some 0%Z
  | JBool b => Some (if b then 1 else 0)%Z
  | JNum n => Some n
  | JStr s => stringToNumber s
  | JArr _ => stringToNumber (toStr v)
  end.

(** [v > 0]. *)
Definition gtZero (v : JsValue) : bool :=
  match toNumber v with
  | Some n => (0 <? n)%Z
  | None => false
  end.

End Js.

(* ===================================================================== *)
(** ** Host: the extension host's state and the effect monad              *)
(* ===================================================================== *)

Module Host.
Import Text Js.

Inductive Method : Type := GET | POST | PUT | DELETE.

(** One request issued through the axios instance of a client. *)
Record HttpRequest : Type := mkRequest {
  reqMethod : Method;
  reqBaseUrl : string;
  reqPath : string;
  reqBody : option JsValue
}.

(** What axios does with a request: it resolves with the response (and
    its [data]), or rejects (transport failure, timeout, error status). *)
Inductive HttpOutcome : Type :=
| Resolved (data : JsValue)
| Rejected (e : JsError).

(** The [RAGClient] instance: [baseUrl] and the axios settings. *)
Record RAGClient : Type := mkClient {
  baseUrl : string;
  timeout : Z
}.

(** The surroundings of the extension: the workspace configuration and
    the service behind the boundary, which answers a request knowing the
    requests issued before it. *)
Record World : Type := mkWorld {
  configPort : option Z;
  service : list HttpRequest -> HttpRequest -> HttpOutcome
}.

(** The mutable state the code touches. *)
Record State : Type := mkState {
  ragClient : option RAGClient;      (* module variable of client.ts *)
  httpLog : list HttpRequest;        (* requests issued, oldest first *)
  consoleErrors : list (string * JsError);
  chat : list string;                (* stream.markdown calls *)
  hasView : bool;                    (* KnowledgeBaseProvider._view *)
  posted : list JsValue;             (* webview.postMessage calls *)
  infoMessages : list string;        (* window.showInformationMessage *)
  errorMessages : list string        (* window.showErrorMessage *)
}.

Definition initialState : State :=
  mkState None [] [] [] false [] [] [].

(** Computations: read the world, thread the state, return or throw.
    The state reached when an exception is thrown is kept. *)
Definition M (A : Type) : Type := World -> State -> Res A * State.

Definition ret {A} (a : A) : M A := fun _ st => (Ok a, st).

Definition throw {A} (e : JsError) : M A := fun _ st => (Throw e, st).

Definition bind {A B} (m : M A) (k : A -> M B) : M B :=
  fun w st =>
    match m w st with
    | (Ok a, st') => k a w st'
    | (Throw e, st') => (Throw e, st')
    end.

(** [try { body } catch (error) { handler }]. *)
Definition tryCatch {A} (body : M A) (handler : JsError -> M A) : M A :=
  fun w st =>
    match body w st with
    | (Ok a, st') => (Ok a, st')
    | (Throw e, st') => handler e w st'
    end.

Definition lift {A} (r : Res A) : M A := fun _ st => (r, st).

Definition getState : M State := fun _ st => (Ok st, st).
Definition getWorld : M World := fun w st => (Ok w, st).
Definition modify (f : State -> State) : M unit := fun _ st => (Ok tt, f st).

Declare Scope js_scope.
Delimit Scope js_scope with js.
Notation "x <- m ;; k" := (bind m (fun x => k))
  (at level 61, m at next level, right associativity) : js_scope.
Notation "m ;; k" := (bind m (fun _ => k))
  (at level 61, right associativity) : js_scope.
Open Scope js_scope.

(** [v.k] and [v.k1.k2] as computations. *)
Definition prop (v : JsValue) (k : string) : M JsValue := lift (getProp v k).

Definition prop2 (v : JsValue) (k1 k2 : string) : M JsValue :=
  x <- prop v k1 ;; prop x k2.

(** [for (const x of xs) { body x }]. *)
Fixpoint forEach {A} (xs : list A) (body : A -> M unit) : M unit :=
  match xs with
  | [] => ret tt
  | x :: rest => body x ;; forEach rest body
  end.

(** [xs.map(f)] for a callback that may throw. *)
Fixpoint mapM {A B} (f : A -> M B) (xs : list A) : M (list B) :=
  match xs with
  | [] => ret []
  | x :: rest => y <- f x ;; ys <- mapM f rest ;; ret (y :: ys)
  end.

Definition when (b : bool) (m : M unit) : M unit := if b then m else ret tt.

(** State updates. *)
Definition setClient (c : option RAGClient) (st : State) : State :=
  mkState c (httpLog st) (consoleErrors st) (chat st) (hasView st)
          (posted st) (infoMessages st) (errorMessages st).
Definition logRequest (r : HttpRequest) (st : State) : State :=
  mkState (ragClient st) (httpLog st ++ [r]) (consoleErrors st) (chat st)
          (hasView st) (posted st) (infoMessages st) (errorMessages st).
Definition logConsole (l : string) (e : JsError) (st : State) : State :=
  mkState (ragClient st) (httpLog st) (consoleErrors st ++ [(l, e)]) (chat st)
          (hasView st) (posted st) (infoMessages st) (errorMessages st).
Definition logChat (s : string) (st : State) : State :=
  mkState (ragClient st) (httpLog st) (consoleErrors st) (chat st ++ [s])
          (hasView st) (posted st) (infoMessages st) (errorMessages st).
Definition logPosted (v : JsValue) (st : State) : State :=
  mkState (ragClient st) (httpLog st) (consoleErrors st) (chat st)
          (hasView st) (posted st ++ [v]) (infoMessages st) (errorMessages st).
Definition logInfo (s : string) (st : State) : State :=
  mkState (ragClient st) (httpLog st) (consoleErrors st) (chat st)
          (hasView st) (posted st) (infoMessages st ++ [s]) (errorMessages st).
Definition logError (s : string) (st : State) : State :=
  mkState (ragClient st) (httpLog st) (consoleErrors st) (chat st)
          (hasView st) (posted st) (infoMessages st) (errorMessages st ++ [s]).

(** [console.error(label, error)]. *)
Definition consoleError (label : string) (e : JsError) : M unit :=
  modify (logConsole label e).

(** [stream.markdown(text)]. *)
Definition markdown (text : string) : M unit := modify (logChat text).

(** [this._view?.webview.postMessage(msg)]. *)
Definition postMessage (msg : JsValue) : M unit :=
  st <- getState ;;
  when (hasView st) (modify (logPosted msg)).

Definition showInformationMessage (s : string) : M unit := modify (logInfo s).
Definition showErrorMessage (s : string) : M unit := modify (logError s).

(** [await this.client.<method>(path, body)]: the request is issued and
    the promise resolves with [response.data] or rejects. *)
Definition http (c : RAGClient) (m : Method) (path : string)
           (body : option JsValue) : M JsValue :=
  fun w st =>
    let r := mkRequest m (baseUrl c) path body in
    match service w (httpLog st) r with
    | Resolved data => (Ok data, logRequest r st)
    | Rejected e => (Throw e, logRequest r st)
    end.

End Host.

(* ===================================================================== *)
(** ** Client: rag-client/client.ts                                       *)
(* ===================================================================== *)

Module Client.
Import Text Js Host.

(** [constructor(port: number = 8765)]. *)
Definition newRAGClient (port : Z) : RAGClient :=
  mkClient ("http://localhost:" ++ showZ port) 30000.

(** [healthCheck()]. *)
Definition healthCheck (c : RAGClient) : M bool :=
  tryCatch
    (data <- http c GET "/api/health" None ;;
     status <- prop data "status" ;;
     ret (strictEq status (JStr "healthy")))
    (fun _ => ret false).

(** [searchComponents(request)]. *)
Definition searchComponents (c : RAGClient) (request : JsValue) : M JsValue :=
  tryCatch
    (http c POST "/api/search" (Some request))
    (fun error =>
       consoleError "Search failed:" error ;;
       throw (Error "Failed to search components")).

(** [suggestComponents(query, limit = 5)]: the default applies to an
    argument that is [undefined]. *)
Definition suggestComponents (c : RAGClient) (query limit : JsValue) : M JsValue :=
  let limit := match limit with JUndefined => JNum 5 | _ => limit end in
  tryCatch
    (http c POST "/api/search/suggest"
          (Some (JObj [("query", query); ("limit", limit)])))
    (fun error =>
       consoleError "Suggest failed:" error ;;
       throw (Error "Failed to suggest components")).

(** [getAllComponents()]. *)
Definition getAllComponents (c : RAGClient) : M JsValue :=
  tryCatch
    (http c GET "/api/components" None)
    (fun error =>
       consoleError "Failed to get components:" error ;;
       throw (Error "Failed to get components")).

(** [getComponent(componentId)]. *)
Definition getComponent (c : RAGClient) (componentId : JsValue) : M JsValue :=
  tryCatch
    (http c GET ("/api/components/" ++ toStr componentId) None)
    (fun error =>
       consoleError "Failed to get component:" error ;;
       throw (Error "Failed to get component")).

(** [getComponentsByName(name)]. *)
Definition getComponentsByName (c : RAGClient) (name : JsValue) : M JsValue :=
  tryCatch
    (http c GET ("/api/components/name/" ++ toStr name) None)
    (fun error =>
       consoleError "Failed to get components by name:" error ;;
       throw (Error "Failed to get components by name")).

(** [createComponent(component)]. *)
Definition createComponent (c : RAGClient) (component : JsValue) : M JsValue :=
  tryCatch
    (http c POST "/api/components" (Some component))
    (fun error =>
       consoleError "Failed to create component:" error ;;
       throw (Error "Failed to create component")).

(** [updateComponent(componentId, component)]. *)
Definition updateComponent (c : RAGClient) (componentId component : JsValue)
  : M JsValue :=
  tryCatch
    (http c PUT ("/api/components/" ++ toStr componentId) (Some component))
    (fun error =>
       consoleError "Failed to update component:" error ;;
       throw (Error "Failed to update component")).

(** [deleteComponent(componentId)]. *)
Definition deleteComponent (c : RAGClient) (componentId : JsValue) : M unit :=
  tryCatch
    (http c DELETE ("/api/components/" ++ toStr componentId) None ;; ret tt)
    (fun error =>
       consoleError "Failed to delete component:" error ;;
       throw (Error "Failed to delete component")).

(** The request [scanFolder] puts on the wire. *)
Definition pythonRequest (request : JsValue) : M JsValue :=
  folderPath <- prop request "folderPath" ;;
  includeStorybooks <- prop request "includeStorybooks" ;;
  includeTests <- prop request "includeTests" ;;
  recursive <- prop request "recursive" ;;
  ret (JObj [("folder_path", folderPath);
             ("include_storybooks", coalesce includeStorybooks (JBool true));
             ("include_tests", coalesce includeTests (JBool false));
             ("recursive", coalesce recursive (JBool true))]).

(** [scanFolder(request)]. *)
Definition scanFolder (c : RAGClient) (request : JsValue) : M JsValue :=
  tryCatch
    (wire <- pythonRequest request ;;
     data <- http c POST "/api/scan" (Some wire) ;;
     components_found <- prop data "components_found" ;;
     components <- prop data "components" ;;
     errors <- prop data "errors" ;;
     ret (JObj [("componentsFound", components_found);
                ("components", components);
                ("errors", or_else errors (JArr []))]))
    (fun error =>
       consoleError "Scan failed:" error ;;
       throw (Error "Failed to scan folder")).

(** [config.get<number>('ragService.port', 8765)]. *)
Definition configuredPort : M Z :=
  w <- getWorld ;;
  ret (match configPort w with Some p => p | None => 8765%Z end).

(** [getRAGClient()]: the module variable [ragClient] is filled on first
    use and returned from then on. *)
Definition getRAGClient : M RAGClient :=
  st <- getState ;;
  match ragClient st with
  | Some c => ret c
  | None =>
      port <- configuredPort ;;
      let c := newRAGClient port in
      modify (setClient (Some c)) ;;
      ret c
  end.

(** [resetRAGClient()]. *)
Definition resetRAGClient : M unit := modify (setClient None).

End Client.

(* ===================================================================== *)
(** ** Agent: copilot/agent.ts                                            *)
(* ===================================================================== *)

Module Agent.
Import Text Js Host Client.

Inductive Intent : Type := search | suggest | explain.

(** [vscode.ChatResult] as the handlers build it:
    [{ metadata: { command: '' } }]. *)
Record ChatResult : Type := mkChatResult { metadataCommand : string }.

Definition emptyResult : ChatResult := mkChatResult "".

(** [determineIntent(query)]. *)
Definition determineIntent (query : string) : Intent :=
  let lowerQuery := toLowerCase query in
  if includes lowerQuery "explain" ||
     includes lowerQuery "what is" ||
     includes lowerQuery "tell me about"
  then explain
  else if includes lowerQuery "suggest" ||
          includes lowerQuery "recommend" ||
          includes lowerQuery "i need" ||
          includes lowerQuery "i want to build" ||
          includes lowerQuery "help me build"
  then suggest
  else search.

(** The pieces the patterns of [extractComponentName] are made of: a
    literal matched without regard to case, [\s+], and the group
    [(\w+)].  In each pattern a repeated class is followed by something
    outside the class, so the longest run is the only run that can lead
    to a match and no backtracking is needed. *)
Inductive Atom : Type :=
| Lit (text : string)
| Spaces
| Word.

(** Match the atoms at the head of [s]; the result is the text of the
    group. *)
Fixpoint matchHere (atoms : list Atom) (s : string) (group : option string)
  : option (option string) :=
  match atoms with
  | [] => Some group
  | Lit text :: rest =>
      match dropLiteralCI text s with
      | Some s' => matchHere rest s' group
      | None => None
      end
  | Spaces :: rest =>
      match dropSpace s with
      | Some s' => matchHere rest (skipSpaces s') group
      | None => None
      end
  | Word :: rest =>
      match span isWord s with
      | (EmptyString, _) => None
      | (w, s') => matchHere rest s' (Some w)
      end
  end.

(** [s.match(pattern)]: the leftmost position where the pattern
    matches; the result is [match[1]]. *)
Fixpoint matchFirst (atoms : list Atom) (s : string) : option string :=
  match matchHere atoms s None with
  | Some (Some w) => Some w
  | _ =>
      match s with
      | EmptyString => None
      | String _ rest => matchFirst atoms rest
      end
  end.

Definition patterns : list (list Atom) :=
  [ [Lit "explain"; Spaces; Word];
    [Lit "what"; Spaces; Lit "is"; Spaces; Word];
    [Lit "tell"; Spaces; Lit "me"; Spaces; Lit "about"; Spaces; Word];
    [Word; Spaces; Lit "component"] ].

(** [extractComponentName(query)]. *)
Definition extractComponentName (query : string) : option string :=
  (fix loop (ps : list (list Atom)) : option string :=
     match ps with
     | [] => None
     | pattern :: rest =>
         match matchFirst pattern query with
         | Some name => Some name
         | None => loop rest
         end
     end) patterns.

(** The fence of a code block: three backquotes. *)
Definition tick3 : string := bq ++ bq ++ bq.

(** [handleSearch(query, stream, token)]. *)
Definition handleSearch (query : string) : M ChatResult :=
  client <- getRAGClient ;;
  tryCatch
    (result <- searchComponents client
                 (JObj [("query", JStr query); ("limit", JNum 5)]) ;;
     len <- prop2 result "results" "length" ;;
     if strictEq len (JNum 0) then
       markdown "No components found matching your query." ;;
       ret emptyResult
     else
       markdown ("Found " ++ toStr len ++ " components:" ++ nl ++ nl) ;;
       results <- prop result "results" ;;
       items <- lift (iterate "result.results" results) ;;
       forEach items (fun item =>
         comp <- prop item "component" ;;
         name <- prop comp "name" ;;
         markdown ("### " ++ toStr name ++ nl ++ nl) ;;
         description <- prop comp "description" ;;
         markdown (toStr description ++ nl ++ nl) ;;
         import_path <- prop comp "import_path" ;;
         when (truthy import_path)
           (markdown ("**Import:** " ++ bq ++ "import { " ++ toStr name ++
                      " } from '" ++ toStr import_path ++ "';" ++ bq ++
                      nl ++ nl)) ;;
         props <- prop comp "props" ;;
         propsLen <- (if truthy props then prop props "length"
                      else ret JUndefined) ;;
         when (truthy props && gtZero propsLen)
           (markdown ("**Props:**" ++ nl) ;;
            firstThree <- lift (sliceFirst "comp.props" 3 props) ;;
            shown <- lift (iterate "comp.props.slice(...)" firstThree) ;;
            forEach shown (fun p =>
              pname <- prop p "name" ;;
              ptype <- prop p "type" ;;
              required <- prop p "required" ;;
              markdown ("- " ++ bq ++ toStr pname ++ bq ++ ": " ++ toStr ptype ++
                        (if truthy required then " (required)" else "") ++ nl)) ;;
            markdown nl) ;;
         examples <- prop comp "examples" ;;
         examplesLen <- (if truthy examples then prop examples "length"
                         else ret JUndefined) ;;
         when (truthy examples && gtZero examplesLen)
           (example <- lift (getFirst examples) ;;
            code <- prop example "code" ;;
            markdown ("**Example:**" ++ nl ++ tick3 ++ "tsx" ++ nl ++
                      toStr code ++ nl ++ tick3 ++ nl ++ nl)) ;;
         markdown ("---" ++ nl ++ nl)) ;;
       ret emptyResult)
    (fun error =>
       markdown ("Failed to search: " ++ errorToString error) ;;
       ret emptyResult).

(** [handleSuggest(query, stream, token)]. *)
Definition handleSuggest (query : string) : M ChatResult :=
  client <- getRAGClient ;;
  tryCatch
    (result <- suggestComponents client (JStr query) (JNum 5) ;;
     len <- prop2 result "results" "length" ;;
     if strictEq len (JNum 0) then
       markdown "No component suggestions found for your description." ;;
       ret emptyResult
     else
       markdown ("Here are " ++ toStr len ++ " component suggestions:" ++
                 nl ++ nl) ;;
       results <- prop result "results" ;;
       items <- lift (iterate "result.results" results) ;;
       forEach items (fun item =>
         comp <- prop item "component" ;;
         name <- prop comp "name" ;;
         markdown ("### " ++ toStr name ++ nl ++ nl) ;;
         description <- prop comp "description" ;;
         markdown (toStr description ++ nl ++ nl) ;;
         import_path <- prop comp "import_path" ;;
         when (truthy import_path)
           (markdown ("**Import:** " ++ bq ++ "import { " ++ toStr name ++
                      " } from '" ++ toStr import_path ++ "';" ++ bq ++
                      nl ++ nl)) ;;
         examples <- prop comp "examples" ;;
         examplesLen <- (if truthy examples then prop examples "length"
                         else ret JUndefined) ;;
         when (truthy examples && gtZero examplesLen)
           (example <- lift (getFirst examples) ;;
            code <- prop example "code" ;;
            markdown ("**Example usage:**" ++ nl ++ tick3 ++ "tsx" ++ nl ++
                      toStr code ++ nl ++ tick3 ++ nl ++ nl)) ;;
         markdown ("---" ++ nl ++ nl)) ;;
       ret emptyResult)
    (fun error =>
       markdown ("Failed to get suggestions: " ++ errorToString error) ;;
       ret emptyResult).

(** The part of [handleExplain] that streams the component found. *)
Definition explainComponent (comp : JsValue) : M unit :=
  name <- prop comp "name" ;;
  markdown ("# " ++ toStr name ++ nl ++ nl) ;;
  description <- prop comp "description" ;;
  markdown (toStr description ++ nl ++ nl) ;;
  category <- prop comp "category" ;;
  when (truthy category)
    (markdown ("**Category:** " ++ toStr category ++ nl ++ nl)) ;;
  import_path <- prop comp "import_path" ;;
  when (truthy import_path)
    (markdown ("**Import:**" ++ nl ++ tick3 ++ "tsx" ++ nl ++
               "import { " ++ toStr name ++ " } from '" ++
               toStr import_path ++ "';" ++ nl ++ tick3 ++ nl ++ nl)) ;;
  props <- prop comp "props" ;;
  propsLen <- (if truthy props then prop props "length" else ret JUndefined) ;;
  when (truthy props && gtZero propsLen)
    (markdown ("## Props" ++ nl ++ nl) ;;
     shown <- lift (iterate "comp.props" props) ;;
     forEach shown (fun p =>
       pname <- prop p "name" ;;
       ptype <- prop p "type" ;;
       required <- prop p "required" ;;
       markdown ("- **" ++ toStr pname ++ "**: " ++ bq ++ toStr ptype ++ bq ++
                 (if truthy required then " (required)" else " (optional)") ++
                 nl) ;;
       pdescription <- prop p "description" ;;
       when (truthy pdescription)
         (markdown ("  - " ++ toStr pdescription ++ nl))) ;;
     markdown nl) ;;
  examples <- prop comp "examples" ;;
  examplesLen <- (if truthy examples then prop examples "length"
                  else ret JUndefined) ;;
  when (truthy examples && gtZero examplesLen)
    (markdown ("## Examples" ++ nl ++ nl) ;;
     shown <- lift (iterate "comp.examples" examples) ;;
     forEach shown (fun example =>
       title <- prop example "title" ;;
       markdown ("### " ++ toStr title ++ nl ++ nl) ;;
       edescription <- prop example "description" ;;
       when (truthy edescription)
         (markdown (toStr edescription ++ nl ++ nl)) ;;
       code <- prop example "code" ;;
       markdown (tick3 ++ "tsx" ++ nl ++ toStr code ++ nl ++ tick3 ++
                 nl ++ nl))).

(** [handleExplain(query, stream, token)]. *)
Definition handleExplain (query : string) : M ChatResult :=
  client <- getRAGClient ;;
  tryCatch
    (match extractComponentName query with
     | None =>
         markdown "Could not determine which component to explain. Please specify a component name." ;;
         ret emptyResult
     | Some componentName =>
         components <- getComponentsByName client (JStr componentName) ;;
         len <- prop components "length" ;;
         if strictEq len (JNum 0) then
           markdown ("Component " ++ dq ++ componentName ++ dq ++
                     " not found in the knowledge base.") ;;
           ret emptyResult
         else
           comp <- lift (getFirst components) ;;
           explainComponent comp ;;
           ret emptyResult
     end)
    (fun error =>
       markdown ("Failed to explain component: " ++ errorToString error) ;;
       ret emptyResult).

(** The handler an intent is routed to. *)
Definition route (intent : Intent) (query : string) : M ChatResult :=
  match intent with
  | search => handleSearch query
  | suggest => handleSuggest query
  | explain => handleExplain query
  end.

Definition serviceDownNotice : string :=
  "⚠️ RAG service is not running. Please start it using the command: **Component AI: Start RAG Service**".

(** [handleRequest(request, context, stream, token)], with
    [request.prompt] as [prompt]. *)
Definition handleRequest (prompt : string) : M ChatResult :=
  tryCatch
    (client <- getRAGClient ;;
     isHealthy <- healthCheck client ;;
     if negb isHealthy then
       markdown serviceDownNotice ;;
       ret emptyResult
     else
       let query := prompt in
       let intent := determineIntent query in
       markdown ("🔍 Searching for components..." ++ nl ++ nl) ;;
       route intent query)
    (fun error =>
       markdown ("❌ Error: " ++ errorToString error) ;;
       ret emptyResult).

End Agent.

(* ===================================================================== *)
(** ** Tools: copilot/tools.ts                                            *)
(* ===================================================================== *)

Module Tools.
Import Text Js Host Client.

Definition failure (what : string) (error : JsError) : JsValue :=
  JObj [("success", JBool false);
        ("error", JStr (what ++ errorToString error))].

(** [searchComponentsTool.handler(parameters, token)]. *)
Definition searchComponentsTool (parameters : JsValue) : M JsValue :=
  client <- getRAGClient ;;
  tryCatch
    (query <- prop parameters "query" ;;
     limit <- prop parameters "limit" ;;
     result <- searchComponents client
                 (JObj [("query", query);
                        ("limit", or_else limit (JNum 10))]) ;;
     results <- prop result "results" ;;
     items <- lift (arrayItems "result.results" "map" results) ;;
     components <- mapM (fun r =>
         name <- prop2 r "component" "name" ;;
         description <- prop2 r "component" "description" ;;
         import_path <- prop2 r "component" "import_path" ;;
         props <- prop2 r "component" "props" ;;
         score <- prop r "score" ;;
         ret (JObj [("name", name);
                    ("description", description);
                    ("importPath", import_path);
                    ("props", props);
                    ("score", score)])) items ;;
     ret (JObj [("success", JBool true);
                ("components", JArr components)]))
    (fun error => ret (failure "Failed to search components: " error)).

(** [explainComponentTool.handler(parameters, token)]. *)
Definition explainComponentTool (parameters : JsValue) : M JsValue :=
  client <- getRAGClient ;;
  tryCatch
    (componentName <- prop parameters "componentName" ;;
     components <- getComponentsByName client componentName ;;
     len <- prop components "length" ;;
     if strictEq len (JNum 0) then
       ret (JObj [("success", JBool false);
                  ("error", JStr ("Component " ++ dq ++ toStr componentName ++
                                  dq ++ " not found"))])
     else
       component <- lift (getFirst components) ;;
       name <- prop component "name" ;;
       description <- prop component "description" ;;
       file_path <- prop component "file_path" ;;
       import_path <- prop component "import_path" ;;
       export_type <- prop component "export_type" ;;
       props <- prop component "props" ;;
       examples <- prop component "examples" ;;
       theme_wrapper <- prop component "theme_wrapper" ;;
       category <- prop component "category" ;;
       tags <- prop component "tags" ;;
       ret (JObj [("success", JBool true);
                  ("component",
                   JObj [("name", name);
                         ("description", description);
                         ("filePath", file_path);
                         ("importPath", import_path);
                         ("exportType", export_type);
                         ("props", props);
                         ("examples", examples);
                         ("themeWrapper", theme_wrapper);
                         ("category", category);
                         ("tags", tags)])]))
    (fun error => ret (failure "Failed to get component details: " error)).

(** [suggestComponentForUITool.handler(parameters, token)]. *)
Definition suggestComponentForUITool (parameters : JsValue) : M JsValue :=
  client <- getRAGClient ;;
  tryCatch
    (uiDescription <- prop parameters "uiDescription" ;;
     limit <- prop parameters "limit" ;;
     result <- suggestComponents client uiDescription
                 (or_else limit (JNum 5)) ;;
     results <- prop result "results" ;;
     items <- lift (arrayItems "result.results" "map" results) ;;
     suggestions <- mapM (fun r =>
         name <- prop2 r "component" "name" ;;
         description <- prop2 r "component" "description" ;;
         import_path <- prop2 r "component" "import_path" ;;
         props <- prop2 r "component" "props" ;;
         score <- prop r "score" ;;
         examples <- prop2 r "component" "examples" ;;
         firstExample <- lift (sliceFirst "r.component.examples" 1 examples) ;;
         ret (JObj [("name", name);
                    ("description", description);
                    ("importPath", import_path);
                    ("props", props);
                    ("score", score);
                    ("examples", firstExample)])) items ;;
     ret (JObj [("success", JBool true);
                ("suggestions", JArr suggestions)]))
    (fun error => ret (failure "Failed to suggest components: " error)).

(** [scanComponentFolderTool.handler(parameters, token)]. *)
Definition scanComponentFolderTool (parameters : JsValue) : M JsValue :=
  client <- getRAGClient ;;
  tryCatch
    (folderPath <- prop parameters "folderPath" ;;
     includeStorybooks <- prop parameters "includeStorybooks" ;;
     recursive <- prop parameters "recursive" ;;
     result <- scanFolder client
                 (JObj [("folder_path", folderPath);
                        ("include_storybooks",
                         JBool (negb (strictEq includeStorybooks (JBool false))));
                        ("include_tests", JBool false);
                        ("recursive",
                         JBool (negb (strictEq recursive (JBool false))))]) ;;
     components_found <- prop result "components_found" ;;
     components <- prop result "components" ;;
     items <- lift (arrayItems "result.components" "map" components) ;;
     names <- mapM (fun c => prop c "name") items ;;
     errors <- prop result "errors" ;;
     ret (JObj [("success", JBool true);
                ("componentsFound", components_found);
                ("components", JArr names);
                ("errors", errors)]))
    (fun error => ret (failure "Failed to scan folder: " error)).

Definition allTools : list (string * (JsValue -> M JsValue)) :=
  [ ("searchComponents", searchComponentsTool);
    ("explainComponent", explainComponentTool);
    ("suggestComponentForUI", suggestComponentForUITool);
    ("scanComponentFolder", scanComponentFolderTool) ].

End Tools.

(* ===================================================================== *)
(** ** Sidebar: sidebar/provider.ts                                       *)
(* ===================================================================== *)

Module Sidebar.
Import Text Js Host Client.

(** [loadComponents()]. *)
Definition loadComponents : M unit :=
  tryCatch
    (client <- getRAGClient ;;
     components <- getAllComponents client ;;
     postMessage (JObj [("type", JStr "componentsLoaded");
                        ("components", components)]))
    (fun error =>
       postMessage (JObj [("type", JStr "error");
                          ("message", JStr ("Failed to load components: " ++
                                            errorToString error))])).

(** [handleSearchComponents(query)]. *)
Definition handleSearchComponents (query : JsValue) : M unit :=
  tryCatch
    (client <- getRAGClient ;;
     result <- searchComponents client
                 (JObj [("query", query); ("limit", JNum 20)]) ;;
     results <- prop result "results" ;;
     items <- lift (arrayItems "result.results" "map" results) ;;
     components <- mapM (fun r => prop r "component") items ;;
     postMessage (JObj [("type", JStr "searchResults");
                        ("results", JArr components)]))
    (fun error =>
       postMessage (JObj [("type", JStr "error");
                          ("message", JStr ("Search failed: " ++
                                            errorToString error))])).

(** [handleDeleteComponent(componentId)]. *)
Definition handleDeleteComponent (componentId : JsValue) : M unit :=
  tryCatch
    (client <- getRAGClient ;;
     deleteComponent client componentId ;;
     postMessage (JObj [("type", JStr "componentDeleted");
                        ("componentId", componentId)]) ;;
     loadComponents ;;
     showInformationMessage "Component deleted")
    (fun error =>
       showErrorMessage ("Failed to delete component: " ++ errorToString error)).

End Sidebar.

(* ===================================================================== *)
(** ** Extension: the scan command of extension.ts                        *)
(* ===================================================================== *)

Module Extension.
Import Text Js Host Client.

(** The command [component-ai.scanFolder]; [picked] is what the folder
    dialog returned. *)
Definition scanFolderCommand (picked : option string) : M unit :=
  match picked with
  | None => ret tt
  | Some folderPath =>
      tryCatch
        (client <- getRAGClient ;;
         result <- scanFolder client
                     (JObj [("folder_path", JStr folderPath);
                            ("include_storybooks", JBool true);
                            ("include_tests", JBool false);
                            ("recursive", JBool true)]) ;;
         components_found <- prop result "components_found" ;;
         showInformationMessage ("Scanned " ++ toStr components_found ++
                                 " components") ;;
         Sidebar.loadComponents)
        (fun error =>
           showErrorMessage ("Failed to scan folder: " ++ errorToString error))
  end.

End Extension.

(* ===================================================================== *)
(** ** Sample surroundings used by the examples                           *)
(* ===================================================================== *)

Module Sample.
Import Text Js Host.

Definition button : JsValue :=
  JObj [("id", JStr "c1");
        ("name", JStr "Button");
        ("description", JStr "A clickable button");
        ("file_path", JStr "/src/Button.tsx");
        ("import_path", JStr "@ui/button");
        ("export_type", JStr "named");
        ("props", JArr [JObj [("name", JStr "label");
                              ("type", JStr "string");
                              ("required", JBool true)]]);
        ("examples", JArr [JObj [("title", JStr "Basic");
                                 ("code", JStr "<Button label='ok' />")]]);
        ("category", JStr "inputs");
        ("tags", JArr [JStr "form"])].

Definition avatar : JsValue :=
  JObj [("id", JStr "c2");
        ("name", JStr "Avatar");
        ("description", JStr "A user picture");
        ("file_path", JStr "/src/Avatar.tsx");
        ("props", JArr []);
        ("examples", JArr [])].

Definition hit (c : JsValue) : JsValue :=
  JObj [("component", c); ("score", JNum 1); ("matched_fields", JArr [])].

(** A service that is up and knows the two components. *)
Definition upService (_ : list HttpRequest) (r : HttpRequest) : HttpOutcome :=
  match reqMethod r with
  | GET =>
      if String.eqb (reqPath r) "/api/health"
      then Resolved (JObj [("status", JStr "healthy")])
      else if String.eqb (reqPath r) "/api/components"
      then Resolved (JArr [button; avatar])
      else if String.eqb (reqPath r) "/api/components/name/Button"
      then Resolved (JArr [button])
      else if startsWith (reqPath r) "/api/components/name/"
      then Resolved (JArr [])
      else Rejected (mkError "AxiosError" "Request failed with status code 404")
  | POST =>
      if String.eqb (reqPath r) "/api/scan"
      then Resolved (JObj [("components_found", JNum 2);
                           ("components", JArr [button; avatar])])
      else Resolved (JObj [("results", JArr [hit button]);
                           ("total", JNum 1);
                           ("query", JStr "")])
  | PUT => Resolved button
  | DELETE => Resolved (JStr "")
  end.

Definition up : World := mkWorld None upService.

(** A service that answers every request with the same data. *)
Definition answering (data : JsValue) : World :=
  mkWorld None (fun _ _ => Resolved data).

(** A component the service knows by name only. *)
Definition card : JsValue := JObj [("id", JStr "c3"); ("name", JStr "Card")].

(** A service of which only the health route works. *)
Definition healthOnly : World :=
  mkWorld None
          (fun _ r =>
             if String.eqb (reqPath r) "/api/health"
             then Resolved (JObj [("status", JStr "healthy")])
             else Rejected (mkError "AxiosError"
                                    "Request failed with status code 500")).

(** A healthy service whose every answer also carries a list of hits,
    the second of which is [null]. *)
Definition brokenHits : World :=
  answering (JObj [("status", JStr "healthy");
                   ("results", JArr [hit button; JNull])]).

(** A service that answers the health check with another status. *)
Definition degraded : World :=
  mkWorld None (fun _ _ => Resolved (JObj [("status", JStr "unhealthy")])).

(** No service listening: every request is rejected. *)
Definition down : World :=
  mkWorld (Some 9000%Z)
          (fun _ _ => Rejected (mkError "AxiosError" "connect ECONNREFUSED")).

End Sample.

(* ===================================================================== *)
(** ** Details: the component sheet of sidebar/provider.ts                *)
(* ===================================================================== *)

Module Details.
Import Text Js.

(** Sequencing of evaluations that may throw. *)
Definition bindR {A B} (r : Res A) (k : A -> Res B) : Res B :=
  match r with
  | Ok a => k a
  | Throw e => Throw e
  end.

Declare Scope res_scope.
Delimit Scope res_scope with res.
Notation "x <- r ;; k" := (bindR r (fun x => k))
  (at level 61, r at next level, right associativity) : res_scope.
#[local] Open Scope res_scope.

(** [for (const x of xs) { content += piece x }]. *)
Fixpoint appendEach {A} (piece : A -> Res string) (xs : list A) (content : string)
  : Res string :=
  match xs with
  | [] => Ok content
  | x :: rest => p <- piece x ;; appendEach piece rest (content ++ p)
  end.

(** [xs.join(sep)] for an array of strings. *)
Fixpoint join (sep : string) (xs : list string) : string :=
  match xs with
  | [] => ""
  | [x] => x
  | x :: rest => x ++ sep ++ join sep rest
  end.

Definition tick3 : string := bq ++ bq ++ bq.

(** One line of the Props section, with the description line when the
    prop has one. *)
Definition propLines (prop : JsValue) : Res string :=
  name <- getProp prop "name" ;;
  type <- getProp prop "type" ;;
  required <- getProp prop "required" ;;
  description <- getProp prop "description" ;;
  Ok ("- **" ++ toStr name ++ "**: " ++ bq ++ toStr type ++ bq ++
      (if truthy required then " (required)" else " (optional)") ++ nl ++
      (if truthy description then "  " ++ toStr description ++ nl else "")).

(** One entry of the Examples section. *)
Definition exampleLines (example : JsValue) : Res string :=
  title <- getProp example "title" ;;
  description <- getProp example "description" ;;
  code <- getProp example "code" ;;
  Ok ("### " ++ toStr title ++ nl ++ nl ++
      (if truthy description then toStr description ++ nl ++ nl else "") ++
      tick3 ++ "tsx" ++ nl ++ toStr code ++ nl ++ tick3 ++ nl ++ nl).

(** [x && x.length > 0]. *)
Definition nonEmpty (x : JsValue) : bool :=
  truthy x && gtZero (lookupProp x "length").

(** The sections that are written only for a component that has
    something to show in them. *)
Definition propsSection (content : string) (props : JsValue) : Res string :=
  if nonEmpty props then
    items <- iterate "component.props" props ;;
    content <- appendEach propLines items (content ++ "## Props" ++ nl ++ nl) ;;
    Ok (content ++ nl)
  else Ok content.

Definition examplesSection (content : string) (examples : JsValue) : Res string :=
  if nonEmpty examples then
    items <- iterate "component.examples" examples ;;
    appendEach exampleLines items (content ++ "## Examples" ++ nl ++ nl)
  else Ok content.

Definition tagsSection (content : string) (tags : JsValue) : Res string :=
  if nonEmpty tags then
    items <- arrayItems "component.tags" "map" tags ;;
    Ok (content ++ "## Tags" ++ nl ++ nl ++
        join ", " (map (fun tag => bq ++ toStr tag ++ bq) items) ++ nl)
  else Ok content.

(** [formatComponentDetails(component)]. *)
Definition formatComponentDetails (component : JsValue) : Res string :=
  name <- getProp component "name" ;;
  let content := "# " ++ toStr name ++ nl ++ nl in
  description <- getProp component "description" ;;
  let content := content ++ toStr description ++ nl ++ nl in
  category <- getProp component "category" ;;
  let content :=
    if truthy category
    then content ++ "**Category:** " ++ toStr category ++ nl ++ nl
    else content in
  file_path <- getProp component "file_path" ;;
  let content :=
    if truthy file_path
    then content ++ "**File:** " ++ bq ++ toStr file_path ++ bq ++ nl ++ nl
    else content in
  import_path <- getProp component "import_path" ;;
  let content :=
    if truthy import_path
    then content ++ "**Import:**" ++ nl ++ tick3 ++ "tsx" ++ nl ++
         "import { " ++ toStr name ++ " } from '" ++ toStr import_path ++ "';" ++
         nl ++ tick3 ++ nl ++ nl
    else content in
  props <- getProp component "props" ;;
  content <- propsSection content props ;;
  examples <- getProp component "examples" ;;
  content <- examplesSection content examples ;;
  tags <- getProp component "tags" ;;
  content <- tagsSection content tags ;;
  Ok content.

End Details.

(* ===================================================================== *)
(** ** Shell: utils/service-manager.ts, the provider's dispatch and       *)
(**    extension.ts                                                       *)
(* ===================================================================== *)

Module Shell.
Import Text Js Host Client.

(** A child process as [spawn] was asked to start it. *)
Record Process : Type := mkProcess {
  procCommand : JsValue;
  procArgs : list string;
  procCwd : string
}.

(** What a child process emits: data on its output streams, and its
    end. *)
Inductive ChildEvent : Type :=
| Stdout (data : string)
| Stderr (data : string)
| Close (code : JsValue).

(** The Python extension as [vscode.extensions.getExtension] returns it:
    whether it is active, whether [activate()] rejects, and what
    [exports.environments.getActiveEnvironmentPath()] gives. *)
Record PythonExtension : Type := mkPythonExtension {
  isActive : bool;
  activate : option JsError;
  activeEnvironmentPath : Res JsValue
}.

(** What the extension finds around it besides the service: settings,
    the folder dialog, the workspace, the file system, the [path] and
    [child_process] modules of the platform, and what a spawned process
    emits while [startService] waits for the service ([childEvents], which
    may depend on the requests issued by the end of the wait). *)
Record Env : Type := mkEnv {
  world : World;
  autoStart : option bool;
  componentPaths : option (list string);
  openDialog : option string;
  pythonExtension : option PythonExtension;
  workspaceFolder : option string;
  existsSync : string -> bool;
  pathJoin : list string -> string;
  dirname : string -> string;
  spawnError : JsValue -> option JsError;
  childEvents : Process -> list HttpRequest -> list ChildEvent
}.

(** The state of the extension: that of the client and the views, the
    fields of the [ServiceManager], the output channel, the processes
    killed, the waits, and the documents opened. *)
Record Desk : Type := mkDesk {
  host : State;
  serviceProcess : option Process;
  pythonPath : JsValue;
  output : list string;
  killed : list Process;
  sleeps : list Z;
  documents : list string
}.

Definition initialDesk : Desk :=
  mkDesk initialState None (JStr "python") [] [] [] [].

Definition E (A : Type) : Type := Env -> Desk -> Res A * Desk.

Definition retE {A} (a : A) : E A := fun _ d => (Ok a, d).

Definition throwE {A} (e : JsError) : E A := fun _ d => (Throw e, d).

Definition bindE {A B} (m : E A) (k : A -> E B) : E B :=
  fun env d =>
    match m env d with
    | (Ok a, d') => k a env d'
    | (Throw e, d') => (Throw e, d')
    end.

Definition tryE {A} (body : E A) (handler : JsError -> E A) : E A :=
  fun env d =>
    match body env d with
    | (Ok a, d') => (Ok a, d')
    | (Throw e, d') => handler e env d'
    end.

Definition liftRes {A} (r : Res A) : E A := fun _ d => (r, d).

Definition getEnv : E Env := fun env d => (Ok env, d).
Definition getDesk : E Desk := fun _ d => (Ok d, d).
Definition update (f : Desk -> Desk) : E unit := fun _ d => (Ok tt, f d).

Definition setHost (st : State) (d : Desk) : Desk :=
  mkDesk st (serviceProcess d) (pythonPath d) (output d) (killed d) (sleeps d)
         (documents d).

(** A computation of the client and the views, run inside the shell. *)
Definition liftHost {A} (m : M A) : E A :=
  fun env d =>
    let (r, st) := m (world env) (host d) in (r, setHost st d).

Declare Scope shell_scope.
Delimit Scope shell_scope with shell.
Notation "x <- m ;; k" := (bindE m (fun x => k))
  (at level 61, m at next level, right associativity) : shell_scope.
Notation "m ;; k" := (bindE m (fun _ => k))
  (at level 61, right associativity) : shell_scope.
#[local] Open Scope shell_scope.

Definition setProcess (p : option Process) (d : Desk) : Desk :=
  mkDesk (host d) p (pythonPath d) (output d) (killed d) (sleeps d) (documents d).
Definition setPythonPath (v : JsValue) (d : Desk) : Desk :=
  mkDesk (host d) (serviceProcess d) v (output d) (killed d) (sleeps d)
         (documents d).
Definition logOutput (line : string) (d : Desk) : Desk :=
  mkDesk (host d) (serviceProcess d) (pythonPath d) (output d ++ [line])
         (killed d) (sleeps d) (documents d).
Definition logKilled (p : Process) (d : Desk) : Desk :=
  mkDesk (host d) (serviceProcess d) (pythonPath d) (output d)
         (killed d ++ [p]) (sleeps d) (documents d).
Definition logSleep (ms : Z) (d : Desk) : Desk :=
  mkDesk (host d) (serviceProcess d) (pythonPath d) (output d) (killed d)
         (sleeps d ++ [ms]) (documents d).
Definition logDocument (content : string) (d : Desk) : Desk :=
  mkDesk (host d) (serviceProcess d) (pythonPath d) (output d) (killed d)
         (sleeps d) (documents d ++ [content]).

(** [outputChannel.appendLine(line)]. *)
Definition appendLine (line : string) : E unit := update (logOutput line).

(** [await new Promise((resolve) => setTimeout(resolve, ms))]. *)
Definition sleep (ms : Z) : E unit := update (logSleep ms).

(** *** ServiceManager *)

(** The request [waitForService] probes with: [axios.get] on the full
    address, through no client instance. *)
Definition probeRequest (port : Z) : HttpRequest :=
  mkRequest GET "" ("http://localhost:" ++ showZ port ++ "/api/health") None.

(** [await axios.get(url, { timeout: 1000 })]. *)
Definition probe (port : Z) : E JsValue :=
  fun env d =>
    let r := probeRequest port in
    match service (world env) (httpLog (host d)) r with
    | Resolved data => (Ok data, setHost (logRequest r (host d)) d)
    | Rejected e => (Throw e, setHost (logRequest r (host d)) d)
    end.

(** [waitForService(port, maxAttempts = 30)]: the loop runs [maxAttempts]
    times at most and returns from inside at the first probe that
    resolves. *)
Fixpoint waitForService (port : Z) (maxAttempts : nat) : E unit :=
  match maxAttempts with
  | O => throwE (Error "RAG service failed to start within timeout")
  | S rest =>
      reached <- tryE (probe port ;; retE true)
                      (fun _ => sleep 1000 ;; retE false) ;;
      if reached then retE tt else waitForService port rest
  end.

(** [spawn(command, args, { cwd, env })]. *)
Definition spawn (command : JsValue) (args : list string) (cwd : string)
  : E Process :=
  fun env d =>
    match spawnError env command with
    | Some e => (Throw e, d)
    | None => (Ok (mkProcess command args cwd), d)
    end.

(** The part of [startService] that asks the Python extension for the
    interpreter. *)
Definition findPython : E unit :=
  env <- getEnv ;;
  match pythonExtension env with
  | None => retE tt
  | Some extension =>
      (if negb (isActive extension) then
         match activate extension with
         | Some e => throwE e
         | None => retE tt
         end
       else retE tt) ;;
      pythonEnv <- liftRes (activeEnvironmentPath extension) ;;
      if truthy pythonEnv
      then update (setPythonPath (lookupProp pythonEnv "path"))
      else retE tt
  end.

(** The listeners [startService] puts on the process: on the data of
    its [stdout] and [stderr], and on its [close]. *)
Definition onStdout (data : string) : E unit :=
  appendLine ("[RAG Service] " ++ data).

Definition onStderr (data : string) : E unit :=
  appendLine ("[RAG Service Error] " ++ data).

Definition onClose (code : JsValue) : E unit :=
  appendLine ("RAG service exited with code " ++ toStr code) ;;
  update (setProcess None).

Definition onChildEvent (event : ChildEvent) : E unit :=
  match event with
  | Stdout data => onStdout data
  | Stderr data => onStderr data
  | Close code => onClose code
  end.

(** The listeners run for each event, in the order of the events. *)
Fixpoint emit (events : list ChildEvent) : E unit :=
  match events with
  | [] => retE tt
  | event :: rest => onChildEvent event ;; emit rest
  end.

(** [await m] with the listeners on [process]: what the child emits
    meanwhile is handled between the steps of [m].  The listeners write
    the output channel and the registration only, which [waitForService]
    neither reads nor writes, so the state reached is that of handling the
    events when the wait is over. *)
Definition awaiting {A} (process : Process) (m : E A) : E A :=
  fun env d =>
    let (r, d1) := m env d in
    (r, snd (emit (childEvents env process (httpLog (host d1))) env d1)).

(** [startService(port = 8765)]. *)
Definition startService (port : Z) : E bool :=
  d <- getDesk ;;
  match serviceProcess d with
  | Some _ =>
      appendLine "RAG service is already running" ;;
      retE true
  | None =>
      tryE
        (appendLine "Starting RAG service..." ;;
         findPython ;;
         env <- getEnv ;;
         match workspaceFolder env with
         | None => throwE (Error "No workspace folder found")
         | Some fsPath =>
             let servicePath :=
               pathJoin env [fsPath; "packages"; "rag-service"; "src"; "main.py"] in
             if negb (existsSync env servicePath) then
               throwE (Error ("RAG service not found at " ++ servicePath))
             else
               let serviceDir := dirname env (dirname env servicePath) in
               d <- getDesk ;;
               process <- spawn (pythonPath d)
                            ["-m"; "uvicorn"; "src.main:app"; "--host";
                             "127.0.0.1"; "--port"; showZ port]
                            serviceDir ;;
               update (setProcess (Some process)) ;;
               awaiting process (waitForService port 30) ;;
               appendLine "RAG service started successfully" ;;
               retE true
         end)
        (fun error =>
           appendLine ("Failed to start RAG service: " ++ errorToString error) ;;
           retE false)
  end.

(** [stopService()]. *)
Definition stopService : E unit :=
  d <- getDesk ;;
  match serviceProcess d with
  | Some process =>
      appendLine "Stopping RAG service..." ;;
      update (logKilled process) ;;
      update (setProcess None) ;;
      appendLine "RAG service stopped"
  | None => retE tt
  end.

(** [isRunning()]. *)
Definition isRunning : E bool :=
  d <- getDesk ;;
  retE (match serviceProcess d with Some _ => true | None => false end).

(** *** KnowledgeBaseProvider: the view and its messages *)

Definition setView (b : bool) (st : State) : State :=
  mkState (ragClient st) (httpLog st) (consoleErrors st) (chat st) b
          (posted st) (infoMessages st) (errorMessages st).

(** [resolveWebviewView(webviewView, context, token)]. *)
Definition resolveWebviewView : E unit :=
  liftHost (bind (modify (setView true)) (fun _ => Sidebar.loadComponents)).

(** [refresh()]. *)
Definition refresh : E unit := liftHost Sidebar.loadComponents.

(** [handleShowComponent(component)]: the sheet is opened as a new
    markdown document. *)
Definition handleShowComponent (component : JsValue) : E unit :=
  content <- liftRes (Details.formatComponentDetails component) ;;
  update (logDocument content).

(** [handleScanFolder()]: runs the command [component-ai.scanFolder]. *)
Definition handleScanFolder : E unit :=
  env <- getEnv ;;
  liftHost (Extension.scanFolderCommand (openDialog env)).

(** The listener [resolveWebviewView] puts on the webview's messages. *)
Definition onDidReceiveMessage (data : JsValue) : E unit :=
  type <- liftRes (getProp data "type") ;;
  if strictEq type (JStr "getComponents") then
    liftHost Sidebar.loadComponents
  else if strictEq type (JStr "searchComponents") then
    liftHost (Sidebar.handleSearchComponents (lookupProp data "query"))
  else if strictEq type (JStr "deleteComponent") then
    liftHost (Sidebar.handleDeleteComponent (lookupProp data "componentId"))
  else if strictEq type (JStr "scanFolder") then
    handleScanFolder
  else if strictEq type (JStr "showComponent") then
    handleShowComponent (lookupProp data "component")
  else retE tt.

(** *** extension.ts *)

(** The command [component-ai.startService]. *)
Definition startServiceCommand : E unit :=
  port <- liftHost configuredPort ;;
  started <- startService port ;;
  if started
  then liftHost (showInformationMessage "RAG service started successfully")
  else liftHost (showErrorMessage "Failed to start RAG service").

(** The command [component-ai.stopService]. *)
Definition stopServiceCommand : E unit :=
  stopService ;;
  liftHost (showInformationMessage "RAG service stopped").

(** The command [component-ai.refreshComponents]. *)
Definition refreshComponentsCommand : E unit :=
  refresh ;;
  liftHost (showInformationMessage "Components refreshed").

(** The body of the auto-scan loop of [activate] for one path. *)
Definition autoScanOne (path : string) : E unit :=
  tryE
    (client <- liftHost getRAGClient ;;
     liftHost (scanFolder client
                 (JObj [("folder_path", JStr path);
                        ("include_storybooks", JBool true);
                        ("include_tests", JBool false);
                        ("recursive", JBool true)])) ;;
     appendLine ("Scanned: " ++ path))
    (fun error =>
       appendLine ("Failed to scan " ++ path ++ ": " ++ errorToString error)).

(** [for (const path of componentPaths) { ... }]. *)
Fixpoint autoScan (paths : list string) : E unit :=
  match paths with
  | [] => retE tt
  | path :: rest => autoScanOne path ;; autoScan rest
  end.

(** [activate(context)], from the auto-start on: the registrations before
    it only install the handlers modelled above. *)
Definition activateExtension : E unit :=
  env <- getEnv ;;
  (if match autoStart env with Some b => b | None => true end then
     port <- liftHost configuredPort ;;
     appendLine "Auto-starting RAG service..." ;;
     startService port ;;
     retE tt
   else retE tt) ;;
  let paths := match componentPaths env with Some ps => ps | None => [] end in
  match paths with
  | [] => retE tt
  | _ :: _ =>
      appendLine "Auto-scanning configured component paths..." ;;
      autoScan paths
  end.

(** [deactivate()]. *)
Definition deactivate : E unit := stopService.

End Shell.

(* ===================================================================== *)
(** ** Sample surroundings of the shell                                   *)
(* ===================================================================== *)

Module SampleShell.
Import Text Js Host Shell.

(** No workspace, no Python extension, no settings, nothing on disk. *)
Definition bare (w : World) : Env :=
  mkEnv w None None None None None
        (fun _ => false) (Details.join "/") (fun s => s ++ "/..")
        (fun _ => None) (fun _ _ => []).




(** A service that is not up yet: it rejects the first two requests it
    sees and resolves from the third on. *)
Definition slowStart : World :=
  mkWorld None
          (fun log _ =>
             if (List.length log <? 2)%nat
             then Rejected (mkError "AxiosError" "connect ECONNREFUSED")
             else Resolved (JObj [("status", JStr "starting")])).

End SampleShell.

(* ===================================================================== *)
(** ** Vocabulary of the further properties                              *)
(* ===================================================================== *)

Module Vocabulary.
Import Text Js Host Client Agent Tools Sidebar.


(** [quiet m]: [m] issues no request. *)
Definition quiet {A} (m : M A) : Prop :=
  forall w st, httpLog (snd (m w st)) = httpLog st.

(** The methods that wrap one request: the call, the request it issues,
    the label it logs a failure under and the message of the error it
    throws.  [x] and [y] are the arguments. *)
Definition clientCalls (c : RAGClient) (x y : JsValue)
  : list (M JsValue * HttpRequest * (string * string)) :=
  [ (searchComponents c x,
     mkRequest POST (baseUrl c) "/api/search" (Some x),
     ("Search failed:", "Failed to search components"));
    (suggestComponents c x y,
     mkRequest POST (baseUrl c) "/api/search/suggest"
       (Some (JObj [("query", x);
                    ("limit", match y with JUndefined => JNum 5 | _ => y end)])),
     ("Suggest failed:", "Failed to suggest components"));
    (getAllComponents c,
     mkRequest GET (baseUrl c) "/api/components" None,
     ("Failed to get components:", "Failed to get components"));
    (getComponent c x,
     mkRequest GET (baseUrl c) ("/api/components/" ++ toStr x) None,
     ("Failed to get component:", "Failed to get component"));
    (getComponentsByName c x,
     mkRequest GET (baseUrl c) ("/api/components/name/" ++ toStr x) None,
     ("Failed to get components by name:", "Failed to get components by name"));
    (createComponent c x,
     mkRequest POST (baseUrl c) "/api/components" (Some x),
     ("Failed to create component:", "Failed to create component"));
    (updateComponent c x y,
     mkRequest PUT (baseUrl c) ("/api/components/" ++ toStr x) (Some y),
     ("Failed to update component:", "Failed to update component")) ].

Import Shell Details.

(** A field that is absent, or an array without [undefined] and [null]
    entries. *)
Definition entriesOrAbsent (v : JsValue) : bool :=
  match v with
  | JUndefined | JNull => true
  | JArr items => forallb (fun x => negb (isNullish x)) items
  | _ => false
  end.

(** A field that is absent, or an array. *)
Definition arrayOrAbsent (v : JsValue) : bool :=
  match v with
  | JUndefined | JNull | JArr _ => true
  | _ => false
  end.

(** A component as the service sends it: an object whose [props] and
    [examples] are lists of entries and whose [tags] is a list. *)
Definition sheetable (component : JsValue) : bool :=
  negb (isNullish component) &&
  entriesOrAbsent (lookupProp component "props") &&
  entriesOrAbsent (lookupProp component "examples") &&
  arrayOrAbsent (lookupProp component "tags").

(** The path [startService] expects the service at. *)
Definition servicePathOf (env : Env) (fsPath : string) : string :=
  pathJoin env [fsPath; "packages"; "rag-service"; "src"; "main.py"].

(** The process [startService] spawns. *)
Definition serviceProcessOf (env : Env) (fsPath : string) (python : JsValue)
           (port : Z) : Process :=
  mkProcess python
            ["-m"; "uvicorn"; "src.main:app"; "--host"; "127.0.0.1"; "--port";
             showZ port]
            (dirname env (dirname env (servicePathOf env fsPath))).

(** The line [startService] writes when it gives up. *)
Definition startFailure (e : JsError) : string :=
  "Failed to start RAG service: " ++ errorToString e.

(** Whether an event is the end of the process. *)
Definition isClose (event : ChildEvent) : bool :=
  match event with Close _ => true | _ => false end.

(** The line the listeners write for an event. *)
Definition childLine (event : ChildEvent) : string :=
  match event with
  | Stdout data => "[RAG Service] " ++ data
  | Stderr data => "[RAG Service Error] " ++ data
  | Close code => "RAG service exited with code " ++ toStr code
  end.

(** The state once the listeners have handled the events: a line for
    each, and no process registered when one of them is its end. *)
Definition afterEvents (events : list ChildEvent) (d : Desk) : Desk :=
  mkDesk (host d)
         (if existsb isClose events then None else serviceProcess d)
         (pythonPath d) (output d ++ map childLine events)
         (killed d) (sleeps d) (documents d).

(** What the callers of [scanFolder] make it post: the caller's
    [folder_path] and [include_storybooks] are spelled the other way and
    so are lost on the way; [recursive] gets through. *)
Definition blindScanWire (recursive : bool) : JsValue :=
  JObj [("folder_path", JUndefined);
        ("include_storybooks", JBool true);
        ("include_tests", JBool false);
        ("recursive", JBool recursive)].

(** What the search tool keeps of a hit. *)
Definition searchEntry (hit : JsValue) : JsValue :=
  let component := lookupProp hit "component" in
  JObj [("name", lookupProp component "name");
        ("description", lookupProp component "description");
        ("importPath", lookupProp component "import_path");
        ("props", lookupProp component "props");
        ("score", lookupProp hit "score")].

(** What the suggest tool keeps of a hit: the same and the first example. *)
Definition suggestEntry (hit : JsValue) : JsValue :=
  let component := lookupProp hit "component" in
  JObj [("name", lookupProp component "name");
        ("description", lookupProp component "description");
        ("importPath", lookupProp component "import_path");
        ("props", lookupProp component "props");
        ("score", lookupProp hit "score");
        ("examples",
         match lookupProp component "examples" with
         | JArr items => JArr (firstn 1 items)
         | other => other
         end)].

(** A hit whose component has a list of examples. *)
Definition hasExamples (hit : JsValue) : bool :=
  isArray (lookupProp (lookupProp hit "component") "examples").

(** The auto-scan part of [activate]. *)
Definition autoScanPart (paths : list string) : E unit :=
  match paths with
  | [] => retE tt
  | _ :: _ =>
      bindE (appendLine "Auto-scanning configured component paths...")
            (fun _ => autoScan paths)
  end.

End Vocabulary.

(* ===================================================================== *)
(** * Properties                                                          *)
(* ===================================================================== *)

Import Text Js Host Client.

(** ** Vocabulary of the properties *)

(** [sub] occurs in [s]. *)
Definition Contains (s sub : string) : Prop :=
  exists pre post, s = pre ++ sub ++ post.

(** The instance [getRAGClient] hands out in a given state. *)
Definition currentClient (w : World) (st : State) : RAGClient :=
  match ragClient st with
  | Some c => c
  | None => newRAGClient (match configPort w with Some p => p | None => 8765%Z end)
  end.

(** The state [getRAGClient] leaves. *)
Definition withClient (w : World) (st : State) : State :=
  match ragClient st with
  | Some _ => st
  | None => setClient (Some (currentClient w st)) st
  end.

(** The request the health check issues. *)
Definition healthRequest (c : RAGClient) : HttpRequest :=
  mkRequest GET (baseUrl c) "/api/health" None.

(** Whether a response to the health request says the service is well. *)
Definition saysHealthy (o : HttpOutcome) : bool :=
  match o with
  | Resolved data =>
      match getProp data "status" with
      | Ok status => strictEq status (JStr "healthy")
      | Throw _ => false
      end
  | Rejected _ => false
  end.

(** The state in which a handler starts once the health check passed. *)
Definition afterHealthCheck (w : World) (st : State) : State :=
  logChat ("🔍 Searching for components..." ++ nl ++ nl)
          (logRequest (healthRequest (currentClient w st)) (withClient w st)).

(** The two shapes of a tool result. *)
Definition isSuccess (v : JsValue) : Prop :=
  exists fields, v = JObj (("success", JBool true) :: fields).

Definition isFailure (v : JsValue) : Prop :=
  exists msg, v = JObj [("success", JBool false); ("error", JStr msg)].

(** [yields m P]: whenever [m] returns, the value returned satisfies [P]. *)
Definition yields {A} (m : M A) (P : A -> Prop) : Prop :=
  forall w st a st', m w st = (Ok a, st') -> P a.

(** [stateless m]: [m] leaves the state as it found it. *)
Definition stateless {A} (m : M A) : Prop := forall w st, snd (m w st) = st.

(** The body [scanFolder] posts for a request. *)
Definition scanWire (request : JsValue) : JsValue :=
  JObj [("folder_path", lookupProp request "folderPath");
        ("include_storybooks",
         coalesce (lookupProp request "includeStorybooks") (JBool true));
        ("include_tests",
         coalesce (lookupProp request "includeTests") (JBool false));
        ("recursive",
         coalesce (lookupProp request "recursive") (JBool true))].

Definition scanRequest (c : RAGClient) (request : JsValue) : HttpRequest :=
  mkRequest POST (baseUrl c) "/api/scan" (Some (scanWire request)).

(** [keeps c m]: run in a state whose module variable holds the client
    [c], the computation [m] leaves [c] there. *)
Definition keeps {A} (c : RAGClient) (m : M A) : Prop :=
  forall w st, ragClient st = Some c -> ragClient (snd (m w st)) = Some c.

(** The message the provider posts after a deletion. *)
Definition componentDeleted (componentId : JsValue) : JsValue :=
  JObj [("type", JStr "componentDeleted"); ("componentId", componentId)].

(** The state after [lines] were streamed to the chat. *)
Definition streamed (lines : list string) (st : State) : State :=
  mkState (ragClient st) (httpLog st) (consoleErrors st) (chat st ++ lines)
          (hasView st) (posted st) (infoMessages st) (errorMessages st).

(** [renders m r lines]: whatever the world and the state, [m] ends as
    [r], has streamed [lines] to the chat and has done nothing else. *)
Definition renders {A} (m : M A) (r : Res A) (lines : list string) : Prop :=
  forall w st, m w st = (r, streamed lines st).

(** [x && x.length > 0]. *)
Definition nonEmpty (x : JsValue) : bool :=
  truthy x && gtZero (lookupProp x "length").

(** Entries that can be read: none of them is [undefined] or [null]. *)
Definition allReadable (items : list JsValue) : bool :=
  forallb (fun x => negb (isNullish x)) items.

(** A field a loop runs over when it is not empty: it is empty, or it
    can be iterated and each of its entries read. *)
Definition listable (v : JsValue) : bool :=
  negb (nonEmpty v) ||
  match iterate "" v with
  | Ok items => allReadable items
  | Throw _ => false
  end.

(** The entries of a field that is listed. *)
Definition entries (v : JsValue) : list JsValue :=
  match iterate "" v with
  | Ok items => items
  | Throw _ => []
  end.

(** A component [handleExplain] can explain to the end. *)
Definition explainable (comp : JsValue) : bool :=
  negb (isNullish comp) &&
  listable (lookupProp comp "props") &&
  listable (lookupProp comp "examples").

(** What [handleExplain] streams for a prop, for an example and for the
    whole component. *)
Definition explainedProp (p : JsValue) : list string :=
  let line :=
    "- **" ++ toStr (lookupProp p "name") ++ "**: " ++ bq ++
    toStr (lookupProp p "type") ++ bq ++
    (if truthy (lookupProp p "required") then " (required)" else " (optional)") ++
    nl in
  let description := "  - " ++ toStr (lookupProp p "description") ++ nl in
  line :: (if truthy (lookupProp p "description") then [description] else []).

Definition explainedExample (example : JsValue) : list string :=
  let title := "### " ++ toStr (lookupProp example "title") ++ nl ++ nl in
  let description := toStr (lookupProp example "description") ++ nl ++ nl in
  let code :=
    Agent.tick3 ++ "tsx" ++ nl ++ toStr (lookupProp example "code") ++ nl ++
    Agent.tick3 ++ nl ++ nl in
  title ::
  app (if truthy (lookupProp example "description") then [description] else [])
      [code].

Definition explained (comp : JsValue) : list string :=
  let name := lookupProp comp "name" in
  let import_path := lookupProp comp "import_path" in
  let props := lookupProp comp "props" in
  let examples := lookupProp comp "examples" in
  let title := "# " ++ toStr name ++ nl ++ nl in
  let description := toStr (lookupProp comp "description") ++ nl ++ nl in
  let category :=
    "**Category:** " ++ toStr (lookupProp comp "category") ++ nl ++ nl in
  let import :=
    "**Import:**" ++ nl ++ Agent.tick3 ++ "tsx" ++ nl ++
    "import { " ++ toStr name ++ " } from '" ++ toStr import_path ++ "';" ++
    nl ++ Agent.tick3 ++ nl ++ nl in
  let propsTitle := "## Props" ++ nl ++ nl in
  let examplesTitle := "## Examples" ++ nl ++ nl in
  app [title; description]
   (app (if truthy (lookupProp comp "category") then [category] else [])
    (app (if truthy import_path then [import] else [])
     (app (if nonEmpty props
           then propsTitle :: app (flat_map explainedProp (entries props)) [nl]
           else [])
          (if nonEmpty examples
           then examplesTitle :: flat_map explainedExample (entries examples)
           else [])))).

(** The props the search handler lists (the first three) can be shown:
    there are none, or they can be cut and iterated, and each read. *)
Definition propsShowable (props : JsValue) : bool :=
  negb (nonEmpty props) ||
  match sliceFirst "" 3 props with
  | Ok shown =>
      match iterate "" shown with
      | Ok items => allReadable items
      | Throw _ => false
      end
  | Throw _ => false
  end.

(** The first example can be shown: there is none, or it can be read. *)
Definition exampleShowable (examples : JsValue) : bool :=
  negb (nonEmpty examples) ||
  match getFirst examples with
  | Ok example => negb (isNullish example)
  | Throw _ => false
  end.

(** A hit the search handler, and the suggest handler, can show. *)
Definition searchHitShowable (item : JsValue) : bool :=
  let comp := lookupProp item "component" in
  negb (isNullish item) && negb (isNullish comp) &&
  propsShowable (lookupProp comp "props") &&
  exampleShowable (lookupProp comp "examples").

Definition suggestHitShowable (item : JsValue) : bool :=
  let comp := lookupProp item "component" in
  negb (isNullish item) && negb (isNullish comp) &&
  exampleShowable (lookupProp comp "examples").

(** An answer a handler can show to the end: its [results] have length
    0, or they can be iterated and each hit shown. *)
Definition resultsShowable (hitShowable : JsValue -> bool) (data : JsValue) : bool :=
  let results := lookupProp data "results" in
  negb (isNullish data) && negb (isNullish results) &&
  (strictEq (lookupProp results "length") (JNum 0) ||
   match iterate "" results with
   | Ok items => forallb hitShowable items
   | Throw _ => false
   end).

(** An answer to the lookup by name that [handleExplain] can show to the
    end: it has length 0, or its first element can be explained. *)
Definition firstExplainable (components : JsValue) : bool :=
  negb (isNullish components) &&
  (strictEq (lookupProp components "length") (JNum 0) ||
   match getFirst components with
   | Ok comp => explainable comp
   | Throw _ => false
   end).

(** The line that ends what is shown of a hit. *)
Definition hitEnd : string := "---" ++ nl ++ nl.

(** The request the handler of the prompt's intent issues; there is none
    when the intent is to explain and no name can be taken from the
    prompt. *)
Definition handlerRequest (c : RAGClient) (prompt : string) : option HttpRequest :=
  match Agent.determineIntent prompt with
  | Agent.search =>
      Some (mkRequest POST (baseUrl c) "/api/search"
              (Some (JObj [("query", JStr prompt); ("limit", JNum 5)])))
  | Agent.suggest =>
      Some (mkRequest POST (baseUrl c) "/api/search/suggest"
              (Some (JObj [("query", JStr prompt); ("limit", JNum 5)])))
  | Agent.explain =>
      match Agent.extractComponentName prompt with
      | Some name =>
          Some (mkRequest GET (baseUrl c) ("/api/components/name/" ++ name) None)
      | None => None
      end
  end.

(** The label under which the client logs a rejected request of the
    handler, and the error it throws instead. *)
Definition clientLabel (intent : Agent.Intent) : string :=
  match intent with
  | Agent.search => "Search failed:"
  | Agent.suggest => "Suggest failed:"
  | Agent.explain => "Failed to get components by name:"
  end.

Definition clientError (intent : Agent.Intent) : JsError :=
  match intent with
  | Agent.search => Error "Failed to search components"
  | Agent.suggest => Error "Failed to suggest components"
  | Agent.explain => Error "Failed to get components by name"
  end.

(** The line a handler streams for an error it caught. *)
Definition failureLine (intent : Agent.Intent) (e : JsError) : string :=
  match intent with
  | Agent.search => "Failed to search: "
  | Agent.suggest => "Failed to get suggestions: "
  | Agent.explain => "Failed to explain component: "
  end ++ errorToString e.

(** An answer the handler of the intent can show to the end. *)
Definition showable (intent : Agent.Intent) (data : JsValue) : bool :=
  match intent with
  | Agent.search => resultsShowable searchHitShowable data
  | Agent.suggest => resultsShowable suggestHitShowable data
  | Agent.explain => firstExplainable data
  end.

(** What the handler has streamed when it showed an answer to the end:
    the line for an empty answer, or else the count and the hits, each
    ended by [hitEnd], and for the explain intent the explanation of the
    first component of the answer. *)
Definition completed (prompt : string) (data : JsValue) (shown : list string)
  : Prop :=
  let len := lookupProp (lookupProp data "results") "length" in
  match Agent.determineIntent prompt with
  | Agent.search =>
      if strictEq len (JNum 0)
      then shown = ["No components found matching your query."]
      else exists mid,
          shown = ("Found " ++ toStr len ++ " components:" ++ nl ++ nl) ::
                  app mid [hitEnd]
  | Agent.suggest =>
      if strictEq len (JNum 0)
      then shown = ["No component suggestions found for your description."]
      else exists mid,
          shown = ("Here are " ++ toStr len ++ " component suggestions:" ++
                   nl ++ nl) :: app mid [hitEnd]
  | Agent.explain =>
      if strictEq (lookupProp data "length") (JNum 0)
      then exists name,
          Agent.extractComponentName prompt = Some name /\
          shown = ["Component " ++ dq ++ name ++ dq ++
                   " not found in the knowledge base."]
      else exists first, getFirst data = Ok first /\ shown = explained first
  end.

(** A hit with a component in it. *)
Definition isHit (hit : JsValue) : bool :=
  negb (isNullish hit) && negb (isNullish (lookupProp hit "component")).

(** A value that has the method [slice]: an array or a string. *)
Definition sliceable (v : JsValue) : bool :=
  match v with JArr _ | JStr _ => true | _ => false end.

(** The answers each tool can turn into its result. *)
Definition searchToolReads (data : JsValue) : bool :=
  negb (isNullish data) &&
  match lookupProp data "results" with
  | JArr hits => forallb isHit hits
  | _ => false
  end.

Definition suggestToolReads (data : JsValue) : bool :=
  negb (isNullish data) &&
  match lookupProp data "results" with
  | JArr hits =>
      forallb (fun h =>
                 isHit h &&
                 sliceable (lookupProp (lookupProp h "component") "examples"))
              hits
  | _ => false
  end.

Definition explainToolReads (components : JsValue) : bool :=
  negb (isNullish components) &&
  (strictEq (lookupProp components "length") (JNum 0) ||
   match getFirst components with
   | Ok first => negb (isNullish first)
   | Throw _ => false
   end).

Definition scanToolReads (data : JsValue) : bool :=
  negb (isNullish data) &&
  match lookupProp data "components" with
  | JArr cs => allReadable cs
  | _ => false
  end.

(** The four tools, run on [parameters]: the call, the words its
    failure text begins with, the request it issues, the error the client
    throws when that request is rejected, and the answers it can read. *)
Definition toolCases (c : RAGClient) (parameters : JsValue)
  : list (M JsValue * string * (HttpRequest * JsError * (JsValue -> bool))) :=
  [ (Tools.searchComponentsTool parameters, "Failed to search components: ",
     (mkRequest POST (baseUrl c) "/api/search"
        (Some (JObj [("query", lookupProp parameters "query");
                     ("limit", or_else (lookupProp parameters "limit")
                                       (JNum 10))])),
      Error "Failed to search components", searchToolReads));
    (Tools.explainComponentTool parameters, "Failed to get component details: ",
     (mkRequest GET (baseUrl c)
        ("/api/components/name/" ++
         toStr (lookupProp parameters "componentName")) None,
      Error "Failed to get components by name", explainToolReads));
    (Tools.suggestComponentForUITool parameters,
     "Failed to suggest components: ",
     (mkRequest POST (baseUrl c) "/api/search/suggest"
        (Some (JObj [("query", lookupProp parameters "uiDescription");
                     ("limit", or_else (lookupProp parameters "limit")
                                       (JNum 5))])),
      Error "Failed to suggest components", suggestToolReads));
    (Tools.scanComponentFolderTool parameters, "Failed to scan folder: ",
     (scanRequest c
        (JObj [("folder_path", lookupProp parameters "folderPath");
               ("include_storybooks",
                JBool (negb (strictEq (lookupProp parameters "includeStorybooks")
                                      (JBool false))));
               ("include_tests", JBool false);
               ("recursive",
                JBool (negb (strictEq (lookupProp parameters "recursive")
                                      (JBool false))))]),
      Error "Failed to scan folder", scanToolReads)) ].

(** ** Substrings *)

Lemma startsWith_spec (sub s : string) :
  startsWith s sub = true <-> exists post, s = sub ++ post.
Proof.
  revert s. induction sub as [|a sub IH]; intros s; simpl.
  - split; [intros _; exists s; reflexivity | reflexivity].
  - destruct s as [|b s].
    + split; [discriminate | intros [post H]; discriminate].
    + rewrite andb_true_iff, Ascii.eqb_eq, IH. split.
      * intros [-> [post ->]]. exists post. reflexivity.
      * intros [post H]. injection H as -> ->. split; [reflexivity | eauto].
Qed.

Lemma includes_spec (s sub : string) :
  includes s sub = true <-> Contains s sub.
Proof.
  unfold Contains. induction s as [|c s IH].
  - simpl. rewrite orb_false_r, startsWith_spec. split.
    + intros [post H]. exists "", post. exact H.
    + intros [pre [post H]]. destruct pre; simpl in H.
      * exists post. exact H.
      * discriminate.
  - cbn [includes]. rewrite orb_true_iff, startsWith_spec, IH. split.
    + intros [[post H] | [pre [post H]]].
      * exists "", post. exact H.
      * exists (String c pre), post. simpl. rewrite H. reflexivity.
    + intros [pre [post H]]. destruct pre as [|c' pre]; simpl in H.
      * left. exists post. exact H.
      * right. injection H as _ H. exists pre, post. exact H.
Qed.

Lemma includes_false (s sub : string) :
  includes s sub = false <-> ~ Contains s sub.
Proof.
  rewrite <- includes_spec. destruct (includes s sub); split;
    congruence || (intros H; exfalso; apply H; reflexivity) || reflexivity.
Qed.

(** Only the empty string has no characters. *)
Lemma chars_nil (s : string) : chars s = [] -> s = "".
Proof.
  destruct s as [|c rest]; [reflexivity|]. cbn [chars].
  destruct (chars rest) as [|[|d next] more];
    try destruct (isContinuation d); discriminate.
Qed.

(** ** Running the client *)

Lemma getRAGClient_run (w : World) (st : State) :
  getRAGClient w st = (Ok (currentClient w st), withClient w st).
Proof.
  unfold getRAGClient, withClient, currentClient, bind, getState.
  destruct (ragClient st) as [c|] eqn:E; reflexivity.
Qed.

Lemma withClient_httpLog (w : World) (st : State) :
  httpLog (withClient w st) = httpLog st.
Proof. unfold withClient. destruct (ragClient st); reflexivity. Qed.

Lemma withClient_chat (w : World) (st : State) :
  chat (withClient w st) = chat st.
Proof. unfold withClient. destruct (ragClient st); reflexivity. Qed.

Lemma withClient_ragClient (w : World) (st : State) :
  ragClient (withClient w st) = Some (currentClient w st).
Proof.
  unfold withClient, currentClient.
  destruct (ragClient st) eqn:E; simpl; [exact E | reflexivity].
Qed.

Lemma healthCheck_run (c : RAGClient) (w : World) (st : State) :
  healthCheck c w st =
  (Ok (saysHealthy (service w (httpLog st) (healthRequest c))),
   logRequest (healthRequest c) st).
Proof.
  unfold healthCheck, tryCatch, bind, http, prop, lift, ret, saysHealthy,
    healthRequest.
  destruct (service w (httpLog st) _) as [data|e]; [|reflexivity].
  destruct (getProp data "status"); reflexivity.
Qed.

Lemma strictEq_str (v : JsValue) (s : string) :
  strictEq v (JStr s) = true <-> v = JStr s.
Proof.
  destruct v; simpl; try (split; [discriminate | discriminate]).
  rewrite String.eqb_eq. split; [intros -> | intros [= ->]]; reflexivity.
Qed.

(** A [try] never lets an exception out when its [catch] block cannot. *)
Lemma tryCatch_returns {A} (body : M A) (handler : JsError -> M A) :
  (forall e w st, exists a st', handler e w st = (Ok a, st')) ->
  forall w st, exists a st', tryCatch body handler w st = (Ok a, st').
Proof.
  intros Hh w st. unfold tryCatch.
  destruct (body w st) as [[a|e] st']; [eauto | apply Hh].
Qed.

(** After fetching the client, a guarded body cannot let an exception
    out either. *)
Lemma guarded_returns {A} (body : RAGClient -> M A) (handler : JsError -> M A) :
  (forall e w st, exists a st', handler e w st = (Ok a, st')) ->
  forall w st, exists a st',
    bind getRAGClient (fun c => tryCatch (body c) handler) w st = (Ok a, st').
Proof.
  intros Hh w st. unfold bind at 1. rewrite getRAGClient_run.
  apply tryCatch_returns. exact Hh.
Qed.

(** ** The health check (client.ts) *)

(** C4.  [healthCheck] never throws; it issues the request
    [GET /api/health] and returns [true] exactly when the request resolved
    with data whose [status] field is the string ['healthy'].  A rejected
    request (transport failure) and every other status give [false]. *)
Theorem healthCheck_true_iff_healthy (c : RAGClient) (w : World) (st : State) :
  exists b : bool,
    healthCheck c w st = (Ok b, logRequest (healthRequest c) st) /\
    (b = true <->
     exists data,
       service w (httpLog st) (healthRequest c) = Resolved data /\
       getProp data "status" = Ok (JStr "healthy")) /\
    (forall e,
       service w (httpLog st) (healthRequest c) = Rejected e -> b = false) /\
    (forall data,
       service w (httpLog st) (healthRequest c) = Resolved data ->
       getProp data "status" <> Ok (JStr "healthy") -> b = false).
Proof.
  exists (saysHealthy (service w (httpLog st) (healthRequest c))).
  split; [apply healthCheck_run|].
  unfold saysHealthy.
  destruct (service w (httpLog st) (healthRequest c)) as [data|e0].
  - destruct (getProp data "status") as [status|e1] eqn:E.
    + repeat split.
      * intros H. apply strictEq_str in H. subst. eauto.
      * intros [d [[= <-] H]]. rewrite E in H. injection H as ->. reflexivity.
      * discriminate.
      * intros d [= <-] H. rewrite E in H.
        destruct (strictEq status (JStr "healthy")) eqn:S; [|reflexivity].
        apply strictEq_str in S. subst. congruence.
    + repeat split; try discriminate.
      intros [d [[= <-] H]]. rewrite E in H. discriminate.
  - repeat split; try discriminate.
    intros [d [H _]]. discriminate.
Qed.

Lemma healthCheck_true_iff_healthy_witness :
  healthCheck (newRAGClient 8765) Sample.up initialState =
    (Ok true, logRequest (healthRequest (newRAGClient 8765)) initialState) /\
  fst (healthCheck (newRAGClient 8765) Sample.degraded initialState) = Ok false /\
  fst (healthCheck (newRAGClient 8765) Sample.down initialState) = Ok false.
Proof.
  split; [|split].
  - destruct (healthCheck_true_iff_healthy (newRAGClient 8765) Sample.up
                initialState) as [b [Hrun [Hiff _]]].
    rewrite Hrun. f_equal. f_equal. apply Hiff.
    exists (JObj [("status", JStr "healthy")]). split; reflexivity.
  - destruct (healthCheck_true_iff_healthy (newRAGClient 8765) Sample.degraded
                initialState) as [b [Hrun [_ [_ Hother]]]].
    rewrite Hrun. simpl. f_equal.
    apply (Hother (JObj [("status", JStr "unhealthy")])).
    + reflexivity.
    + simpl. discriminate.
  - destruct (healthCheck_true_iff_healthy (newRAGClient 8765) Sample.down
                initialState) as [b [Hrun [_ [Hrej _]]]].
    rewrite Hrun. simpl. f_equal.
    apply (Hrej (mkError "AxiosError" "connect ECONNREFUSED")). reflexivity.
Defined.

(** ** The chat agent (agent.ts) *)

Import Agent.

Lemma markdown_then_returns (text : string) (e : JsError) :
  forall w st, exists a st',
    (markdown (text ++ errorToString e) ;; ret emptyResult) w st = (Ok a, st').
Proof. intros w st. eexists. eexists. reflexivity. Qed.

Lemma handleSearch_returns (query : string) (w : World) (st : State) :
  exists r st', handleSearch query w st = (Ok r, st').
Proof.
  apply guarded_returns. intros e. apply markdown_then_returns.
Qed.

Lemma handleSuggest_returns (query : string) (w : World) (st : State) :
  exists r st', handleSuggest query w st = (Ok r, st').
Proof.
  apply guarded_returns. intros e. apply markdown_then_returns.
Qed.

Lemma handleExplain_returns (query : string) (w : World) (st : State) :
  exists r st', handleExplain query w st = (Ok r, st').
Proof.
  apply guarded_returns. intros e. apply markdown_then_returns.
Qed.

Lemma route_returns (intent : Intent) (query : string) (w : World) (st : State) :
  exists r st', route intent query w st = (Ok r, st').
Proof.
  destruct intent; simpl;
    [apply handleSearch_returns | apply handleSuggest_returns
    | apply handleExplain_returns].
Qed.

Lemma handleRequest_run (prompt : string) (w : World) (st : State) :
  handleRequest prompt w st =
  if saysHealthy (service w (httpLog st) (healthRequest (currentClient w st)))
  then route (determineIntent prompt) prompt w (afterHealthCheck w st)
  else (Ok emptyResult,
        logChat serviceDownNotice
                (logRequest (healthRequest (currentClient w st)) (withClient w st))).
Proof.
  unfold handleRequest, tryCatch. unfold bind at 1.
  rewrite getRAGClient_run. unfold bind at 1. rewrite healthCheck_run.
  rewrite withClient_httpLog.
  destruct (saysHealthy _); [|reflexivity].
  cbv beta iota delta [negb bind markdown modify].
  change (logChat _ (logRequest _ (withClient w st)))
    with (afterHealthCheck w st).
  destruct (route_returns (determineIntent prompt) prompt w
              (afterHealthCheck w st)) as [r [st' H]].
  rewrite H. reflexivity.
Qed.

(** C5.  When the health check reports that the service is not healthy,
    [handleRequest] streams the advisory notice and returns a normal chat
    result; the health request is the only request issued, so nothing is
    searched, suggested or explained. *)
Theorem unhealthy_is_advisory (prompt : string) (w : World) (st : State) :
  fst (healthCheck (currentClient w st) w (withClient w st)) = Ok false ->
  exists st',
    handleRequest prompt w st = (Ok emptyResult, st') /\
    chat st' = (chat st ++ [serviceDownNotice])%list /\
    httpLog st' = (httpLog st ++ [healthRequest (currentClient w st)])%list.
Proof.
  rewrite healthCheck_run, withClient_httpLog. simpl. intros [= H].
  rewrite handleRequest_run, H.
  eexists. split; [reflexivity|]. simpl.
  rewrite withClient_chat, withClient_httpLog. split; reflexivity.
Qed.

Lemma unhealthy_is_advisory_witness :
  exists st',
    handleRequest "find a date picker" Sample.down initialState =
      (Ok emptyResult, st') /\
    chat st' = [serviceDownNotice] /\
    httpLog st' = [mkRequest GET "http://localhost:9000" "/api/health" None].
Proof.
  apply (unhealthy_is_advisory "find a date picker" Sample.down initialState).
  reflexivity.
Defined.

(** C2.  [determineIntent] classifies by keywords of the lowercased
    query: [explain] exactly when it contains one of the explain keywords,
    [suggest] exactly when it contains none of those and one of the suggest
    keywords, [search] exactly when it contains none of either; and once
    the health check has passed, [handleRequest] runs the one handler of
    that intent. *)
Theorem determineIntent_routes (query : string) :
  let q := toLowerCase query in
  let explainWords :=
    Contains q "explain" \/ Contains q "what is" \/ Contains q "tell me about" in
  let suggestWords :=
    Contains q "suggest" \/ Contains q "recommend" \/ Contains q "i need" \/
    Contains q "i want to build" \/ Contains q "help me build" in
  (determineIntent query = explain <-> explainWords) /\
  (determineIntent query = suggest <-> ~ explainWords /\ suggestWords) /\
  (determineIntent query = search <-> ~ explainWords /\ ~ suggestWords) /\
  (forall w st,
     fst (healthCheck (currentClient w st) w (withClient w st)) = Ok true ->
     handleRequest query w st =
     match determineIntent query with
     | search => handleSearch query w (afterHealthCheck w st)
     | suggest => handleSuggest query w (afterHealthCheck w st)
     | explain => handleExplain query w (afterHealthCheck w st)
     end).
Proof.
  cbv zeta. set (q := toLowerCase query).
  set (E := includes q "explain" || includes q "what is" ||
            includes q "tell me about").
  set (S := includes q "suggest" || includes q "recommend" ||
            includes q "i need" || includes q "i want to build" ||
            includes q "help me build").
  assert (HE : Contains q "explain" \/ Contains q "what is" \/
               Contains q "tell me about" <-> E = true).
  { unfold E. rewrite !orb_true_iff, <- !includes_spec. tauto. }
  assert (HS : Contains q "suggest" \/ Contains q "recommend" \/
               Contains q "i need" \/ Contains q "i want to build" \/
               Contains q "help me build" <-> S = true).
  { unfold S. rewrite !orb_true_iff, <- !includes_spec. tauto. }
  assert (HI : determineIntent query
               = if E then explain else if S then suggest else search)
    by reflexivity.
  split; [|split; [|split]].
  4: { intros w st. rewrite healthCheck_run, withClient_httpLog. simpl.
       intros [= H]. rewrite handleRequest_run, H.
       destruct (determineIntent query); reflexivity. }
  all: rewrite HI, ?HE, ?HS; clear HI HE HS; clearbody E S;
    destruct E, S; split; intros H; try discriminate; try reflexivity;
    try (destruct H as [? ?]; congruence);
    try (split; congruence).
Qed.

Lemma determineIntent_routes_witness :
  determineIntent "Explain the Button" = explain /\
  handleRequest "Explain the Button" Sample.up initialState =
    handleExplain "Explain the Button" Sample.up
                  (afterHealthCheck Sample.up initialState).
Proof.
  destruct (determineIntent_routes "Explain the Button") as [H1 [_ [_ H4]]].
  split.
  - apply H1. left. exists "", " the button". reflexivity.
  - exact (H4 Sample.up initialState eq_refl).
Defined.

(** ** No exception leaves the shell (agent.ts, tools.ts) *)

Import Tools.

Lemma yields_ret {A} (a : A) (P : A -> Prop) : P a -> yields (ret a) P.
Proof. intros H w st a' st' [= <- _]. exact H. Qed.

Lemma yields_bind {A B} (m : M A) (k : A -> M B) (P : B -> Prop) :
  (forall a, yields (k a) P) -> yields (bind m k) P.
Proof.
  intros H w st b st'. unfold bind.
  destruct (m w st) as [[a|e] st1]; [apply H | discriminate].
Qed.

Lemma yields_tryCatch {A} (body : M A) (handler : JsError -> M A) (P : A -> Prop) :
  yields body P -> (forall e, yields (handler e) P) ->
  yields (tryCatch body handler) P.
Proof.
  intros Hb Hh w st a st'. unfold tryCatch.
  destruct (body w st) as [[a0|e] st1] eqn:E.
  - intros [= <- _]. exact (Hb _ _ _ _ E).
  - apply Hh.
Qed.

Ltac yield :=
  repeat first
    [ apply yields_tryCatch; [|intros ?]
    | apply yields_bind; intros ?
    | apply yields_ret
    | match goal with
      | |- yields (if ?b then _ else _) _ => destruct b
      | |- yields (match ?o with Some _ => _ | None => _ end) _ => destruct o
      end ].

Lemma toolShape_of_yields (tool : M JsValue) (w : World) (st : State) :
  (exists v st', tool w st = (Ok v, st')) ->
  yields tool (fun v => isSuccess v \/ isFailure v) ->
  exists v st', tool w st = (Ok v, st') /\ (isSuccess v \/ isFailure v).
Proof.
  intros [v [st' H]] Hy. exists v, st'. split; [exact H | exact (Hy _ _ _ _ H)].
Qed.

Ltac shape := solve [left; eexists; reflexivity | right; eexists; reflexivity].

Lemma failure_returns (what : string) (e : JsError) (w : World) (st : State) :
  exists a st', ret (failure what e) w st = (Ok a, st').
Proof. eexists. eexists. reflexivity. Qed.

Lemma searchComponentsTool_shape (parameters : JsValue) (w : World) (st : State) :
  exists v st', searchComponentsTool parameters w st = (Ok v, st') /\
                (isSuccess v \/ isFailure v).
Proof.
  apply toolShape_of_yields.
  - apply guarded_returns. intros e. apply failure_returns.
  - unfold searchComponentsTool, failure. yield; shape.
Qed.

Lemma explainComponentTool_shape (parameters : JsValue) (w : World) (st : State) :
  exists v st', explainComponentTool parameters w st = (Ok v, st') /\
                (isSuccess v \/ isFailure v).
Proof.
  apply toolShape_of_yields.
  - apply guarded_returns. intros e. apply failure_returns.
  - unfold explainComponentTool, failure. yield; shape.
Qed.

Lemma suggestComponentForUITool_shape (parameters : JsValue) (w : World) (st : State) :
  exists v st', suggestComponentForUITool parameters w st = (Ok v, st') /\
                (isSuccess v \/ isFailure v).
Proof.
  apply toolShape_of_yields.
  - apply guarded_returns. intros e. apply failure_returns.
  - unfold suggestComponentForUITool, failure. yield; shape.
Qed.

Lemma scanComponentFolderTool_shape (parameters : JsValue) (w : World) (st : State) :
  exists v st', scanComponentFolderTool parameters w st = (Ok v, st') /\
                (isSuccess v \/ isFailure v).
Proof.
  apply toolShape_of_yields.
  - apply guarded_returns. intros e. apply failure_returns.
  - unfold scanComponentFolderTool, failure. yield; shape.
Qed.

Lemma handleSearch_yields (query : string) :
  yields (handleSearch query) (fun r => r = emptyResult).
Proof. unfold handleSearch. yield; reflexivity. Qed.

Lemma handleSuggest_yields (query : string) :
  yields (handleSuggest query) (fun r => r = emptyResult).
Proof. unfold handleSuggest. yield; reflexivity. Qed.

Lemma handleExplain_yields (query : string) :
  yields (handleExplain query) (fun r => r = emptyResult).
Proof. unfold handleExplain. yield; reflexivity. Qed.

Lemma handleRequest_yields (prompt : string) :
  yields (handleRequest prompt) (fun r => r = emptyResult).
Proof.
  unfold handleRequest, route.
  yield; try reflexivity.
  destruct (determineIntent prompt);
    [apply handleSearch_yields | apply handleSuggest_yields
    | apply handleExplain_yields].
Qed.

Lemma getProp_ok (v : JsValue) (k : string) :
  isNullish v = false -> getProp v k = Ok (lookupProp v k).
Proof.
  unfold lookupProp. destruct v; simpl; intros H; try discriminate; reflexivity.
Qed.

(** Unfold the plumbing of a computation down to the calls it makes. *)
Ltac expose :=
  cbv beta iota delta [bind tryCatch ret lift prop prop2 markdown modify].

(** ** What the tools put on the wire (tools.ts) *)

Lemma stateless_ret {A} (a : A) : stateless (ret a).
Proof. intros w st. reflexivity. Qed.

Lemma stateless_lift {A} (r : Res A) : stateless (lift r).
Proof. intros w st. reflexivity. Qed.

Lemma stateless_prop (v : JsValue) (k : string) : stateless (prop v k).
Proof. apply stateless_lift. Qed.

Lemma stateless_bind {A B} (m : M A) (k : A -> M B) :
  stateless m -> (forall a, stateless (k a)) -> stateless (bind m k).
Proof.
  intros Hm Hk w st. unfold bind. specialize (Hm w st).
  destruct (m w st) as [[a|e] st1]; simpl in Hm; subst; [apply Hk | reflexivity].
Qed.

Lemma stateless_prop2 (v : JsValue) (k1 k2 : string) : stateless (prop2 v k1 k2).
Proof.
  apply stateless_bind; [apply stateless_prop | intros a; apply stateless_prop].
Qed.

Lemma stateless_mapM {A B} (f : A -> M B) (xs : list A) :
  (forall x, stateless (f x)) -> stateless (mapM f xs).
Proof.
  intros Hf. induction xs as [|x xs IH]; simpl.
  - apply stateless_ret.
  - apply stateless_bind; [apply Hf | intros y].
    apply stateless_bind; [exact IH | intros ys; apply stateless_ret].
Qed.

Ltac stateless_tac :=
  repeat first
    [ apply stateless_ret
    | apply stateless_prop2
    | apply stateless_prop
    | apply stateless_lift
    | apply stateless_mapM; intros ?
    | apply stateless_bind; [|intros ?]
    | match goal with
      | |- stateless (if ?b then _ else _) => destruct b
      end ].

(** When what follows a call is stateless, the call decides the state. *)
Lemma bind_stateless_tail {A B} (m : M A) (k : A -> M B) (w : World) (st : State) :
  (forall a, stateless (k a)) -> snd (bind m k w st) = snd (m w st).
Proof.
  intros Hk. unfold bind.
  destruct (m w st) as [[a|e] st1]; [apply Hk | reflexivity].
Qed.

Lemma tryCatch_stateless_handler {A} (body : M A) (handler : JsError -> M A)
      (w : World) (st : State) :
  (forall e, stateless (handler e)) ->
  snd (tryCatch body handler w st) = snd (body w st).
Proof.
  intros Hh. unfold tryCatch.
  destruct (body w st) as [[a|e] st1]; [reflexivity | apply Hh].
Qed.

Lemma http_log (c : RAGClient) (m : Method) (path : string) (body : option JsValue)
      (w : World) (st : State) :
  httpLog (snd (http c m path body w st))
  = (httpLog st ++ [mkRequest m (baseUrl c) path body])%list.
Proof.
  unfold http. destruct (service w (httpLog st) _); reflexivity.
Qed.

Lemma searchComponents_log (c : RAGClient) (request : JsValue) (w : World) (st : State) :
  httpLog (snd (searchComponents c request w st))
  = (httpLog st ++ [mkRequest POST (baseUrl c) "/api/search" (Some request)])%list.
Proof.
  unfold searchComponents, tryCatch, bind, http.
  destruct (service w (httpLog st) _); reflexivity.
Qed.

Lemma suggestComponents_log (c : RAGClient) (query limit : JsValue)
      (w : World) (st : State) :
  limit <> JUndefined ->
  httpLog (snd (suggestComponents c query limit w st))
  = (httpLog st ++ [mkRequest POST (baseUrl c) "/api/search/suggest"
                      (Some (JObj [("query", query); ("limit", limit)]))])%list.
Proof.
  intros Hl. unfold suggestComponents, tryCatch, bind, http.
  destruct limit; try congruence;
    destruct (service w (httpLog st) _); reflexivity.
Qed.

Lemma getProp_nullish (v : JsValue) (k : string) :
  isNullish v = true -> exists e, getProp v k = Throw e.
Proof. destruct v; simpl; intros H; try discriminate; eauto. Qed.

Lemma or_else_truthy (a b : JsValue) :
  truthy b = true -> truthy (or_else a b) = true.
Proof. unfold or_else. destruct (truthy a) eqn:E; auto. Qed.

(** C9.  The limit a tool forwards is the caller's limit when that is
    truthy and the tool's default otherwise: 10 for [searchComponents],
    5 for [suggestComponentForUI].  The one request each tool issues
    carries that limit, so a limit of 0 is never forwarded.  (When the
    parameters are [undefined] or [null] no request is issued.) *)
Theorem tool_limits_coerced (parameters : JsValue) (w : World) (st : State) :
  let c := currentClient w st in
  let limit := lookupProp parameters "limit" in
  let searchLimit := if truthy limit then limit else JNum 10 in
  let suggestLimit := if truthy limit then limit else JNum 5 in
  httpLog (snd (searchComponentsTool parameters w st))
  = (httpLog st ++
     if isNullish parameters then []
     else [mkRequest POST (baseUrl c) "/api/search"
             (Some (JObj [("query", lookupProp parameters "query");
                          ("limit", searchLimit)]))])%list /\
  httpLog (snd (suggestComponentForUITool parameters w st))
  = (httpLog st ++
     if isNullish parameters then []
     else [mkRequest POST (baseUrl c) "/api/search/suggest"
             (Some (JObj [("query", lookupProp parameters "uiDescription");
                          ("limit", suggestLimit)]))])%list /\
  searchLimit <> JNum 0 /\
  suggestLimit <> JNum 0.
Proof.
  cbv zeta. repeat apply conj.
  - unfold searchComponentsTool. unfold bind at 1. rewrite getRAGClient_run.
    rewrite tryCatch_stateless_handler by (intros e; apply stateless_ret).
    destruct (isNullish parameters) eqn:Hp.
    + destruct (getProp_nullish parameters "query" Hp) as [e He].
      unfold bind, prop, lift. rewrite He. simpl.
      rewrite withClient_httpLog, app_nil_r. reflexivity.
    + unfold bind at 1, prop at 1, lift at 1. rewrite (getProp_ok _ _ Hp).
      unfold bind at 1, prop at 1, lift at 1. rewrite (getProp_ok _ _ Hp).
      rewrite bind_stateless_tail by (intros a; stateless_tac).
      rewrite searchComponents_log, withClient_httpLog. reflexivity.
  - unfold suggestComponentForUITool. unfold bind at 1. rewrite getRAGClient_run.
    rewrite tryCatch_stateless_handler by (intros e; apply stateless_ret).
    destruct (isNullish parameters) eqn:Hp.
    + destruct (getProp_nullish parameters "uiDescription" Hp) as [e He].
      unfold bind, prop, lift. rewrite He. simpl.
      rewrite withClient_httpLog, app_nil_r. reflexivity.
    + unfold bind at 1, prop at 1, lift at 1. rewrite (getProp_ok _ _ Hp).
      unfold bind at 1, prop at 1, lift at 1. rewrite (getProp_ok _ _ Hp).
      rewrite bind_stateless_tail by (intros a; stateless_tac).
      rewrite suggestComponents_log, withClient_httpLog; [reflexivity|].
      unfold or_else. destruct (truthy (lookupProp parameters "limit")) eqn:E;
        [|discriminate].
      intros H. rewrite H in E. discriminate.
  - destruct (truthy (lookupProp parameters "limit")) eqn:E; [|discriminate].
    intros H. rewrite H in E. discriminate.
  - destruct (truthy (lookupProp parameters "limit")) eqn:E; [|discriminate].
    intros H. rewrite H in E. discriminate.
Qed.

Lemma tool_limits_coerced_witness :
  httpLog (snd (searchComponentsTool
                  (JObj [("query", JStr "card"); ("limit", JNum 0)])
                  Sample.up initialState))
  = [mkRequest POST "http://localhost:8765" "/api/search"
       (Some (JObj [("query", JStr "card"); ("limit", JNum 10)]))] /\
  httpLog (snd (suggestComponentForUITool
                  (JObj [("uiDescription", JStr "a profile card")])
                  Sample.up initialState))
  = [mkRequest POST "http://localhost:8765" "/api/search/suggest"
       (Some (JObj [("query", JStr "a profile card"); ("limit", JNum 5)]))].
Proof.
  split.
  - exact (proj1 (tool_limits_coerced
                    (JObj [("query", JStr "card"); ("limit", JNum 0)])
                    Sample.up initialState)).
  - exact (proj1 (proj2 (tool_limits_coerced
                           (JObj [("uiDescription", JStr "a profile card")])
                           Sample.up initialState))).
Defined.

Example tool_limit_zero_becomes_default :
  httpLog (snd (searchComponentsTool
                  (JObj [("query", JStr "card"); ("limit", JNum 0)])
                  Sample.up initialState))
  = [mkRequest POST "http://localhost:8765" "/api/search"
       (Some (JObj [("query", JStr "card"); ("limit", JNum 10)]))] /\
  httpLog (snd (suggestComponentForUITool
                  (JObj [("uiDescription", JStr "a profile card"); ("limit", JNum 3)])
                  Sample.up initialState))
  = [mkRequest POST "http://localhost:8765" "/api/search/suggest"
       (Some (JObj [("query", JStr "a profile card"); ("limit", JNum 3)]))].
Proof. split; reflexivity. Qed.

(** ** Sequences that are not empty *)

Lemma nonempty_length_not_zero (first : JsValue) (rest : list JsValue) :
  getProp (JArr (first :: rest)) "length"
  = Ok (JNum (Z.of_nat (S (List.length rest)))) /\
  strictEq (JNum (Z.of_nat (S (List.length rest)))) (JNum 0) = false.
Proof.
  split; [reflexivity|].
  unfold strictEq. apply Z.eqb_neq. lia.
Qed.

(** ** Scanning a folder (client.ts) *)

Lemma pythonRequest_run (request : JsValue) (w : World) (st : State) :
  isNullish request = false ->
  pythonRequest request w st = (Ok (scanWire request), st).
Proof.
  intros Hr. unfold pythonRequest. expose.
  rewrite !(getProp_ok request) by exact Hr. reflexivity.
Qed.

Lemma scanFolder_run (c : RAGClient) (request : JsValue) (w : World) (st : State) :
  isNullish request = false ->
  Client.scanFolder c request w st
  = match service w (httpLog st) (scanRequest c request) with
    | Resolved data =>
        if isNullish data then
          (Throw (Error "Failed to scan folder"),
           logConsole "Scan failed:"
             (TypeError ("Cannot read properties of " ++ typeName data ++
                         " (reading 'components_found')"))
             (logRequest (scanRequest c request) st))
        else
          (Ok (JObj [("componentsFound", lookupProp data "components_found");
                     ("components", lookupProp data "components");
                     ("errors", or_else (lookupProp data "errors") (JArr []))]),
           logRequest (scanRequest c request) st)
    | Rejected e =>
        (Throw (Error "Failed to scan folder"),
         logConsole "Scan failed:" e (logRequest (scanRequest c request) st))
    end.
Proof.
  intros H. unfold Client.scanFolder, tryCatch. unfold bind at 1.
  rewrite (pythonRequest_run _ _ _ H). unfold bind at 1, http.
  fold (scanRequest c request).
  destruct (service w (httpLog st) (scanRequest c request)) as [data|e];
    [|reflexivity].
  destruct (isNullish data) eqn:Hd.
  - destruct data; try discriminate; reflexivity.
  - expose. rewrite !(getProp_ok data) by exact Hd. reflexivity.
Qed.

(** C6.  [scanFolder] posts to [/api/scan] a body with [folder_path] and
    the three flags, where an omitted [includeStorybooks] goes out as
    [true], an omitted [includeTests] as [false] and an omitted [recursive]
    as [true], and a flag that is given goes out as given.  When the
    request resolves it returns [{componentsFound, components, errors}]
    read from [components_found], [components] and [errors] of the
    response; [errors] is the empty array when the response omits it, and
    the response's array when it has one: an array under the wire
    contract. *)
Theorem scanFolder_contract (c : RAGClient) (request : JsValue)
        (w : World) (st : State) :
  isNullish request = false ->
  httpLog (snd (scanFolder c request w st))
  = (httpLog st ++ [scanRequest c request])%list /\
  (lookupProp request "includeStorybooks" = JUndefined ->
   lookupProp (scanWire request) "include_storybooks" = JBool true) /\
  (lookupProp request "includeTests" = JUndefined ->
   lookupProp (scanWire request) "include_tests" = JBool false) /\
  (lookupProp request "recursive" = JUndefined ->
   lookupProp (scanWire request) "recursive" = JBool true) /\
  (forall b,
     (lookupProp request "includeStorybooks" = JBool b ->
      lookupProp (scanWire request) "include_storybooks" = JBool b) /\
     (lookupProp request "includeTests" = JBool b ->
      lookupProp (scanWire request) "include_tests" = JBool b) /\
     (lookupProp request "recursive" = JBool b ->
      lookupProp (scanWire request) "recursive" = JBool b)) /\
  (forall data,
     service w (httpLog st) (scanRequest c request) = Resolved data ->
     isNullish data = false ->
     exists errors,
       scanFolder c request w st
       = (Ok (JObj [("componentsFound", lookupProp data "components_found");
                    ("components", lookupProp data "components");
                    ("errors", errors)]),
          logRequest (scanRequest c request) st) /\
       (isNullish (lookupProp data "errors") = true -> errors = JArr []) /\
       (isArray (lookupProp data "errors") = true ->
        errors = lookupProp data "errors") /\
       (isNullish (lookupProp data "errors") = true \/
        isArray (lookupProp data "errors") = true ->
        isArray errors = true)).
Proof.
  intros Hr. repeat apply conj.
  - unfold scanFolder, tryCatch. unfold bind at 1.
    rewrite (pythonRequest_run _ _ _ Hr).
    unfold bind at 1, http.
    fold (scanRequest c request).
    destruct (service w (httpLog st) (scanRequest c request)) as [data|e];
      [|reflexivity].
    expose.
    destruct (getProp data "components_found"); [|reflexivity].
    destruct (getProp data "components"); [|reflexivity].
    destruct (getProp data "errors"); reflexivity.
  - unfold scanWire. cbn [lookupProp getProp lookup String.eqb Ascii.eqb Bool.eqb].
    intros ->. reflexivity.
  - unfold scanWire. cbn [lookupProp getProp lookup String.eqb Ascii.eqb Bool.eqb].
    intros ->. reflexivity.
  - unfold scanWire. cbn [lookupProp getProp lookup String.eqb Ascii.eqb Bool.eqb].
    intros ->. reflexivity.
  - intros b. unfold scanWire.
    cbn [lookupProp getProp lookup String.eqb Ascii.eqb Bool.eqb].
    repeat apply conj; intros ->; reflexivity.
  - intros data Hs Hd.
    exists (or_else (lookupProp data "errors") (JArr [])).
    repeat apply conj.
    + unfold scanFolder, tryCatch. unfold bind at 1.
      rewrite (pythonRequest_run _ _ _ Hr).
      unfold bind at 1, http. fold (scanRequest c request). rewrite Hs.
      expose. rewrite !(getProp_ok data) by exact Hd. reflexivity.
    + unfold or_else. destruct (lookupProp data "errors"); simpl;
        intros H; try discriminate; reflexivity.
    + unfold or_else. destruct (lookupProp data "errors"); simpl;
        intros H; try discriminate; reflexivity.
    + unfold or_else. destruct (lookupProp data "errors"); simpl;
        intros [H|H]; try discriminate; reflexivity.
Qed.

Lemma scanFolder_contract_witness :
  httpLog (snd (scanFolder (newRAGClient 8765)
                           (JObj [("folderPath", JStr "/src/components")])
                           Sample.up initialState))
  = [mkRequest POST "http://localhost:8765" "/api/scan"
       (Some (JObj [("folder_path", JStr "/src/components");
                    ("include_storybooks", JBool true);
                    ("include_tests", JBool false);
                    ("recursive", JBool true)]))] /\
  exists st',
    scanFolder (newRAGClient 8765)
               (JObj [("folderPath", JStr "/src/components")])
               Sample.up initialState
    = (Ok (JObj [("componentsFound", JNum 2);
                 ("components", JArr [Sample.button; Sample.avatar]);
                 ("errors", JArr [])]),
       st').
Proof.
  destruct (scanFolder_contract (newRAGClient 8765)
              (JObj [("folderPath", JStr "/src/components")])
              Sample.up initialState eq_refl)
    as (Hlog & _ & _ & _ & _ & Hok).
  split; [exact Hlog|].
  destruct (Hok (JObj [("components_found", JNum 2);
                       ("components", JArr [Sample.button; Sample.avatar])])
                eq_refl eq_refl) as (errors & Hrun & Hnone & _ & _).
  rewrite Hrun, (Hnone eq_refl). eexists. reflexivity.
Defined.

(** ** Where the client lives (client.ts) *)

Lemma keeps_ret {A} c (a : A) : keeps c (ret a).
Proof. intros w st H. exact H. Qed.

Lemma keeps_throw {A} c (e : JsError) : keeps c (@throw A e).
Proof. intros w st H. exact H. Qed.

Lemma keeps_lift {A} c (r : Res A) : keeps c (lift r).
Proof. intros w st H. exact H. Qed.

Lemma keeps_bind {A B} c (m : M A) (k : A -> M B) :
  keeps c m -> (forall a, keeps c (k a)) -> keeps c (bind m k).
Proof.
  intros Hm Hk w st H. unfold bind. specialize (Hm w st H).
  destruct (m w st) as [[a|e] st1]; simpl in Hm; [apply Hk|]; exact Hm.
Qed.

Lemma keeps_tryCatch {A} c (body : M A) (handler : JsError -> M A) :
  keeps c body -> (forall e, keeps c (handler e)) -> keeps c (tryCatch body handler).
Proof.
  intros Hb Hh w st H. unfold tryCatch. specialize (Hb w st H).
  destruct (body w st) as [[a|e] st1]; simpl in Hb; [|apply Hh]; exact Hb.
Qed.

Lemma keeps_modify c (f : State -> State) :
  (forall st, ragClient (f st) = ragClient st) -> keeps c (modify f).
Proof. intros Hf w st H. simpl. rewrite Hf. exact H. Qed.

Lemma keeps_http c c' (m : Method) (path : string) (body : option JsValue) :
  keeps c (http c' m path body).
Proof.
  intros w st H. unfold http.
  destruct (service w (httpLog st) _); exact H.
Qed.

Lemma keeps_getState c : keeps c getState.
Proof. intros w st H. exact H. Qed.

Lemma keeps_getRAGClient c : keeps c getRAGClient.
Proof.
  intros w st H. rewrite getRAGClient_run. unfold withClient.
  rewrite H. exact H.
Qed.

Lemma keeps_forEach {A} c (xs : list A) (body : A -> M unit) :
  (forall x, keeps c (body x)) -> keeps c (forEach xs body).
Proof.
  intros Hb. induction xs as [|x xs IH]; simpl.
  - apply keeps_ret.
  - apply keeps_bind; [apply Hb | intros _; exact IH].
Qed.

Lemma keeps_mapM {A B} c (f : A -> M B) (xs : list A) :
  (forall x, keeps c (f x)) -> keeps c (mapM f xs).
Proof.
  intros Hf. induction xs as [|x xs IH]; simpl.
  - apply keeps_ret.
  - apply keeps_bind; [apply Hf | intros y].
    apply keeps_bind; [exact IH | intros ys; apply keeps_ret].
Qed.

Ltac keeps_tac :=
  repeat first
    [ apply keeps_ret
    | apply keeps_throw
    | apply keeps_lift
    | apply keeps_http
    | apply keeps_getState
    | apply keeps_getRAGClient
    | apply keeps_modify; intros ?; reflexivity
    | apply keeps_forEach; intros ?
    | apply keeps_mapM; intros ?
    | apply keeps_tryCatch; [|intros ?]
    | apply keeps_bind; [|intros ?]
    | match goal with
      | |- keeps _ (if ?b then _ else _) => destruct b
      | |- keeps _ (match ?o with Some _ => _ | None => _ end) => destruct o
      | |- keeps _ (match ?v with JUndefined => _ | _ => _ end) => destruct v
      end ].

Ltac keeps_unfold :=
  unfold searchComponents, suggestComponents, getComponentsByName,
    getAllComponents, deleteComponent, scanFolder, pythonRequest, healthCheck,
    explainComponent, prop2, prop, when, markdown, consoleError.

Lemma keeps_tools c (name : string) (handler : JsValue -> M JsValue)
      (parameters : JsValue) :
  In (name, handler) allTools -> keeps c (handler parameters).
Proof.
  simpl. intros [[= _ <-] | [[= _ <-] | [[= _ <-] | [[= _ <-] | []]]]].
  - unfold searchComponentsTool. keeps_unfold. keeps_tac.
  - unfold explainComponentTool. keeps_unfold. keeps_tac.
  - unfold suggestComponentForUITool. keeps_unfold. keeps_tac.
  - unfold scanComponentFolderTool. keeps_unfold. keeps_tac.
Qed.

Lemma keeps_handleRequest c (prompt : string) : keeps c (handleRequest prompt).
Proof.
  unfold handleRequest, route.
  destruct (determineIntent prompt);
    unfold handleSearch, handleSuggest, handleExplain;
    keeps_unfold; keeps_tac.
Qed.

(** A second [getRAGClient] finds the client the first one left. *)
Lemma getRAGClient_again (w w' : World) (st : State) :
  getRAGClient w' (withClient w st) = (Ok (currentClient w st), withClient w st).
Proof.
  rewrite getRAGClient_run. unfold currentClient at 1, withClient at 2.
  rewrite withClient_ragClient. reflexivity.
Qed.

Lemma bind_getRAGClient_restart {A} (k : RAGClient -> M A) (w : World) (st : State) :
  bind getRAGClient k w st = bind getRAGClient k w (withClient w st).
Proof. unfold bind. rewrite getRAGClient_run, getRAGClient_again. reflexivity. Qed.

Lemma tools_restart (name : string) (handler : JsValue -> M JsValue)
      (parameters : JsValue) (w : World) (st : State) :
  In (name, handler) allTools ->
  handler parameters w st = handler parameters w (withClient w st).
Proof.
  simpl. intros [[= _ <-] | [[= _ <-] | [[= _ <-] | [[= _ <-] | []]]]];
    apply bind_getRAGClient_restart.
Qed.

Lemma currentClient_withClient (w : World) (st : State) :
  currentClient w (withClient w st) = currentClient w st.
Proof. unfold currentClient at 1. rewrite withClient_ragClient. reflexivity. Qed.

Lemma withClient_idem (w : World) (st : State) :
  withClient w (withClient w st) = withClient w st.
Proof. unfold withClient at 1. rewrite withClient_ragClient. reflexivity. Qed.

Lemma handleRequest_restart (prompt : string) (w : World) (st : State) :
  handleRequest prompt w st = handleRequest prompt w (withClient w st).
Proof.
  rewrite !handleRequest_run. unfold afterHealthCheck.
  rewrite withClient_idem, currentClient_withClient, withClient_httpLog.
  reflexivity.
Qed.

(** C7, as the code has it.  The HTTP client is a module-level singleton:
    [getRAGClient] returns the instance held in the module variable, or,
    when there is none, creates one for the configured port (8765 by
    default) and stores it; from then on every call returns that same
    instance, whatever the configuration has become, until
    [resetRAGClient] clears the variable.  Request handlers take no
    client argument: each fetches the singleton itself and leaves it in
    the module variable. *)
Theorem client_is_lazy_singleton (w : World) (st : State) :
  exists c st1,
    getRAGClient w st = (Ok c, st1) /\
    ragClient st1 = Some c /\
    (forall c0, ragClient st = Some c0 -> c = c0 /\ st1 = st) /\
    (ragClient st = None ->
     c = newRAGClient (match configPort w with Some p => p | None => 8765%Z end) /\
     st1 = setClient (Some c) st) /\
    (forall w', getRAGClient w' st1 = (Ok c, st1)) /\
    ragClient (snd (resetRAGClient w st1)) = None /\
    (forall name handler parameters,
       In (name, handler) allTools ->
       ragClient (snd (handler parameters w st)) = Some c) /\
    (forall prompt, ragClient (snd (handleRequest prompt w st)) = Some c).
Proof.
  exists (currentClient w st), (withClient w st).
  repeat apply conj.
  - apply getRAGClient_run.
  - apply withClient_ragClient.
  - intros c0 H. unfold currentClient, withClient. rewrite H. split; reflexivity.
  - unfold withClient, currentClient. intros H. rewrite H. split; reflexivity.
  - intros w'. apply getRAGClient_again.
  - reflexivity.
  - intros name handler parameters Hin.
    rewrite (tools_restart name handler parameters w st Hin).
    apply (keeps_tools _ name handler parameters Hin).
    apply withClient_ragClient.
  - intros prompt. rewrite handleRequest_restart.
    apply keeps_handleRequest. apply withClient_ragClient.
Qed.

Lemma client_is_lazy_singleton_witness :
  getRAGClient Sample.up initialState
  = (Ok (newRAGClient 8765), setClient (Some (newRAGClient 8765)) initialState) /\
  getRAGClient Sample.down (setClient (Some (newRAGClient 8765)) initialState)
  = (Ok (newRAGClient 8765), setClient (Some (newRAGClient 8765)) initialState).
Proof.
  destruct (client_is_lazy_singleton Sample.up initialState)
    as (c & st1 & Hrun & _ & _ & Hnew & Hagain & _).
  destruct (Hnew eq_refl) as [-> ->].
  split; [exact Hrun | exact (Hagain Sample.down)].
Defined.

(** C7, as the specification words it, fails on the code: a handler is
    not handed its client, and running one changes the module variable
    that holds the client.  The first tool call of a session creates the
    client, and the handler's request goes wherever the module variable
    points. *)
Lemma client_not_injected :
  ~ (forall (w : World) (st : State) (parameters : JsValue),
       ragClient (snd (searchComponentsTool parameters w st)) = ragClient st) /\
  ragClient initialState = None /\
  ragClient (snd (searchComponentsTool (JObj [("query", JStr "card")])
                                       Sample.up initialState))
  = Some (newRAGClient 8765) /\
  map reqBaseUrl
      (httpLog (snd (searchComponentsTool
                       (JObj [("query", JStr "card")]) Sample.up
                       (setClient (Some (newRAGClient 9999)) initialState))))
  = ["http://localhost:9999"].
Proof.
  split; [|repeat split].
  intros H.
  specialize (H Sample.up initialState (JObj [("query", JStr "card")])).
  discriminate H.
Qed.

(** ** What the chat handlers stream (agent.ts) *)

Lemma streamed_nil (st : State) : streamed [] st = st.
Proof. destruct st. unfold streamed. cbn. rewrite app_nil_r. reflexivity. Qed.

Lemma streamed_app (a b : list string) (st : State) :
  streamed b (streamed a st) = streamed (a ++ b) st.
Proof. unfold streamed. cbn. rewrite app_assoc. reflexivity. Qed.

Lemma renders_ret {A} (a : A) : renders (ret a) (Ok a) [].
Proof. intros w st. rewrite streamed_nil. reflexivity. Qed.

Lemma renders_lift {A} (r : Res A) : renders (lift r) r [].
Proof. intros w st. rewrite streamed_nil. reflexivity. Qed.

Lemma renders_markdown (text : string) : renders (markdown text) (Ok tt) [text].
Proof. intros w st. reflexivity. Qed.

Lemma renders_prop (v : JsValue) (k : string) :
  isNullish v = false -> renders (prop v k) (Ok (lookupProp v k)) [].
Proof.
  intros H w st. unfold prop. rewrite (getProp_ok _ _ H). apply renders_lift.
Qed.

Lemma renders_bind {A B} (m : M A) (k : A -> M B) (a : A) (r : Res B)
      (l1 l2 : list string) :
  renders m (Ok a) l1 -> renders (k a) r l2 -> renders (bind m k) r (l1 ++ l2).
Proof.
  intros Hm Hk w st. unfold bind. rewrite Hm, Hk, streamed_app. reflexivity.
Qed.

Lemma renders_bind_throw {A B} (m : M A) (k : A -> M B) (e : JsError)
      (l : list string) :
  renders m (Throw e) l -> renders (bind m k) (Throw e) l.
Proof. intros Hm w st. unfold bind. rewrite Hm. reflexivity. Qed.

Lemma renders_when (b : bool) (m : M unit) (l : list string) :
  renders m (Ok tt) l -> renders (when b m) (Ok tt) (if b then l else []).
Proof. intros H. destruct b; [exact H | apply renders_ret]. Qed.

Lemma renders_eq {A} (m : M A) (r : Res A) (l l' : list string) :
  renders m r l -> l = l' -> renders m r l'.
Proof. intros H <-. exact H. Qed.

Lemma renders_forEach {A} (xs : list A) (body : A -> M unit)
      (lines : A -> list string) :
  (forall x, In x xs -> renders (body x) (Ok tt) (lines x)) ->
  renders (forEach xs body) (Ok tt) (flat_map lines xs).
Proof.
  induction xs as [|x xs IH]; intros H; cbn [forEach flat_map].
  - apply renders_ret.
  - eapply renders_bind; [apply H; left; reflexivity|].
    apply IH. intros y Hy. apply H. right. exact Hy.
Qed.

Lemma renders_forEach_throw {A} (good : list A) (bad : A) (rest : list A)
      (body : A -> M unit) (lines : A -> list string) (e : JsError)
      (l : list string) :
  (forall x, In x good -> renders (body x) (Ok tt) (lines x)) ->
  renders (body bad) (Throw e) l ->
  renders (forEach (good ++ bad :: rest) body) (Throw e)
          (flat_map lines good ++ l).
Proof.
  intros Hgood Hbad. induction good as [|x good IH]; cbn [app forEach flat_map].
  - apply renders_bind_throw. exact Hbad.
  - rewrite <- app_assoc. eapply renders_bind; [apply Hgood; left; reflexivity|].
    apply IH. intros y Hy. apply Hgood. right. exact Hy.
Qed.

(** [x ? x.length : undefined] *)
Lemma renders_length (v : JsValue) :
  renders (if truthy v then prop v "length" else ret JUndefined)
          (Ok (if truthy v then lookupProp v "length" else JUndefined)) [].
Proof.
  destruct (truthy v) eqn:E; [|apply renders_ret].
  apply renders_prop. destruct v; try reflexivity; discriminate.
Qed.

Lemma nonEmpty_length (v : JsValue) :
  truthy v && gtZero (if truthy v then lookupProp v "length" else JUndefined)
  = nonEmpty v.
Proof. unfold nonEmpty. destruct (truthy v); reflexivity. Qed.

Lemma allReadable_In (items : list JsValue) :
  allReadable items = true -> forall x, In x items -> isNullish x = false.
Proof.
  unfold allReadable. rewrite forallb_forall. intros H x Hx.
  apply negb_true_iff. apply H. exact Hx.
Qed.

Lemma allReadable_split (items : list JsValue) :
  allReadable items = false ->
  exists good bad rest,
    items = (good ++ bad :: rest)%list /\ allReadable good = true /\
    isNullish bad = true.
Proof.
  induction items as [|x items IH]; [discriminate|].
  unfold allReadable. cbn [forallb]. destruct (isNullish x) eqn:E; cbn [negb andb].
  - intros _. exists [], x, items. repeat split. exact E.
  - intros H. destruct (IH H) as (good & bad & rest & -> & Hg & Hb).
    exists (x :: good), bad, rest. repeat split; [|exact Hb].
    unfold allReadable. cbn [forallb]. rewrite E. exact Hg.
Qed.

Lemma iterate_what (what what' : string) (v : JsValue) (items : list JsValue) :
  iterate what v = Ok items -> iterate what' v = Ok items.
Proof. destruct v; simpl; intros H; try discriminate; exact H. Qed.

Lemma iterate_throws (what what' : string) (v : JsValue) (e : JsError) :
  iterate what v = Throw e ->
  iterate what' v = Throw (TypeError (what' ++ " is not iterable")).
Proof. destruct v; simpl; intros H; try discriminate; reflexivity. Qed.

Lemma renders_ret_inv {A} (a : A) (r : Res A) (l : list string) :
  renders (ret a) r l -> l = [].
Proof.
  intros H.
  specialize (H (mkWorld None (fun _ _ => Rejected (Error ""))) initialState).
  unfold ret in H. injection H as _ H. symmetry. exact H.
Qed.

(** A loop whose body can fail: it runs to the end when every entry can
    be read, and stops with the error of the first entry that cannot. *)
Lemma renders_forEach_some {A} (ok : A -> bool) (P : list string -> Prop)
      (body : A -> M unit) :
  (forall x, exists l,
      if ok x then renders (body x) (Ok tt) l /\ P l
      else exists e, errName e = "TypeError" /\ renders (body x) (Throw e) l) ->
  forall xs, exists l,
    if forallb ok xs
    then renders (forEach xs body) (Ok tt) l /\
         (xs <> [] -> exists l0 l1, l = (l0 ++ l1)%list /\ P l1)
    else exists e, errName e = "TypeError" /\
                   renders (forEach xs body) (Throw e) l.
Proof.
  intros Hbody. induction xs as [|x xs IH]; cbn [forallb forEach].
  - exists []. split; [apply renders_ret | intros H; contradiction].
  - destruct (Hbody x) as [l Hx]. destruct (ok x); cbn [andb].
    + destruct Hx as [Hx HP]. destruct IH as [l' IH].
      exists (l ++ l')%list. destruct (forallb ok xs).
      * destruct IH as [IH Hlast]. split.
        -- eapply renders_bind; [exact Hx | exact IH].
        -- intros _. destruct xs as [|y ys].
           ++ exists [], l. split; [|exact HP].
              cbn [forEach] in IH. rewrite (renders_ret_inv _ _ _ IH).
              rewrite app_nil_r. reflexivity.
           ++ destruct Hlast as (l0 & l1 & -> & HP1); [discriminate|].
              exists (l ++ l0)%list, l1. rewrite app_assoc. split;
                [reflexivity | exact HP1].
      * destruct IH as (e & He & IH). exists e. split; [exact He|].
        eapply renders_bind; [exact Hx | exact IH].
    + destruct Hx as (e & He & Hx). exists l, e. split; [exact He|].
      apply renders_bind_throw. exact Hx.
Qed.

Lemma renders_prop_nullish (v : JsValue) (k : string) :
  isNullish v = true ->
  renders (prop v k)
          (Throw (TypeError ("Cannot read properties of " ++ typeName v ++
                             " (reading '" ++ k ++ "')"))) [].
Proof.
  intros H. unfold prop. destruct v; try discriminate H; apply renders_lift.
Qed.

Lemma sliceFirst_what (what what' : string) (n : nat) (v shown : JsValue) :
  sliceFirst what n v = Ok shown -> sliceFirst what' n v = Ok shown.
Proof. destruct v; simpl; intros H; try discriminate; exact H. Qed.

Lemma sliceFirst_throws (what what' : string) (n : nat) (v : JsValue) (e : JsError) :
  sliceFirst what n v = Throw e ->
  exists e', errName e' = "TypeError" /\ sliceFirst what' n v = Throw e'.
Proof.
  destruct v; simpl; intros H; try discriminate; eexists; split;
    try reflexivity; reflexivity.
Qed.

Lemma truthy_not_nullish (v : JsValue) : truthy v = true -> isNullish v = false.
Proof. destruct v; try reflexivity; discriminate. Qed.

Lemma nonEmpty_not_nullish (v : JsValue) : nonEmpty v = true -> isNullish v = false.
Proof.
  unfold nonEmpty. rewrite andb_true_iff. intros [H _].
  exact (truthy_not_nullish _ H).
Qed.

(** The steps that cannot fail. *)
Ltac render_step :=
  eapply renders_bind;
  [ solve [ apply renders_markdown
          | apply renders_prop; assumption
          | apply renders_length
          | apply renders_when, renders_markdown
          | apply renders_lift
          | apply renders_ret ]
  | cbv beta ].

Ltac render := repeat render_step; rewrite ?nonEmpty_length.

(** The entries of a loop whose body reads each of them. *)
Lemma renders_entries (items : list JsValue) (body : JsValue -> M unit) :
  (forall x, isNullish x = false -> exists l, renders (body x) (Ok tt) l) ->
  (forall x, isNullish x = true ->
             exists e, errName e = "TypeError" /\ renders (body x) (Throw e) []) ->
  exists l,
    if allReadable items
    then renders (forEach items body) (Ok tt) l
    else exists e, errName e = "TypeError" /\
                   renders (forEach items body) (Throw e) l.
Proof.
  intros Hok Hbad.
  destruct (renders_forEach_some (fun x => negb (isNullish x)) (fun _ => True)
              body) with (xs := items) as [l H].
  - intros x. destruct (isNullish x) eqn:E; cbn [negb].
    + destruct (Hbad x E) as (e & He & Hr). exists [], e. split; assumption.
    + destruct (Hok x E) as [l Hr]. exists l. split; [exact Hr | exact I].
  - exists l. unfold allReadable. destruct (forallb _ items);
      [exact (proj1 H) | exact H].
Qed.

(** The block of the search handler that lists the first three props. *)
Lemma renders_props3 (props : JsValue) :
  exists l,
    if propsShowable props
    then renders
           (when (nonEmpty props)
              (markdown ("**Props:**" ++ nl) ;;
               firstThree <- lift (sliceFirst "comp.props" 3 props) ;;
               shown <- lift (iterate "comp.props.slice(...)" firstThree) ;;
               forEach shown (fun p =>
                 pname <- prop p "name" ;;
                 ptype <- prop p "type" ;;
                 required <- prop p "required" ;;
                 markdown ("- " ++ bq ++ toStr pname ++ bq ++ ": " ++ toStr ptype ++
                           (if truthy required then " (required)" else "") ++ nl)) ;;
               markdown nl))
           (Ok tt) l
    else exists e, errName e = "TypeError" /\
         renders
           (when (nonEmpty props)
              (markdown ("**Props:**" ++ nl) ;;
               firstThree <- lift (sliceFirst "comp.props" 3 props) ;;
               shown <- lift (iterate "comp.props.slice(...)" firstThree) ;;
               forEach shown (fun p =>
                 pname <- prop p "name" ;;
                 ptype <- prop p "type" ;;
                 required <- prop p "required" ;;
                 markdown ("- " ++ bq ++ toStr pname ++ bq ++ ": " ++ toStr ptype ++
                           (if truthy required then " (required)" else "") ++ nl)) ;;
               markdown nl))
           (Throw e) l.
Proof.
  unfold propsShowable. destruct (nonEmpty props) eqn:Hn; cbn [negb orb when].
  2: { exists []. apply renders_ret. }
  destruct (sliceFirst "" 3 props) as [shown|e0] eqn:Hs.
  2: { destruct (sliceFirst_throws _ "comp.props" _ _ _ Hs) as (e & He & Hs').
       eexists. exists e. split; [exact He|].
       render. rewrite Hs'. apply renders_bind_throw, renders_lift. }
  pose proof (sliceFirst_what _ "comp.props" _ _ _ Hs) as Hs'.
  destruct (iterate "" shown) as [items|e0] eqn:Hit.
  2: { eexists. eexists. split; [|render; rewrite Hs'; render;
         rewrite (iterate_throws _ "comp.props.slice(...)" _ _ Hit);
         apply renders_bind_throw, renders_lift]. reflexivity. }
  pose proof (iterate_what _ "comp.props.slice(...)" _ _ Hit) as Hit'.
  match goal with
  | |- context [forEach _ ?body] =>
      destruct (renders_entries items body) as [l Hl]
  end.
  - intros x Hx. eexists. render. apply renders_markdown.
  - intros x Hx. eexists. split; [|apply renders_bind_throw,
                                    (renders_prop_nullish _ _ Hx)].
    reflexivity.
  - destruct (allReadable items).
    + eexists. render. rewrite Hs'. render. rewrite Hit'. render.
      eapply renders_bind; [exact Hl|]. apply renders_markdown.
    + destruct Hl as (e & He & Hl). eexists. exists e. split; [exact He|].
      render. rewrite Hs'. render. rewrite Hit'. render.
      apply renders_bind_throw. exact Hl.
Qed.

(** The block of the search and suggest handlers that shows the first
    example. *)
Lemma renders_example (heading : string) (examples : JsValue) :
  exists l,
    if exampleShowable examples
    then renders
           (when (nonEmpty examples)
              (example <- lift (getFirst examples) ;;
               code <- prop example "code" ;;
               markdown (heading ++ nl ++ tick3 ++ "tsx" ++ nl ++
                         toStr code ++ nl ++ tick3 ++ nl ++ nl)))
           (Ok tt) l
    else exists e, errName e = "TypeError" /\
         renders
           (when (nonEmpty examples)
              (example <- lift (getFirst examples) ;;
               code <- prop example "code" ;;
               markdown (heading ++ nl ++ tick3 ++ "tsx" ++ nl ++
                         toStr code ++ nl ++ tick3 ++ nl ++ nl)))
           (Throw e) l.
Proof.
  unfold exampleShowable. destruct (nonEmpty examples) eqn:Hn; cbn [negb orb when].
  2: { exists []. apply renders_ret. }
  destruct (getFirst examples) as [example|e0] eqn:Hf.
  2: { pose proof (nonEmpty_not_nullish _ Hn) as Hnn.
       destruct examples; try discriminate Hnn; discriminate Hf. }
  destruct (isNullish example) eqn:Hx; cbn [negb].
  - eexists. eexists. split; [|render;
      apply renders_bind_throw, (renders_prop_nullish _ _ Hx)].
    reflexivity.
  - eexists. render. apply renders_markdown.
Qed.

(** What the search handler does with one hit. *)
Ltac hit_prefix :=
  match goal with
  | |- exists l, if ?ok ?x then _ else _ => unfold ok
  end;
  cbv zeta;
  match goal with
  | |- context [isNullish (lookupProp ?x "component")] =>
      let Hitem := fresh "Hitem" in
      let Hcomp := fresh "Hcomp" in
      destruct (isNullish x) eqn:Hitem; cbn [negb andb];
      [ eexists; eexists; split;
        [|apply renders_bind_throw, (renders_prop_nullish _ _ Hitem)];
        reflexivity
      | destruct (isNullish (lookupProp x "component")) eqn:Hcomp;
        cbn [negb andb];
        [ eexists; eexists; split;
          [|render; apply renders_bind_throw, (renders_prop_nullish _ _ Hcomp)];
          reflexivity
        | ] ]
  end.

Lemma handleSearch_resolved (query : string) (data : JsValue)
      (w : World) (st st1 : State) :
  searchComponents (currentClient w st)
    (JObj [("query", JStr query); ("limit", JNum 5)]) w (withClient w st)
  = (Ok data, st1) ->
  let len := lookupProp (lookupProp data "results") "length" in
  exists shown,
    handleSearch query w st = (Ok emptyResult, streamed shown st1) /\
    if resultsShowable searchHitShowable data then
      if strictEq len (JNum 0)
      then shown = ["No components found matching your query."]
      else exists mid,
          shown = ("Found " ++ toStr len ++ " components:" ++ nl ++ nl) ::
                  app mid [hitEnd]
    else exists mid e,
        errName e = "TypeError" /\
        shown = app mid ["Failed to search: " ++ errorToString e].
Proof.
  intros Hclient. cbv zeta.
  unfold handleSearch. unfold bind at 1. rewrite getRAGClient_run.
  unfold tryCatch. unfold bind at 1. rewrite Hclient.
  match goal with
  | |- exists shown, (match ?m w st1 with _ => _ end) = _ /\ _ =>
      assert (Hc : exists l,
                 if resultsShowable searchHitShowable data then
                   renders m (Ok emptyResult) l /\
                   if strictEq (lookupProp (lookupProp data "results") "length")
                               (JNum 0)
                   then l = ["No components found matching your query."]
                   else exists mid,
                       l = ("Found " ++
                            toStr (lookupProp (lookupProp data "results")
                                              "length") ++
                            " components:" ++ nl ++ nl) ::
                           app mid [hitEnd]
                 else exists e, errName e = "TypeError" /\
                                renders m (Throw e) l)
  end.
  { unfold resultsShowable. cbv zeta. unfold prop2.
    destruct (isNullish data) eqn:Hd; cbn [negb andb].
    { eexists. eexists. split;
        [|apply renders_bind_throw, renders_bind_throw,
            (renders_prop_nullish _ _ Hd)]. reflexivity. }
    destruct (isNullish (lookupProp data "results")) eqn:Hr; cbn [negb andb].
    { eexists. eexists. split;
        [|apply renders_bind_throw; render;
          apply (renders_prop_nullish _ _ Hr)]. reflexivity. }
    destruct (strictEq (lookupProp (lookupProp data "results") "length")
                       (JNum 0)) eqn:Hlen; cbn [orb].
    { eexists. split; [|reflexivity].
      eapply renders_eq.
      - eapply renders_bind.
        + eapply renders_bind; [apply renders_prop; exact Hd|].
          apply renders_prop; exact Hr.
        + cbv beta. rewrite Hlen. render. apply renders_ret.
      - reflexivity. }
    destruct (iterate "" (lookupProp data "results")) as [items|e0] eqn:Hit.
    2: { eexists. eexists. split.
         2: { eapply renders_bind.
              - eapply renders_bind; [apply renders_prop; exact Hd|].
                apply renders_prop; exact Hr.
              - cbv beta. rewrite Hlen. render.
                rewrite (iterate_throws _ "result.results" _ _ Hit).
                apply renders_bind_throw, renders_lift. }
         reflexivity. }
    pose proof (iterate_what _ "result.results" _ _ Hit) as Hit'.
    assert (Hne : items <> []).
    { intros ->. destruct (lookupProp data "results"); try discriminate Hit.
      - simpl in Hit. injection Hit as Hit.
        apply map_eq_nil, chars_nil in Hit. subst. discriminate Hlen.
      - simpl in Hit. injection Hit as ->. discriminate Hlen. }
    match goal with
    | |- context [forEach _ ?body] =>
        destruct (renders_forEach_some searchHitShowable
                    (fun l => exists l', l = (l' ++ [hitEnd])%list) body)
          with (xs := items) as [l Hl]
    end.
    { intros x. hit_prefix.
      destruct (renders_props3 (lookupProp (lookupProp x "component") "props"))
        as [lp Hp].
      destruct (propsShowable _); cbn [andb].
      2: { destruct Hp as (e & He & Hp). eexists. exists e.
           split; [exact He|]. render. apply renders_bind_throw. exact Hp. }
      destruct (renders_example "**Example:**"
                  (lookupProp (lookupProp x "component") "examples"))
        as [le Hx].
      destruct (exampleShowable _).
      2: { destruct Hx as (e & He & Hx). eexists. exists e.
           split; [exact He|]. render.
           eapply renders_bind; [exact Hp|]. cbv beta. render.
           apply renders_bind_throw. exact Hx. }
      eexists. split.
      - render. eapply renders_bind; [exact Hp|]. cbv beta. render.
        eapply renders_bind; [exact Hx|]. cbv beta. apply renders_markdown.
      - eexists. cbn [app]. rewrite !app_comm_cons, !app_assoc. reflexivity. }
    destruct (forallb searchHitShowable items).
    - destruct Hl as [Hl Hlast]. destruct (Hlast Hne) as (l0 & l1 & -> & [l' ->]).
      eexists. split.
      + eapply renders_bind.
        * eapply renders_bind; [apply renders_prop; exact Hd|].
          apply renders_prop; exact Hr.
        * cbv beta. rewrite Hlen. render. rewrite Hit'. render.
          eapply renders_bind; [exact Hl|]. apply renders_ret.
      + exists (l0 ++ l')%list. cbn [app]. rewrite !app_nil_r, !app_assoc.
        reflexivity.
    - destruct Hl as (e & He & Hl). eexists. exists e. split; [exact He|].
      eapply renders_bind.
      + eapply renders_bind; [apply renders_prop; exact Hd|].
        apply renders_prop; exact Hr.
      + cbv beta. rewrite Hlen. render. rewrite Hit'. render.
        apply renders_bind_throw. exact Hl. }
  destruct Hc as [l Hc].
  destruct (resultsShowable searchHitShowable data).
  - destruct Hc as [Hr Hshape]. rewrite Hr. exists l. split; [reflexivity|].
    exact Hshape.
  - destruct Hc as (e & He & Hr). rewrite Hr.
    exists (app l ["Failed to search: " ++ errorToString e]).
    split; [|exists l, e; split; [exact He | reflexivity]].
    unfold bind, markdown, modify, ret. rewrite <- streamed_app. reflexivity.
Qed.

Lemma handleSuggest_resolved (query : string) (data : JsValue)
      (w : World) (st st1 : State) :
  suggestComponents (currentClient w st) (JStr query) (JNum 5) w (withClient w st)
  = (Ok data, st1) ->
  let len := lookupProp (lookupProp data "results") "length" in
  exists shown,
    handleSuggest query w st = (Ok emptyResult, streamed shown st1) /\
    if resultsShowable suggestHitShowable data then
      if strictEq len (JNum 0)
      then shown = ["No component suggestions found for your description."]
      else exists mid,
          shown = ("Here are " ++ toStr len ++ " component suggestions:" ++
                   nl ++ nl) :: app mid [hitEnd]
    else exists mid e,
        errName e = "TypeError" /\
        shown = app mid ["Failed to get suggestions: " ++ errorToString e].
Proof.
  intros Hclient. cbv zeta.
  unfold handleSuggest. unfold bind at 1. rewrite getRAGClient_run.
  unfold tryCatch. unfold bind at 1. rewrite Hclient.
  match goal with
  | |- exists shown, (match ?m w st1 with _ => _ end) = _ /\ _ =>
      assert (Hc : exists l,
                 if resultsShowable suggestHitShowable data then
                   renders m (Ok emptyResult) l /\
                   if strictEq (lookupProp (lookupProp data "results") "length")
                               (JNum 0)
                   then l = ["No component suggestions found for your description."]
                   else exists mid,
                       l = ("Here are " ++
                            toStr (lookupProp (lookupProp data "results")
                                              "length") ++
                            " component suggestions:" ++ nl ++ nl) ::
                           app mid [hitEnd]
                 else exists e, errName e = "TypeError" /\
                                renders m (Throw e) l)
  end.
  { unfold resultsShowable. cbv zeta. unfold prop2.
    destruct (isNullish data) eqn:Hd; cbn [negb andb].
    { eexists. eexists. split;
        [|apply renders_bind_throw, renders_bind_throw,
            (renders_prop_nullish _ _ Hd)]. reflexivity. }
    destruct (isNullish (lookupProp data "results")) eqn:Hr; cbn [negb andb].
    { eexists. eexists. split;
        [|apply renders_bind_throw; render;
          apply (renders_prop_nullish _ _ Hr)]. reflexivity. }
    destruct (strictEq (lookupProp (lookupProp data "results") "length")
                       (JNum 0)) eqn:Hlen; cbn [orb].
    { eexists. split; [|reflexivity].
      eapply renders_eq.
      - eapply renders_bind.
        + eapply renders_bind; [apply renders_prop; exact Hd|].
          apply renders_prop; exact Hr.
        + cbv beta. rewrite Hlen. render. apply renders_ret.
      - reflexivity. }
    destruct (iterate "" (lookupProp data "results")) as [items|e0] eqn:Hit.
    2: { eexists. eexists. split.
         2: { eapply renders_bind.
              - eapply renders_bind; [apply renders_prop; exact Hd|].
                apply renders_prop; exact Hr.
              - cbv beta. rewrite Hlen. render.
                rewrite (iterate_throws _ "result.results" _ _ Hit).
                apply renders_bind_throw, renders_lift. }
         reflexivity. }
    pose proof (iterate_what _ "result.results" _ _ Hit) as Hit'.
    assert (Hne : items <> []).
    { intros ->. destruct (lookupProp data "results"); try discriminate Hit.
      - simpl in Hit. injection Hit as Hit.
        apply map_eq_nil, chars_nil in Hit. subst. discriminate Hlen.
      - simpl in Hit. injection Hit as ->. discriminate Hlen. }
    match goal with
    | |- context [forEach _ ?body] =>
        destruct (renders_forEach_some suggestHitShowable
                    (fun l => exists l', l = (l' ++ [hitEnd])%list) body)
          with (xs := items) as [l Hl]
    end.
    { intros x. hit_prefix.
      destruct (renders_example "**Example usage:**"
                  (lookupProp (lookupProp x "component") "examples"))
        as [le Hx].
      destruct (exampleShowable _).
      2: { destruct Hx as (e & He & Hx). eexists. exists e.
           split; [exact He|]. render.
           apply renders_bind_throw. exact Hx. }
      eexists. split.
      - render. eapply renders_bind; [exact Hx|]. cbv beta.
        apply renders_markdown.
      - eexists. cbn [app]. rewrite !app_comm_cons, !app_assoc. reflexivity. }
    destruct (forallb suggestHitShowable items).
    - destruct Hl as [Hl Hlast]. destruct (Hlast Hne) as (l0 & l1 & -> & [l' ->]).
      eexists. split.
      + eapply renders_bind.
        * eapply renders_bind; [apply renders_prop; exact Hd|].
          apply renders_prop; exact Hr.
        * cbv beta. rewrite Hlen. render. rewrite Hit'. render.
          eapply renders_bind; [exact Hl|]. apply renders_ret.
      + exists (l0 ++ l')%list. cbn [app]. rewrite !app_nil_r, !app_assoc.
        reflexivity.
    - destruct Hl as (e & He & Hl). eexists. exists e. split; [exact He|].
      eapply renders_bind.
      + eapply renders_bind; [apply renders_prop; exact Hd|].
        apply renders_prop; exact Hr.
      + cbv beta. rewrite Hlen. render. rewrite Hit'. render.
        apply renders_bind_throw. exact Hl. }
  destruct Hc as [l Hc].
  destruct (resultsShowable suggestHitShowable data).
  - destruct Hc as [Hr Hshape]. rewrite Hr. exists l. split; [reflexivity|].
    exact Hshape.
  - destruct Hc as (e & He & Hr). rewrite Hr.
    exists (app l ["Failed to get suggestions: " ++ errorToString e]).
    split; [|exists l, e; split; [exact He | reflexivity]].
    unfold bind, markdown, modify, ret. rewrite <- streamed_app. reflexivity.
Qed.

(** A loop over the entries of a field that is not empty. *)
Lemma renders_loop (v : JsValue) (what : string) (body : JsValue -> M unit)
      (lines : JsValue -> list string) :
  (forall x, isNullish x = false -> renders (body x) (Ok tt) (lines x)) ->
  (forall x, isNullish x = true ->
             exists e, errName e = "TypeError" /\ renders (body x) (Throw e) []) ->
  nonEmpty v = true ->
  exists l,
    if listable v
    then renders (shown <- lift (iterate what v) ;; forEach shown body) (Ok tt) l /\
         l = flat_map lines (entries v)
    else exists e, errName e = "TypeError" /\
         renders (shown <- lift (iterate what v) ;; forEach shown body) (Throw e) l.
Proof.
  intros Hok Hbad Hn. unfold listable, entries. rewrite Hn. cbn [negb orb].
  destruct (iterate "" v) as [items|e0] eqn:Hit.
  2: { exists [], (TypeError (what ++ " is not iterable")). split; [reflexivity|].
       rewrite (iterate_throws _ what _ _ Hit).
       apply renders_bind_throw, renders_lift. }
  rewrite (iterate_what _ what _ _ Hit).
  destruct (allReadable items) eqn:Hall.
  - eexists. split;
      [ eapply renders_bind; [apply renders_lift|]; cbv beta;
        apply renders_forEach; intros x Hx; apply Hok;
        exact (allReadable_In _ Hall x Hx)
      | reflexivity ].
  - destruct (allReadable_split _ Hall) as (good & bad & rest & -> & Hg & Hb).
    destruct (Hbad bad Hb) as (e & He & Hr).
    eexists. exists e. split; [exact He|].
    eapply renders_bind; [apply renders_lift|]. cbv beta.
    apply (renders_forEach_throw good bad rest body lines e []).
    + intros x Hx. apply Hok. exact (allReadable_In _ Hg x Hx).
    + exact Hr.
Qed.

Lemma renders_loop_then (v : JsValue) (what : string) (body : JsValue -> M unit)
      (lines : JsValue -> list string) (finish : M unit) (last : list string) :
  (forall x, isNullish x = false -> renders (body x) (Ok tt) (lines x)) ->
  (forall x, isNullish x = true ->
             exists e, errName e = "TypeError" /\ renders (body x) (Throw e) []) ->
  renders finish (Ok tt) last ->
  nonEmpty v = true ->
  exists l,
    if listable v
    then renders (shown <- lift (iterate what v) ;; forEach shown body ;; finish)
                 (Ok tt) l /\
         l = (flat_map lines (entries v) ++ last)%list
    else exists e, errName e = "TypeError" /\
         renders (shown <- lift (iterate what v) ;; forEach shown body ;; finish)
                 (Throw e) l.
Proof.
  intros Hok Hbad Hfin Hn. unfold listable, entries. rewrite Hn. cbn [negb orb].
  destruct (iterate "" v) as [items|e0] eqn:Hit.
  2: { exists [], (TypeError (what ++ " is not iterable")). split; [reflexivity|].
       rewrite (iterate_throws _ what _ _ Hit).
       apply renders_bind_throw, renders_lift. }
  rewrite (iterate_what _ what _ _ Hit).
  destruct (allReadable items) eqn:Hall.
  - eexists. split;
      [ eapply renders_bind; [apply renders_lift|]; cbv beta;
        eapply renders_bind; [|exact Hfin];
        apply renders_forEach; intros x Hx; apply Hok;
        exact (allReadable_In _ Hall x Hx)
      | reflexivity ].
  - destruct (allReadable_split _ Hall) as (good & bad & rest & -> & Hg & Hb).
    destruct (Hbad bad Hb) as (e & He & Hr).
    eexists. exists e. split; [exact He|].
    eapply renders_bind; [apply renders_lift|]. cbv beta.
    apply renders_bind_throw.
    apply (renders_forEach_throw good bad rest body lines e []).
    + intros x Hx. apply Hok. exact (allReadable_In _ Hg x Hx).
    + exact Hr.
Qed.

(** What [handleExplain] streams for the component it found: all of it
    when the component can be explained to the end, and else what came
    before the read that failed. *)
Lemma explainComponent_renders (comp : JsValue) :
  exists l,
    if explainable comp
    then renders (explainComponent comp) (Ok tt) l /\ l = explained comp
    else exists e, errName e = "TypeError" /\
                   renders (explainComponent comp) (Throw e) l.
Proof.
  unfold explainable, explainComponent.
  destruct (isNullish comp) eqn:Hc; cbn [negb andb].
  { eexists. eexists. split;
      [|apply renders_bind_throw, (renders_prop_nullish _ _ Hc)]. reflexivity. }
  assert (Hprops : exists l,
    if listable (lookupProp comp "props")
    then renders
           (when (nonEmpty (lookupProp comp "props"))
              (markdown ("## Props" ++ nl ++ nl) ;;
               shown <- lift (iterate "comp.props" (lookupProp comp "props")) ;;
               forEach shown (fun p =>
                 pname <- prop p "name" ;;
                 ptype <- prop p "type" ;;
                 required <- prop p "required" ;;
                 markdown ("- **" ++ toStr pname ++ "**: " ++ bq ++ toStr ptype ++
                           bq ++
                           (if truthy required then " (required)"
                            else " (optional)") ++ nl) ;;
                 pdescription <- prop p "description" ;;
                 when (truthy pdescription)
                   (markdown ("  - " ++ toStr pdescription ++ nl))) ;;
               markdown nl))
           (Ok tt) l /\
         l = (if nonEmpty (lookupProp comp "props")
              then ("## Props" ++ nl ++ nl) ::
                   app (flat_map explainedProp
                          (entries (lookupProp comp "props"))) [nl]
              else [])
    else exists e, errName e = "TypeError" /\
         renders
           (when (nonEmpty (lookupProp comp "props"))
              (markdown ("## Props" ++ nl ++ nl) ;;
               shown <- lift (iterate "comp.props" (lookupProp comp "props")) ;;
               forEach shown (fun p =>
                 pname <- prop p "name" ;;
                 ptype <- prop p "type" ;;
                 required <- prop p "required" ;;
                 markdown ("- **" ++ toStr pname ++ "**: " ++ bq ++ toStr ptype ++
                           bq ++
                           (if truthy required then " (required)"
                            else " (optional)") ++ nl) ;;
                 pdescription <- prop p "description" ;;
                 when (truthy pdescription)
                   (markdown ("  - " ++ toStr pdescription ++ nl))) ;;
               markdown nl))
           (Throw e) l).
  { destruct (nonEmpty (lookupProp comp "props")) eqn:Hn.
    2: { unfold listable. rewrite Hn. exists []. split; [apply renders_ret|].
         reflexivity. }
    cbn [when].
    match goal with
    | |- context [forEach _ ?body] =>
        destruct (renders_loop_then (lookupProp comp "props") "comp.props" body
                    explainedProp (markdown nl) [nl]) as [l Hl]
    end.
    - intros x Hx. eapply renders_eq; [render; apply renders_when,
                                        renders_markdown | reflexivity].
    - intros x Hx. eexists. split;
        [|apply renders_bind_throw, (renders_prop_nullish _ _ Hx)].
      reflexivity.
    - apply renders_markdown.
    - exact Hn.
    - destruct (listable (lookupProp comp "props")).
      + destruct Hl as [Hl ->]. eexists. split; [|reflexivity].
        eapply renders_eq; [eapply renders_bind;
                            [apply renders_markdown | exact Hl]|].
        reflexivity.
      + destruct Hl as (e & He & Hl). eexists. exists e. split; [exact He|].
        eapply renders_bind; [apply renders_markdown | exact Hl]. }
  assert (Hexamples : exists l,
    if listable (lookupProp comp "examples")
    then renders
           (when (nonEmpty (lookupProp comp "examples"))
              (markdown ("## Examples" ++ nl ++ nl) ;;
               shown <- lift (iterate "comp.examples"
                                (lookupProp comp "examples")) ;;
               forEach shown (fun example =>
                 title <- prop example "title" ;;
                 markdown ("### " ++ toStr title ++ nl ++ nl) ;;
                 edescription <- prop example "description" ;;
                 when (truthy edescription)
                   (markdown (toStr edescription ++ nl ++ nl)) ;;
                 code <- prop example "code" ;;
                 markdown (tick3 ++ "tsx" ++ nl ++ toStr code ++ nl ++ tick3 ++
                           nl ++ nl))))
           (Ok tt) l /\
         l = (if nonEmpty (lookupProp comp "examples")
              then ("## Examples" ++ nl ++ nl) ::
                   flat_map explainedExample
                     (entries (lookupProp comp "examples"))
              else [])
    else exists e, errName e = "TypeError" /\
         renders
           (when (nonEmpty (lookupProp comp "examples"))
              (markdown ("## Examples" ++ nl ++ nl) ;;
               shown <- lift (iterate "comp.examples"
                                (lookupProp comp "examples")) ;;
               forEach shown (fun example =>
                 title <- prop example "title" ;;
                 markdown ("### " ++ toStr title ++ nl ++ nl) ;;
                 edescription <- prop example "description" ;;
                 when (truthy edescription)
                   (markdown (toStr edescription ++ nl ++ nl)) ;;
                 code <- prop example "code" ;;
                 markdown (tick3 ++ "tsx" ++ nl ++ toStr code ++ nl ++ tick3 ++
                           nl ++ nl))))
           (Throw e) l).
  { destruct (nonEmpty (lookupProp comp "examples")) eqn:Hn.
    2: { unfold listable. rewrite Hn. exists []. split; [apply renders_ret|].
         reflexivity. }
    cbn [when].
    match goal with
    | |- context [forEach _ ?body] =>
        destruct (renders_loop (lookupProp comp "examples") "comp.examples" body
                    explainedExample) as [l Hl]
    end.
    - intros x Hx. eapply renders_eq; [render; apply renders_markdown|].
      reflexivity.
    - intros x Hx. eexists. split;
        [|apply renders_bind_throw, (renders_prop_nullish _ _ Hx)].
      reflexivity.
    - exact Hn.
    - destruct (listable (lookupProp comp "examples")).
      + destruct Hl as [Hl ->]. eexists. split; [|reflexivity].
        eapply renders_eq; [eapply renders_bind;
                            [apply renders_markdown | exact Hl]|].
        reflexivity.
      + destruct Hl as (e & He & Hl). eexists. exists e. split; [exact He|].
        eapply renders_bind; [apply renders_markdown | exact Hl]. }
  destruct Hprops as [lp Hprops]. destruct Hexamples as [lx Hexamples].
  destruct (listable (lookupProp comp "props")); cbn [andb].
  2: { destruct Hprops as (e & He & Hp). eexists. exists e. split; [exact He|].
       render. apply renders_bind_throw. exact Hp. }
  destruct Hprops as [Hp ->].
  destruct (listable (lookupProp comp "examples")).
  2: { destruct Hexamples as (e & He & Hx). eexists. exists e.
       split; [exact He|].
       render. eapply renders_bind; [exact Hp|]. cbv beta. render. exact Hx. }
  destruct Hexamples as [Hx ->].
  eexists. split.
  - render. eapply renders_bind; [exact Hp|]. cbv beta. render. exact Hx.
  - unfold explained. cbv zeta. cbn [app]. reflexivity.
Qed.

Lemma handleExplain_resolved (query name : string) (components : JsValue)
      (w : World) (st st1 : State) :
  extractComponentName query = Some name ->
  getComponentsByName (currentClient w st) (JStr name) w (withClient w st)
  = (Ok components, st1) ->
  exists shown,
    handleExplain query w st = (Ok emptyResult, streamed shown st1) /\
    if firstExplainable components then
      if strictEq (lookupProp components "length") (JNum 0)
      then shown = ["Component " ++ dq ++ name ++ dq ++
                    " not found in the knowledge base."]
      else exists first, getFirst components = Ok first /\
                         shown = explained first
    else exists mid e,
        errName e = "TypeError" /\
        shown = app mid ["Failed to explain component: " ++ errorToString e].
Proof.
  intros Hname Hclient.
  unfold handleExplain. unfold bind at 1. rewrite getRAGClient_run, Hname.
  unfold tryCatch. unfold bind at 1. rewrite Hclient.
  match goal with
  | |- exists shown, (match ?m w st1 with _ => _ end) = _ /\ _ =>
      assert (Hc : exists l,
                 if firstExplainable components then
                   renders m (Ok emptyResult) l /\
                   if strictEq (lookupProp components "length") (JNum 0)
                   then l = ["Component " ++ dq ++ name ++ dq ++
                             " not found in the knowledge base."]
                   else exists first, getFirst components = Ok first /\
                                      l = explained first
                 else exists e, errName e = "TypeError" /\
                                renders m (Throw e) l)
  end.
  { unfold firstExplainable.
    destruct (isNullish components) eqn:Hd; cbn [negb andb].
    { eexists. eexists. split;
        [|apply renders_bind_throw, (renders_prop_nullish _ _ Hd)].
      reflexivity. }
    destruct (strictEq (lookupProp components "length") (JNum 0)) eqn:Hlen;
      cbn [orb].
    { eexists. split; [|reflexivity].
      eapply renders_eq.
      - render. rewrite Hlen. render. apply renders_ret.
      - reflexivity. }
    destruct (getFirst components) as [first|e0] eqn:Hf.
    2: { destruct components; try discriminate Hd; discriminate Hf. }
    destruct (explainComponent_renders first) as [l Hl].
    destruct (explainable first).
    - destruct Hl as [Hl ->]. eexists. split.
      + eapply renders_eq.
        * render. rewrite Hlen. render.
          eapply renders_bind; [exact Hl|]. apply renders_ret.
        * cbn [app]. rewrite app_nil_r. reflexivity.
      + exists first. split; reflexivity.
    - destruct Hl as (e & He & Hl). eexists. exists e. split; [exact He|].
      render. rewrite Hlen. render. apply renders_bind_throw. exact Hl. }
  destruct Hc as [l Hc].
  destruct (firstExplainable components).
  - destruct Hc as [Hr Hshape]. rewrite Hr. exists l. split; [reflexivity|].
    exact Hshape.
  - destruct Hc as (e & He & Hr). rewrite Hr.
    exists (app l ["Failed to explain component: " ++ errorToString e]).
    split; [|exists l, e; split; [exact He | reflexivity]].
    unfold bind, markdown, modify, ret. rewrite <- streamed_app. reflexivity.
Qed.

(** ** What a tool does with an answer it cannot read *)

Lemma renders_prop2 (v : JsValue) (k1 k2 : string) :
  isNullish v = false -> isNullish (lookupProp v k1) = false ->
  renders (prop2 v k1 k2) (Ok (lookupProp (lookupProp v k1) k2)) [].
Proof.
  intros H1 H2. unfold prop2.
  eapply renders_eq; [eapply renders_bind; apply renders_prop; assumption|].
  reflexivity.
Qed.

Lemma renders_prop2_throws (v : JsValue) (k1 k2 : string) :
  isNullish v = true \/ isNullish (lookupProp v k1) = true ->
  exists e, renders (prop2 v k1 k2) (Throw e) [].
Proof.
  unfold prop2. destruct (isNullish v) eqn:E.
  - intros _. eexists. apply renders_bind_throw, (renders_prop_nullish _ _ E).
  - intros [H|H]; [discriminate|]. eexists.
    eapply renders_eq; [eapply renders_bind; [apply renders_prop; exact E|];
                        apply (renders_prop_nullish _ _ H)|].
    reflexivity.
Qed.

Lemma renders_mapM_some {A B} (ok : A -> bool) (f : A -> M B) :
  (forall x, if ok x then exists b, renders (f x) (Ok b) []
             else exists e, renders (f x) (Throw e) []) ->
  forall xs,
    if forallb ok xs then exists bs, renders (mapM f xs) (Ok bs) []
    else exists e, renders (mapM f xs) (Throw e) [].
Proof.
  intros Hf. induction xs as [|x xs IH]; cbn [forallb mapM].
  - eexists. apply renders_ret.
  - specialize (Hf x). destruct (ok x); cbn [andb].
    + destruct Hf as [b Hb]. destruct (forallb ok xs).
      * destruct IH as [bs IH]. eexists.
        eapply renders_eq;
          [eapply renders_bind; [exact Hb|]; cbv beta;
           eapply renders_bind; [exact IH|]; apply renders_ret|].
        reflexivity.
      * destruct IH as [e IH]. exists e.
        eapply renders_eq;
          [eapply renders_bind; [exact Hb|]; cbv beta;
           apply renders_bind_throw; exact IH|].
        reflexivity.
    + destruct Hf as [e He]. exists e. apply renders_bind_throw. exact He.
Qed.

Lemma arrayItems_not_array (what method : string) (v : JsValue) :
  isArray v = false -> exists e, arrayItems what method v = Throw e.
Proof. destruct v; simpl; intros H; try discriminate; eexists; reflexivity. Qed.

(** ** What the client throws (client.ts) *)

Lemma searchComponents_run (c : RAGClient) (request : JsValue) (w : World) (st : State) :
  let r := mkRequest POST (baseUrl c) "/api/search" (Some request) in
  searchComponents c request w st
  = match service w (httpLog st) r with
    | Resolved data => (Ok data, logRequest r st)
    | Rejected e =>
        (Throw (Error "Failed to search components"),
         logConsole "Search failed:" e (logRequest r st))
    end.
Proof.
  cbv zeta. unfold searchComponents, tryCatch, http.
  destruct (service w (httpLog st) _); reflexivity.
Qed.

Lemma suggestComponents_run (c : RAGClient) (query limit : JsValue)
      (w : World) (st : State) :
  limit <> JUndefined ->
  let r := mkRequest POST (baseUrl c) "/api/search/suggest"
             (Some (JObj [("query", query); ("limit", limit)])) in
  suggestComponents c query limit w st
  = match service w (httpLog st) r with
    | Resolved data => (Ok data, logRequest r st)
    | Rejected e =>
        (Throw (Error "Failed to suggest components"),
         logConsole "Suggest failed:" e (logRequest r st))
    end.
Proof.
  intros Hl. cbv zeta. unfold suggestComponents, tryCatch, http.
  destruct limit; try contradiction;
    destruct (service w (httpLog st) _); reflexivity.
Qed.

Lemma getComponentsByName_run (c : RAGClient) (name : JsValue)
      (w : World) (st : State) :
  let r := mkRequest GET (baseUrl c) ("/api/components/name/" ++ toStr name) None in
  getComponentsByName c name w st
  = match service w (httpLog st) r with
    | Resolved data => (Ok data, logRequest r st)
    | Rejected e =>
        (Throw (Error "Failed to get components by name"),
         logConsole "Failed to get components by name:" e (logRequest r st))
    end.
Proof.
  cbv zeta. unfold getComponentsByName, tryCatch, http.
  destruct (service w (httpLog st) _); reflexivity.
Qed.

Lemma or_else_defined (a : JsValue) (n : Z) : or_else a (JNum n) <> JUndefined.
Proof. unfold or_else. destruct a; simpl; try discriminate.
  all: try (destruct b; discriminate).
  all: try (match goal with |- context [if ?c then _ else _] => destruct c end; discriminate).
Qed.

(** ** What a tool returns when it fails (tools.ts) *)

Lemma bind_prop_ok {B} (v : JsValue) (k : string) (f : JsValue -> M B)
      (w : World) (st : State) :
  isNullish v = false -> bind (prop v k) f w st = f (lookupProp v k) w st.
Proof.
  intros H. unfold bind, prop, lift. rewrite (getProp_ok _ _ H). reflexivity.
Qed.

Lemma bind_prop_nullish {B} (v : JsValue) (k : string) (f : JsValue -> M B)
      (w : World) (st : State) :
  isNullish v = true ->
  bind (prop v k) f w st
  = (Throw (TypeError ("Cannot read properties of " ++ typeName v ++
                       " (reading '" ++ k ++ "')")), st).
Proof.
  intros H. unfold bind, prop, lift. destruct v; try discriminate H; reflexivity.
Qed.

Lemma searchHit_read (r : JsValue) :
  let f := fun r =>
    name <- prop2 r "component" "name" ;;
    description <- prop2 r "component" "description" ;;
    import_path <- prop2 r "component" "import_path" ;;
    props <- prop2 r "component" "props" ;;
    score <- prop r "score" ;;
    ret (JObj [("name", name);
               ("description", description);
               ("importPath", import_path);
               ("props", props);
               ("score", score)]) in
  if isHit r then exists b, renders (f r) (Ok b) []
  else exists e, renders (f r) (Throw e) [].
Proof.
  cbv zeta. unfold isHit.
  destruct (isNullish r) eqn:Hr; cbn [negb andb].
  { destruct (renders_prop2_throws r "component" "name") as [e He];
      [left; exact Hr|].
    exists e. apply renders_bind_throw. exact He. }
  destruct (isNullish (lookupProp r "component")) eqn:Hc; cbn [negb].
  { destruct (renders_prop2_throws r "component" "name") as [e He];
      [right; exact Hc|].
    exists e. apply renders_bind_throw. exact He. }
  eexists.
  eapply renders_eq.
  - do 4 (eapply renders_bind; [apply renders_prop2; assumption|]; cbv beta).
    eapply renders_bind; [apply renders_prop; assumption|]. apply renders_ret.
  - reflexivity.
Qed.

Lemma suggestHit_read (r : JsValue) :
  let f := fun r =>
    name <- prop2 r "component" "name" ;;
    description <- prop2 r "component" "description" ;;
    import_path <- prop2 r "component" "import_path" ;;
    props <- prop2 r "component" "props" ;;
    score <- prop r "score" ;;
    examples <- prop2 r "component" "examples" ;;
    firstExample <- lift (sliceFirst "r.component.examples" 1 examples) ;;
    ret (JObj [("name", name);
               ("description", description);
               ("importPath", import_path);
               ("props", props);
               ("score", score);
               ("examples", firstExample)]) in
  if isHit r && sliceable (lookupProp (lookupProp r "component") "examples")
  then exists b, renders (f r) (Ok b) []
  else exists e, renders (f r) (Throw e) [].
Proof.
  cbv zeta. unfold isHit.
  destruct (isNullish r) eqn:Hr; cbn [negb andb].
  { destruct (renders_prop2_throws r "component" "name") as [e He];
      [left; exact Hr|].
    exists e. apply renders_bind_throw. exact He. }
  destruct (isNullish (lookupProp r "component")) eqn:Hc; cbn [negb andb].
  { destruct (renders_prop2_throws r "component" "name") as [e He];
      [right; exact Hc|].
    exists e. apply renders_bind_throw. exact He. }
  destruct (sliceable _) eqn:Hs.
  - destruct (sliceFirst "r.component.examples" 1
                (lookupProp (lookupProp r "component") "examples"))
      as [shown|e] eqn:Hf.
    2: { destruct (lookupProp (lookupProp r "component") "examples");
           discriminate. }
    eexists. eapply renders_eq.
    + do 4 (eapply renders_bind; [apply renders_prop2; assumption|]; cbv beta).
      eapply renders_bind; [apply renders_prop; assumption|]. cbv beta.
      eapply renders_bind; [apply renders_prop2; assumption|]. cbv beta.
      rewrite Hf.
      eapply renders_bind; [apply renders_lift|]. apply renders_ret.
    + reflexivity.
  - destruct (sliceFirst "r.component.examples" 1
                (lookupProp (lookupProp r "component") "examples"))
      as [shown|e] eqn:Hf.
    { destruct (lookupProp (lookupProp r "component") "examples");
        discriminate. }
    exists e. eapply renders_eq.
    + do 4 (eapply renders_bind; [apply renders_prop2; assumption|]; cbv beta).
      eapply renders_bind; [apply renders_prop; assumption|]. cbv beta.
      eapply renders_bind; [apply renders_prop2; assumption|]. cbv beta.
      rewrite Hf. apply renders_bind_throw, renders_lift.
    + reflexivity.
Qed.

(** A success is not the failure object of a [catch] block. *)
Lemma success_not_failure (v : JsValue) (prefix : string) :
  isSuccess v -> forall e, v <> failure prefix e.
Proof. intros [fields ->] e. discriminate. Qed.

(** What follows the answer in a tool that maps over [answer.field]. *)
Lemma mapped_outcome (ok : JsValue -> bool) (f : JsValue -> M JsValue)
      (field what : string) (finish : list JsValue -> M JsValue)
      (answer : JsValue) :
  isNullish answer = false ->
  (forall r, if ok r then exists b, renders (f r) (Ok b) []
             else exists e, renders (f r) (Throw e) []) ->
  (forall mapped, exists v, renders (finish mapped) (Ok v) [] /\ isSuccess v) ->
  let rest :=
    items <- lift (arrayItems what "map" (lookupProp answer field)) ;;
    mapped <- mapM f items ;;
    finish mapped in
  if match lookupProp answer field with
     | JArr items => forallb ok items
     | _ => false
     end
  then exists v, renders rest (Ok v) [] /\ isSuccess v
  else exists e, renders rest (Throw e) [].
Proof.
  intros Ha Hf Hfinish. cbv zeta.
  destruct (isArray (lookupProp answer field)) eqn:Harr.
  - destruct (lookupProp answer field) eqn:Hv; try discriminate Harr.
    match goal with
    | |- if forallb ok ?l then _ else _ => rename l into items
    end.
    pose proof (renders_mapM_some ok f Hf items) as Hm.
    destruct (forallb ok items).
    + destruct Hm as [bs Hm]. destruct (Hfinish bs) as (v & Hv' & Hs).
      exists v. split; [|exact Hs].
      eapply renders_eq.
      * eapply renders_bind; [apply renders_lift|]. cbv beta.
        eapply renders_bind; [exact Hm | exact Hv'].
      * reflexivity.
    + destruct Hm as [e He]. exists e.
      eapply renders_eq.
      * eapply renders_bind; [apply renders_lift|]. cbv beta.
        apply renders_bind_throw. exact He.
      * reflexivity.
  - destruct (arrayItems_not_array what "map" _ Harr) as [e He].
    assert (Hno : match lookupProp answer field with
                  | JArr items => forallb ok items
                  | _ => false
                  end = false)
      by (destruct (lookupProp answer field); try reflexivity;
          discriminate Harr).
    rewrite Hno. exists e. rewrite He. apply renders_bind_throw, renders_lift.
Qed.

(** From what follows the answer to the result of the tool. *)
Ltac after_answer Hres :=
  match type of Hres with
  | _ = fst (match ?m ?w ?s with _ => _ end) =>
      match goal with
      | |- (if ?b then _ else exists _, _ = Ok (failure ?prefix _)) =>
          let Hc := fresh "Hc" in
          let v := fresh "v" in
          let Hv := fresh "Hv" in
          let e := fresh "e" in
          assert (Hc : if b
                       then exists v, renders m (Ok v) [] /\
                                      forall e, v <> failure prefix e
                       else exists e, renders m (Throw e) []);
          [ clear Hres
          | destruct b;
            [ destruct Hc as (v & Hc & Hv); exists v;
              rewrite (Hc w s) in Hres; split; [exact Hres | exact Hv]
            | destruct Hc as [e Hc]; exists e;
              rewrite (Hc w s) in Hres; exact Hres ] ]
      end
  end.

Lemma searchComponentsTool_outcome (parameters : JsValue) (w : World) (st : State) :
  isNullish parameters = false ->
  match service w (httpLog st)
          (mkRequest POST (baseUrl (currentClient w st)) "/api/search"
             (Some (JObj [("query", lookupProp parameters "query");
                          ("limit", or_else (lookupProp parameters "limit")
                                            (JNum 10))]))) with
  | Rejected _ =>
      fst (searchComponentsTool parameters w st)
      = Ok (failure "Failed to search components: "
                    (Error "Failed to search components"))
  | Resolved data =>
      if searchToolReads data
      then exists v,
          fst (searchComponentsTool parameters w st) = Ok v /\
          forall e, v <> failure "Failed to search components: " e
      else exists e,
          fst (searchComponentsTool parameters w st)
          = Ok (failure "Failed to search components: " e)
  end.
Proof.
  intros Hp.
  remember (fst (searchComponentsTool parameters w st)) as result eqn:Hres.
  unfold searchComponentsTool in Hres. unfold bind at 1 in Hres.
  rewrite getRAGClient_run in Hres. unfold tryCatch in Hres.
  rewrite !bind_prop_ok in Hres by exact Hp. unfold bind at 1 in Hres.
  rewrite searchComponents_run, withClient_httpLog in Hres.
  destruct (service w (httpLog st) _) as [data|e0]; [|exact Hres].
  after_answer Hres.
  unfold searchToolReads.
  destruct (isNullish data) eqn:Hd; cbn [negb andb].
  { eexists. apply renders_bind_throw, (renders_prop_nullish _ _ Hd). }
  pose proof (mapped_outcome isHit _ "results" "result.results"
                (fun components =>
                   ret (JObj [("success", JBool true);
                              ("components", JArr components)]))
                data Hd searchHit_read) as Hm.
  cbv zeta in Hm.
  destruct (match lookupProp data "results" with
            | JArr items => forallb isHit items
            | _ => false
            end).
  - destruct Hm as (v & Hv & Hs').
    { intros mapped. eexists. split; [apply renders_ret|].
      eexists. reflexivity. }
    exists v. split; [|apply success_not_failure; exact Hs'].
    eapply renders_eq.
    + eapply renders_bind; [apply renders_prop; exact Hd|]. exact Hv.
    + reflexivity.
  - destruct Hm as [e He].
    { intros mapped. eexists. split; [apply renders_ret|].
      eexists. reflexivity. }
    exists e. eapply renders_eq.
    + eapply renders_bind; [apply renders_prop; exact Hd|]. exact He.
    + reflexivity.
Qed.

Lemma suggestComponentForUITool_outcome (parameters : JsValue)
      (w : World) (st : State) :
  isNullish parameters = false ->
  match service w (httpLog st)
          (mkRequest POST (baseUrl (currentClient w st)) "/api/search/suggest"
             (Some (JObj [("query", lookupProp parameters "uiDescription");
                          ("limit", or_else (lookupProp parameters "limit")
                                            (JNum 5))]))) with
  | Rejected _ =>
      fst (suggestComponentForUITool parameters w st)
      = Ok (failure "Failed to suggest components: "
                    (Error "Failed to suggest components"))
  | Resolved data =>
      if suggestToolReads data
      then exists v,
          fst (suggestComponentForUITool parameters w st) = Ok v /\
          forall e, v <> failure "Failed to suggest components: " e
      else exists e,
          fst (suggestComponentForUITool parameters w st)
          = Ok (failure "Failed to suggest components: " e)
  end.
Proof.
  intros Hp.
  remember (fst (suggestComponentForUITool parameters w st)) as result eqn:Hres.
  unfold suggestComponentForUITool in Hres. unfold bind at 1 in Hres.
  rewrite getRAGClient_run in Hres. unfold tryCatch in Hres.
  rewrite !bind_prop_ok in Hres by exact Hp. unfold bind at 1 in Hres.
  rewrite suggestComponents_run in Hres by apply or_else_defined.
  rewrite withClient_httpLog in Hres.
  destruct (service w (httpLog st) _) as [data|e0]; [|exact Hres].
  after_answer Hres.
  unfold suggestToolReads.
  destruct (isNullish data) eqn:Hd; cbn [negb andb].
  { eexists. apply renders_bind_throw, (renders_prop_nullish _ _ Hd). }
  pose proof (mapped_outcome
                (fun h => isHit h &&
                          sliceable (lookupProp (lookupProp h "component")
                                                "examples"))
                _ "results" "result.results"
                (fun suggestions =>
                   ret (JObj [("success", JBool true);
                              ("suggestions", JArr suggestions)]))
                data Hd suggestHit_read) as Hm.
  cbv zeta in Hm.
  destruct (match lookupProp data "results" with
            | JArr items => forallb _ items
            | _ => false
            end).
  - destruct Hm as (v & Hv & Hs').
    { intros mapped. eexists. split; [apply renders_ret|].
      eexists. reflexivity. }
    exists v. split; [|apply success_not_failure; exact Hs'].
    eapply renders_eq.
    + eapply renders_bind; [apply renders_prop; exact Hd|]. exact Hv.
    + reflexivity.
  - destruct Hm as [e He].
    { intros mapped. eexists. split; [apply renders_ret|].
      eexists. reflexivity. }
    exists e. eapply renders_eq.
    + eapply renders_bind; [apply renders_prop; exact Hd|]. exact He.
    + reflexivity.
Qed.

Lemma explainComponentTool_outcome (parameters : JsValue) (w : World) (st : State) :
  isNullish parameters = false ->
  match service w (httpLog st)
          (mkRequest GET (baseUrl (currentClient w st))
             ("/api/components/name/" ++
              toStr (lookupProp parameters "componentName")) None) with
  | Rejected _ =>
      fst (explainComponentTool parameters w st)
      = Ok (failure "Failed to get component details: "
                    (Error "Failed to get components by name"))
  | Resolved data =>
      if explainToolReads data
      then exists v,
          fst (explainComponentTool parameters w st) = Ok v /\
          forall e, v <> failure "Failed to get component details: " e
      else exists e,
          fst (explainComponentTool parameters w st)
          = Ok (failure "Failed to get component details: " e)
  end.
Proof.
  intros Hp.
  remember (fst (explainComponentTool parameters w st)) as result eqn:Hres.
  unfold explainComponentTool in Hres. unfold bind at 1 in Hres.
  rewrite getRAGClient_run in Hres. unfold tryCatch in Hres.
  rewrite !bind_prop_ok in Hres by exact Hp. unfold bind at 1 in Hres.
  rewrite getComponentsByName_run, withClient_httpLog in Hres.
  destruct (service w (httpLog st) _) as [data|e0]; [|exact Hres].
  after_answer Hres.
  unfold explainToolReads.
  destruct (isNullish data) eqn:Hd; cbn [negb andb].
  { eexists. apply renders_bind_throw, (renders_prop_nullish _ _ Hd). }
  destruct (strictEq (lookupProp data "length") (JNum 0)) eqn:Hlen;
    cbn [orb].
  { eexists. split.
    - eapply renders_eq.
      + eapply renders_bind; [apply renders_prop; exact Hd|]. cbv beta.
        rewrite Hlen. apply renders_ret.
      + reflexivity.
    - intros e. unfold failure. intros H. discriminate H. }
  destruct (getFirst data) as [first|e1] eqn:Hf.
  2: { destruct data; try discriminate Hd; discriminate Hf. }
  destruct (isNullish first) eqn:Hn; cbn [negb].
  - eexists. eapply renders_eq.
    + eapply renders_bind; [apply renders_prop; exact Hd|]. cbv beta.
      rewrite Hlen.
      eapply renders_bind; [apply renders_lift|]. cbv beta.
      apply renders_bind_throw, (renders_prop_nullish _ _ Hn).
    + reflexivity.
  - eexists. split.
    + eapply renders_eq.
      * eapply renders_bind; [apply renders_prop; exact Hd|]. cbv beta.
        rewrite Hlen.
        eapply renders_bind; [apply renders_lift|]. cbv beta.
        do 10 (eapply renders_bind; [apply renders_prop; exact Hn|]; cbv beta).
        apply renders_ret.
      * reflexivity.
    + apply success_not_failure. eexists. reflexivity.
Qed.

Lemma scanComponentFolderTool_outcome (parameters : JsValue)
      (w : World) (st : State) :
  isNullish parameters = false ->
  match service w (httpLog st)
          (scanRequest (currentClient w st)
             (JObj [("folder_path", lookupProp parameters "folderPath");
                    ("include_storybooks",
                     JBool (negb (strictEq
                                    (lookupProp parameters "includeStorybooks")
                                    (JBool false))));
                    ("include_tests", JBool false);
                    ("recursive",
                     JBool (negb (strictEq (lookupProp parameters "recursive")
                                           (JBool false))))])) with
  | Rejected _ =>
      fst (scanComponentFolderTool parameters w st)
      = Ok (failure "Failed to scan folder: " (Error "Failed to scan folder"))
  | Resolved data =>
      if scanToolReads data
      then exists v,
          fst (scanComponentFolderTool parameters w st) = Ok v /\
          forall e, v <> failure "Failed to scan folder: " e
      else exists e,
          fst (scanComponentFolderTool parameters w st)
          = Ok (failure "Failed to scan folder: " e)
  end.
Proof.
  intros Hp.
  remember (fst (scanComponentFolderTool parameters w st)) as result eqn:Hres.
  unfold scanComponentFolderTool in Hres. unfold bind at 1 in Hres.
  rewrite getRAGClient_run in Hres. unfold tryCatch in Hres.
  rewrite !bind_prop_ok in Hres by exact Hp. unfold bind at 1 in Hres.
  rewrite scanFolder_run in Hres by reflexivity.
  rewrite withClient_httpLog in Hres.
  destruct (service w (httpLog st) _) as [data|e0]; [|exact Hres].
  unfold scanToolReads.
  destruct (isNullish data) eqn:Hd; cbn [negb andb].
  { eexists. exact Hres. }
  after_answer Hres.
  match goal with
  | |- context [renders (bind (prop ?result _) _) _ _] =>
      pose proof (mapped_outcome (fun x => negb (isNullish x))
                    (fun c => prop c "name") "components" "result.components"
                    (fun names =>
                       errors <- prop result "errors" ;;
                       ret (JObj [("success", JBool true);
                                  ("componentsFound",
                                   lookupProp result "components_found");
                                  ("components", JArr names);
                                  ("errors", errors)]))
                    result eq_refl) as Hm
  end.
  cbv zeta in Hm.
  assert (Hread : forall r,
             if negb (isNullish r)
             then exists b, renders (prop r "name") (Ok b) []
             else exists e, renders (prop r "name") (Throw e) []).
  { intros r. destruct (isNullish r) eqn:Hn; cbn [negb].
    - eexists. apply (renders_prop_nullish _ _ Hn).
    - eexists. apply renders_prop. exact Hn. }
  specialize (Hm Hread). clear Hread.
  match type of Hm with
  | ?P -> _ =>
      assert (Hfinish : P);
      [ intros mapped; eexists; split;
        [ eapply renders_eq;
          [ eapply renders_bind; [apply renders_prop; reflexivity|];
            apply renders_ret
          | reflexivity ]
        | eexists; reflexivity ]
      | specialize (Hm Hfinish); clear Hfinish ]
  end.
  change (lookupProp
            (JObj [("componentsFound", lookupProp data "components_found");
                   ("components", lookupProp data "components");
                   ("errors", or_else (lookupProp data "errors") (JArr []))])
            "components")
    with (lookupProp data "components") in Hm.
  unfold allReadable.
  destruct (match lookupProp data "components" with
            | JArr cs => forallb _ cs
            | _ => false
            end).
  - destruct Hm as (v & Hv & Hs').
    exists v. split; [|apply success_not_failure; exact Hs'].
    eapply renders_eq.
    + eapply renders_bind; [apply renders_prop; reflexivity|]. cbv beta.
      eapply renders_bind; [apply renders_prop; reflexivity|]. exact Hv.
    + reflexivity.
  - destruct Hm as [e He].
    exists e. eapply renders_eq.
    + eapply renders_bind; [apply renders_prop; reflexivity|]. cbv beta.
      eapply renders_bind; [apply renders_prop; reflexivity|]. exact He.
    + reflexivity.
Qed.

Lemma tools_without_parameters (parameters : JsValue) (w : World) (st : State) :
  isNullish parameters = true ->
  forall run prefix rest,
    In (run, prefix, rest) (toolCases (currentClient w st) parameters) ->
    exists e,
      errName e = "TypeError" /\
      run w st = (Ok (failure prefix e), withClient w st).
Proof.
  intros Hp run prefix rest Hin. unfold toolCases in Hin. simpl in Hin.
  destruct Hin as [[= <- <- _] | [[= <- <- _] | [[= <- <- _] |
                   [[= <- <- _] | []]]]];
    eexists; (split; [|
      match goal with
      | |- ?tool _ _ _ = _ => unfold tool
      end;
      unfold bind at 1; rewrite getRAGClient_run; unfold tryCatch;
      rewrite (bind_prop_nullish _ _ _ _ _ Hp); reflexivity]);
    reflexivity.
Qed.

Lemma tools_outcome (parameters : JsValue) (w : World) (st : State) :
  isNullish parameters = false ->
  forall run prefix request thrown reads,
    In (run, prefix, (request, thrown, reads))
       (toolCases (currentClient w st) parameters) ->
    match service w (httpLog st) request with
    | Rejected _ => fst (run w st) = Ok (failure prefix thrown)
    | Resolved data =>
        if reads data
        then exists v, fst (run w st) = Ok v /\
                       forall e, v <> failure prefix e
        else exists e, fst (run w st) = Ok (failure prefix e)
    end.
Proof.
  intros Hp run prefix request thrown reads Hin.
  unfold toolCases in Hin. simpl in Hin.
  destruct Hin as [[= <- <- <- <- <-] | [[= <- <- <- <- <-] |
                   [[= <- <- <- <- <-] | [[= <- <- <- <- <-] | []]]]].
  - apply (searchComponentsTool_outcome _ _ _ Hp).
  - apply (explainComponentTool_outcome _ _ _ Hp).
  - apply (suggestComponentForUITool_outcome _ _ _ Hp).
  - apply (scanComponentFolderTool_outcome _ _ _ Hp).
Qed.

(** ** What a chat turn ends with (agent.ts) *)

Lemma afterHealthCheck_client (w : World) (st : State) :
  currentClient w (afterHealthCheck w st) = currentClient w st /\
  withClient w (afterHealthCheck w st) = afterHealthCheck w st.
Proof.
  assert (H : ragClient (afterHealthCheck w st) = Some (currentClient w st))
    by (unfold afterHealthCheck; simpl; apply withClient_ragClient).
  unfold currentClient at 1, withClient at 1. rewrite H. split; reflexivity.
Qed.

Lemma handleSearch_thrown (query : string) (e : JsError)
      (w : World) (st st1 : State) :
  searchComponents (currentClient w st)
    (JObj [("query", JStr query); ("limit", JNum 5)]) w (withClient w st)
  = (Throw e, st1) ->
  handleSearch query w st
  = (Ok emptyResult, logChat ("Failed to search: " ++ errorToString e) st1).
Proof.
  intros H. unfold handleSearch. unfold bind at 1.
  rewrite getRAGClient_run. unfold tryCatch. unfold bind at 1.
  rewrite H. reflexivity.
Qed.

Lemma handleSuggest_thrown (query : string) (e : JsError)
      (w : World) (st st1 : State) :
  suggestComponents (currentClient w st) (JStr query) (JNum 5) w
    (withClient w st) = (Throw e, st1) ->
  handleSuggest query w st
  = (Ok emptyResult,
     logChat ("Failed to get suggestions: " ++ errorToString e) st1).
Proof.
  intros H. unfold handleSuggest. unfold bind at 1.
  rewrite getRAGClient_run. unfold tryCatch. unfold bind at 1.
  rewrite H. reflexivity.
Qed.

Lemma handleExplain_thrown (query name : string) (e : JsError)
      (w : World) (st st1 : State) :
  extractComponentName query = Some name ->
  getComponentsByName (currentClient w st) (JStr name) w (withClient w st)
  = (Throw e, st1) ->
  handleExplain query w st
  = (Ok emptyResult,
     logChat ("Failed to explain component: " ++ errorToString e) st1).
Proof.
  intros Hname H. unfold handleExplain. unfold bind at 1.
  rewrite getRAGClient_run, Hname. unfold tryCatch. unfold bind at 1.
  rewrite H. reflexivity.
Qed.

Lemma handleExplain_nameless (query : string) (w : World) (st : State) :
  extractComponentName query = None ->
  handleExplain query w st
  = (Ok emptyResult,
     logChat "Could not determine which component to explain. Please specify a component name."
             (withClient w st)).
Proof.
  intros Hname. unfold handleExplain. unfold bind at 1.
  rewrite getRAGClient_run, Hname. reflexivity.
Qed.

(** A chat turn, case by case: the service is not healthy; the prompt
    names nothing to explain; the request of the handler is rejected; it
    is answered. *)
Lemma handleRequest_outcome (prompt : string) (w : World) (st : State) :
  let c := currentClient w st in
  let start := afterHealthCheck w st in
  let intent := determineIntent prompt in
  if saysHealthy (service w (httpLog st) (healthRequest c)) then
    match handlerRequest c prompt with
    | Some request =>
        match service w (httpLog start) request with
        | Rejected e =>
            handleRequest prompt w st
            = (Ok emptyResult,
               logChat (failureLine intent (clientError intent))
                 (logConsole (clientLabel intent) e (logRequest request start)))
        | Resolved data =>
            exists shown,
              handleRequest prompt w st
              = (Ok emptyResult, streamed shown (logRequest request start)) /\
              if showable intent data then completed prompt data shown
              else exists mid e,
                  errName e = "TypeError" /\
                  shown = app mid [failureLine intent e]
        end
    | None =>
        handleRequest prompt w st
        = (Ok emptyResult,
           logChat "Could not determine which component to explain. Please specify a component name."
                   start)
    end
  else
    handleRequest prompt w st
    = (Ok emptyResult,
       logChat serviceDownNotice (logRequest (healthRequest c) (withClient w st))).
Proof.
  cbv zeta. rewrite handleRequest_run.
  destruct (saysHealthy _); [|reflexivity].
  destruct (afterHealthCheck_client w st) as [Hc Hw].
  unfold handlerRequest, completed, showable, failureLine, clientError,
    clientLabel.
  destruct (determineIntent prompt); cbn [route].
  - pose proof (searchComponents_run (currentClient w st)
                  (JObj [("query", JStr prompt); ("limit", JNum 5)]) w
                  (afterHealthCheck w st)) as Hrun.
    cbv zeta in Hrun.
    assert (Hcall : searchComponents (currentClient w (afterHealthCheck w st))
                      (JObj [("query", JStr prompt); ("limit", JNum 5)]) w
                      (withClient w (afterHealthCheck w st))
                    = searchComponents (currentClient w st)
                        (JObj [("query", JStr prompt); ("limit", JNum 5)]) w
                        (afterHealthCheck w st))
      by (rewrite Hc, Hw; reflexivity).
    rewrite <- Hcall in Hrun.
    destruct (service w (httpLog (afterHealthCheck w st)) _) as [data|e].
    + destruct (handleSearch_resolved _ _ _ _ _ Hrun) as [shown [H1 H2]].
      exists shown. split; [exact H1 | exact H2].
    + apply (handleSearch_thrown _ _ _ _ _ Hrun).
  - pose proof (suggestComponents_run (currentClient w st) (JStr prompt)
                  (JNum 5) w (afterHealthCheck w st)) as Hrun.
    cbv zeta in Hrun. specialize (Hrun ltac:(discriminate)).
    assert (Hcall : suggestComponents (currentClient w (afterHealthCheck w st))
                      (JStr prompt) (JNum 5) w
                      (withClient w (afterHealthCheck w st))
                    = suggestComponents (currentClient w st) (JStr prompt)
                        (JNum 5) w (afterHealthCheck w st))
      by (rewrite Hc, Hw; reflexivity).
    rewrite <- Hcall in Hrun.
    destruct (service w (httpLog (afterHealthCheck w st)) _) as [data|e].
    + destruct (handleSuggest_resolved _ _ _ _ _ Hrun) as [shown [H1 H2]].
      exists shown. split; [exact H1 | exact H2].
    + apply (handleSuggest_thrown _ _ _ _ _ Hrun).
  - destruct (extractComponentName prompt) as [name|] eqn:Hname.
    2: { rewrite (handleExplain_nameless _ _ _ Hname), Hw. reflexivity. }
    pose proof (getComponentsByName_run (currentClient w st) (JStr name) w
                  (afterHealthCheck w st)) as Hrun.
    cbv zeta in Hrun.
    assert (Hcall : getComponentsByName
                      (currentClient w (afterHealthCheck w st)) (JStr name) w
                      (withClient w (afterHealthCheck w st))
                    = getComponentsByName (currentClient w st) (JStr name) w
                        (afterHealthCheck w st))
      by (rewrite Hc, Hw; reflexivity).
    rewrite <- Hcall in Hrun.
    change (toStr (JStr name)) with name in Hrun.
    destruct (service w (httpLog (afterHealthCheck w st)) _) as [data|e].
    + destruct (handleExplain_resolved _ _ _ _ _ _ Hname Hrun)
        as [shown [H1 H2]].
      exists shown. split; [exact H1|].
      destruct (firstExplainable data); [|exact H2].
      destruct (strictEq (lookupProp data "length") (JNum 0)); [|exact H2].
      exists name. split; [reflexivity | exact H2].
    + apply (handleExplain_thrown _ _ _ _ _ _ Hname Hrun).
Qed.

(** ** Explaining the first match (tools.ts, agent.ts) *)

Lemma firstExplainable_cons (first : JsValue) (rest : list JsValue) :
  firstExplainable (JArr (first :: rest)) = explainable first.
Proof.
  unfold firstExplainable, lookupProp.
  destruct (nonempty_length_not_zero first rest) as [-> ->]. reflexivity.
Qed.

(** C8.  Explain-by-name never lets an exception out.  When
    [getComponentsByName] returns the empty sequence, the explain tool
    returns [{success: false}] with a not-found error and the chat handler
    streams a not-found message.  When the sequence is not empty, its
    first element, and nothing of the rest, is the component explained:
    the tool returns the sheet of the first element (the failure object
    when that element is [null] or [undefined]), and the chat handler
    streams [explained first], or, when the first element cannot be
    explained to the end, what it had streamed of it followed by the
    failure line of the TypeError that stopped it. *)
Theorem explain_by_name_first_match (w : World) (st : State) :
  let c := currentClient w st in
  let st0 := withClient w st in
  (forall parameters,
     exists v st', explainComponentTool parameters w st = (Ok v, st')) /\
  (forall query,
     exists st', handleExplain query w st = (Ok emptyResult, st')) /\
  (forall parameters st1,
     isNullish parameters = false ->
     getComponentsByName c (lookupProp parameters "componentName") w st0
       = (Ok (JArr []), st1) ->
     explainComponentTool parameters w st
     = (Ok (JObj [("success", JBool false);
                  ("error", JStr ("Component " ++ dq ++
                                  toStr (lookupProp parameters "componentName") ++
                                  dq ++ " not found"))]),
        st1)) /\
  (forall parameters first rest st1,
     isNullish parameters = false ->
     getComponentsByName c (lookupProp parameters "componentName") w st0
       = (Ok (JArr (first :: rest)), st1) ->
     explainComponentTool parameters w st
     = (Ok (if isNullish first
            then failure "Failed to get component details: "
                   (TypeError ("Cannot read properties of " ++
                               typeName first ++ " (reading 'name')"))
            else JObj [("success", JBool true);
                       ("component",
                        JObj [("name", lookupProp first "name");
                              ("description", lookupProp first "description");
                              ("filePath", lookupProp first "file_path");
                              ("importPath", lookupProp first "import_path");
                              ("exportType", lookupProp first "export_type");
                              ("props", lookupProp first "props");
                              ("examples", lookupProp first "examples");
                              ("themeWrapper", lookupProp first "theme_wrapper");
                              ("category", lookupProp first "category");
                              ("tags", lookupProp first "tags")])]),
        st1)) /\
  (forall query name st1,
     extractComponentName query = Some name ->
     getComponentsByName c (JStr name) w st0 = (Ok (JArr []), st1) ->
     handleExplain query w st
     = (Ok emptyResult,
        logChat ("Component " ++ dq ++ name ++ dq ++
                 " not found in the knowledge base.") st1)) /\
  (forall query name first rest st1,
     extractComponentName query = Some name ->
     getComponentsByName c (JStr name) w st0 = (Ok (JArr (first :: rest)), st1) ->
     if explainable first
     then handleExplain query w st
          = (Ok emptyResult, streamed (explained first) st1)
     else exists shown e,
         errName e = "TypeError" /\
         handleExplain query w st
         = (Ok emptyResult,
            streamed (app shown ["Failed to explain component: " ++
                                 errorToString e]) st1)).
Proof.
  cbv zeta. repeat apply conj.
  - intros parameters.
    destruct (explainComponentTool_shape parameters w st) as [v [st' [H _]]].
    eauto.
  - intros query.
    destruct (handleExplain_returns query w st) as [r [st' H]].
    rewrite (handleExplain_yields query _ _ _ _ H) in H. eauto.
  - intros parameters st1 Hp H. unfold explainComponentTool.
    unfold bind at 1. rewrite getRAGClient_run. expose.
    rewrite (getProp_ok _ _ Hp), H. reflexivity.
  - intros parameters first rest st1 Hp H. unfold explainComponentTool.
    unfold bind at 1. rewrite getRAGClient_run. expose.
    rewrite (getProp_ok _ _ Hp), H.
    destruct (nonempty_length_not_zero first rest) as [-> ->].
    cbv beta iota delta [getFirst nth].
    destruct (isNullish first) eqn:Hf.
    + destruct first; try discriminate Hf; reflexivity.
    + rewrite !(getProp_ok first) by exact Hf. reflexivity.
  - intros query name st1 Hname H. unfold handleExplain.
    unfold bind at 1. rewrite getRAGClient_run, Hname. expose.
    rewrite H. reflexivity.
  - intros query name first rest st1 Hname H.
    destruct (handleExplain_resolved _ _ _ _ _ _ Hname H) as [shown [H1 H2]].
    rewrite firstExplainable_cons in H2.
    destruct (explainable first).
    + change (lookupProp (JArr (first :: rest)) "length")
        with (JNum (Z.of_nat (S (List.length rest)))) in H2.
      rewrite (proj2 (nonempty_length_not_zero first rest)) in H2.
      destruct H2 as (first' & [= <-] & ->). exact H1.
    + destruct H2 as (mid & e & He & ->). exists mid, e.
      split; [exact He | exact H1].
Qed.

Lemma explain_by_name_first_match_witness :
  let known := Sample.answering (JArr [Sample.button; Sample.avatar]) in
  fst (explainComponentTool (JObj [("componentName", JStr "Tooltip")])
                            Sample.up initialState)
  = Ok (JObj [("success", JBool false);
              ("error", JStr ("Component " ++ dq ++ "Tooltip" ++ dq ++
                              " not found"))]) /\
  chat (snd (handleExplain "what is Tooltip" Sample.up initialState))
  = ["Component " ++ dq ++ "Tooltip" ++ dq ++ " not found in the knowledge base."] /\
  lookupProp
    (lookupProp
       (match fst (explainComponentTool (JObj [("componentName", JStr "Button")])
                                        known initialState) with
        | Ok v => v
        | Throw _ => JUndefined
        end) "component") "filePath"
  = JStr "/src/Button.tsx" /\
  fst (explainComponentTool (JObj [("componentName", JStr "Button")])
                            (Sample.answering (JArr [JNull; Sample.button]))
                            initialState)
  = Ok (JObj [("success", JBool false);
              ("error", JStr "Failed to get component details: TypeError: Cannot read properties of null (reading 'name')")]) /\
  chat (snd (handleExplain ("explain" ++ nbsp ++ "Button") known initialState))
  = [ "# Button" ++ nl ++ nl;
      "A clickable button" ++ nl ++ nl;
      "**Category:** inputs" ++ nl ++ nl;
      "**Import:**" ++ nl ++ bq ++ bq ++ bq ++ "tsx" ++ nl ++
      "import { Button } from '@ui/button';" ++ nl ++ bq ++ bq ++ bq ++
      nl ++ nl;
      "## Props" ++ nl ++ nl;
      "- **label**: " ++ bq ++ "string" ++ bq ++ " (required)" ++ nl;
      nl;
      "## Examples" ++ nl ++ nl;
      "### Basic" ++ nl ++ nl;
      bq ++ bq ++ bq ++ "tsx" ++ nl ++ "<Button label='ok' />" ++ nl ++
      bq ++ bq ++ bq ++ nl ++ nl ] /\
  chat (snd (handleExplain "explain Card"
               (Sample.answering
                  (JArr [JObj [("name", JStr "Card"); ("props", JArr [JNull])];
                         Sample.button]))
               initialState))
  = [ "# Card" ++ nl ++ nl;
      "undefined" ++ nl ++ nl;
      "## Props" ++ nl ++ nl;
      "Failed to explain component: TypeError: Cannot read properties of null (reading 'name')" ].
Proof.
  cbv zeta.
  split; [|split; [|split; [|split; [|split]]]].
  - destruct (explain_by_name_first_match Sample.up initialState)
      as (_ & _ & Hnone & _).
    erewrite Hnone by reflexivity. reflexivity.
  - destruct (explain_by_name_first_match Sample.up initialState)
      as (_ & _ & _ & _ & Hchat & _).
    erewrite (Hchat "what is Tooltip" "Tooltip") by reflexivity. reflexivity.
  - destruct (explain_by_name_first_match
                (Sample.answering (JArr [Sample.button; Sample.avatar]))
                initialState) as (_ & _ & _ & Hfirst & _).
    erewrite (Hfirst _ Sample.button [Sample.avatar]) by reflexivity.
    reflexivity.
  - destruct (explain_by_name_first_match
                (Sample.answering (JArr [JNull; Sample.button]))
                initialState) as (_ & _ & _ & Hfirst & _).
    erewrite (Hfirst _ JNull [Sample.button]) by reflexivity.
    reflexivity.
  - destruct (explain_by_name_first_match
                (Sample.answering (JArr [Sample.button; Sample.avatar]))
                initialState) as (_ & _ & _ & _ & _ & Hshown).
    specialize (Hshown ("explain" ++ nbsp ++ "Button") "Button" Sample.button
                       [Sample.avatar] _ eq_refl eq_refl).
    change (explainable Sample.button) with true in Hshown.
    cbv iota in Hshown. rewrite Hshown. reflexivity.
  - reflexivity.
Defined.

(** ** No exception leaves a chat turn or a tool (agent.ts, tools.ts) *)

(** Evaluate the answer of the service a statement branches on. *)
Ltac at_answer H :=
  cbv zeta in H;
  lazymatch type of H with
  | match ?s with _ => _ end =>
      let v := eval vm_compute in s in
      change s with v in H; cbv iota beta in H
  end.

Lemma streamed_chat (lines : list string) (st : State) :
  chat (streamed lines st) = app (chat st) lines.
Proof. reflexivity. Qed.

Lemma afterHealthCheck_chat (w : World) (st : State) :
  chat (afterHealthCheck w st)
  = app (chat st) ["🔍 Searching for components..." ++ nl ++ nl].
Proof. unfold afterHealthCheck. simpl. rewrite withClient_chat. reflexivity. Qed.

(** C3.  The shell degrades gracefully.  [handleRequest] always returns
    the normal chat result, never lets an exception out and never stays
    silent.  With a healthy service, when the request of the handler is
    rejected, the error the client throws in its place is caught by the
    handler and streamed as its failure line; when the request is
    answered, the handler shows the answer to the end if it can, and
    otherwise streams, after what it had shown, the failure line of the
    TypeError that stopped it; a prompt to explain that names nothing gets
    the line that asks for a name.  Every Copilot tool handler always
    returns a result object, a success or [{success: false, error}];
    called without parameters, on a rejected request, and on an answer it
    cannot read, the result is the failure object of its [catch] block
    with the text of the error, and on an answer it can read it is not. *)
Theorem shell_degrades_gracefully (w : World) (st : State) :
  let c := currentClient w st in
  let start := afterHealthCheck w st in
  let healthy := saysHealthy (service w (httpLog st) (healthRequest c)) in
  (forall prompt, exists said st',
     handleRequest prompt w st = (Ok emptyResult, st') /\
     chat st' = app (chat st) said /\ said <> []) /\
  (forall prompt request,
     healthy = true ->
     handlerRequest c prompt = Some request ->
     let intent := determineIntent prompt in
     match service w (httpLog start) request with
     | Rejected e =>
         handleRequest prompt w st
         = (Ok emptyResult,
            logChat (failureLine intent (clientError intent))
              (logConsole (clientLabel intent) e (logRequest request start)))
     | Resolved data =>
         exists shown,
           handleRequest prompt w st
           = (Ok emptyResult, streamed shown (logRequest request start)) /\
           if showable intent data then completed prompt data shown
           else exists mid e,
               errName e = "TypeError" /\
               shown = app mid [failureLine intent e]
     end) /\
  (forall prompt,
     healthy = true ->
     handlerRequest c prompt = None ->
     handleRequest prompt w st
     = (Ok emptyResult,
        logChat "Could not determine which component to explain. Please specify a component name."
                start)) /\
  (forall name handler parameters,
     In (name, handler) allTools ->
     exists v st', handler parameters w st = (Ok v, st') /\
                   (isSuccess v \/ isFailure v)) /\
  (forall parameters run prefix rest,
     isNullish parameters = true ->
     In (run, prefix, rest) (toolCases c parameters) ->
     exists e,
       errName e = "TypeError" /\
       run w st = (Ok (failure prefix e), withClient w st)) /\
  (forall parameters run prefix request thrown reads,
     isNullish parameters = false ->
     In (run, prefix, (request, thrown, reads)) (toolCases c parameters) ->
     match service w (httpLog st) request with
     | Rejected _ => fst (run w st) = Ok (failure prefix thrown)
     | Resolved data =>
         if reads data
         then exists v, fst (run w st) = Ok v /\
                        forall e, v <> failure prefix e
         else exists e, fst (run w st) = Ok (failure prefix e)
     end).
Proof.
  cbv zeta. repeat apply conj.
  - intros prompt. pose proof (handleRequest_outcome prompt w st) as H.
    cbv zeta in H.
    destruct (saysHealthy _).
    + destruct (handlerRequest _ prompt) as [request|].
      * destruct (service w (httpLog (afterHealthCheck w st)) request)
          as [data|e].
        -- destruct H as [shown [H _]]. rewrite H.
           exists (("🔍 Searching for components..." ++ nl ++ nl) :: shown).
           eexists. split; [reflexivity|]. split; [|discriminate].
           rewrite streamed_chat. cbn [chat logRequest].
           rewrite afterHealthCheck_chat, <- app_assoc. reflexivity.
        -- rewrite H. eexists [_; _]. eexists. split; [reflexivity|].
           split; [|discriminate].
           cbn [chat logChat logConsole logRequest].
           rewrite afterHealthCheck_chat, <- app_assoc. reflexivity.
      * rewrite H. eexists [_; _]. eexists. split; [reflexivity|].
        split; [|discriminate].
        cbn [chat logChat]. rewrite afterHealthCheck_chat, <- app_assoc.
        reflexivity.
    + rewrite H. eexists [_]. eexists. split; [reflexivity|].
      split; [|discriminate].
      cbn [chat logChat logRequest]. rewrite withClient_chat. reflexivity.
  - intros prompt request Hh Hreq.
    pose proof (handleRequest_outcome prompt w st) as H. cbv zeta in H.
    rewrite Hh, Hreq in H. exact H.
  - intros prompt Hh Hreq.
    pose proof (handleRequest_outcome prompt w st) as H. cbv zeta in H.
    rewrite Hh, Hreq in H. exact H.
  - intros name handler parameters Hin. simpl in Hin.
    destruct Hin as [[= _ <-] | [[= _ <-] | [[= _ <-] | [[= _ <-] | []]]]].
    + apply searchComponentsTool_shape.
    + apply explainComponentTool_shape.
    + apply suggestComponentForUITool_shape.
    + apply scanComponentFolderTool_shape.
  - intros parameters run prefix rest Hp Hin.
    apply (tools_without_parameters parameters w st Hp run prefix rest Hin).
  - intros parameters run prefix request thrown reads Hp Hin.
    apply (tools_outcome parameters w st Hp _ _ _ _ _ Hin).
Qed.

Lemma shell_degrades_gracefully_witness :
  let searching := "🔍 Searching for components..." ++ nl ++ nl in
  (exists said st',
     handleRequest "find a button" Sample.down initialState
     = (Ok emptyResult, st') /\ chat st' = said /\ said <> []) /\
  chat (snd (handleRequest "find a button" Sample.healthOnly initialState))
  = [searching; "Failed to search: Error: Failed to search components"] /\
  chat (snd (handleRequest "explain Button" Sample.healthOnly initialState))
  = [searching;
     "Failed to explain component: Error: Failed to get components by name"] /\
  (exists shown mid e,
     handleRequest "find a button" Sample.brokenHits initialState
     = (Ok emptyResult,
        streamed shown
          (logRequest
             (mkRequest POST "http://localhost:8765" "/api/search"
                (Some (JObj [("query", JStr "find a button");
                             ("limit", JNum 5)])))
             (afterHealthCheck Sample.brokenHits initialState))) /\
     errName e = "TypeError" /\
     shown = app mid ["Failed to search: " ++ errorToString e]) /\
  last (chat (snd (handleRequest "find a button" Sample.brokenHits
                                 initialState))) ""
  = "Failed to search: TypeError: Cannot read properties of null (reading 'component')" /\
  chat (snd (handleRequest "explain" Sample.up initialState))
  = [searching;
     "Could not determine which component to explain. Please specify a component name."] /\
  (exists v st',
     explainComponentTool JNull Sample.up initialState = (Ok v, st') /\
     (isSuccess v \/ isFailure v)) /\
  (exists e,
     errName e = "TypeError" /\
     scanComponentFolderTool JUndefined Sample.up initialState
     = (Ok (failure "Failed to scan folder: " e),
        withClient Sample.up initialState)) /\
  fst (searchComponentsTool (JObj [("query", JStr "button")]) Sample.down
                            initialState)
  = Ok (JObj [("success", JBool false);
              ("error", JStr "Failed to search components: Error: Failed to search components")]) /\
  fst (scanComponentFolderTool (JObj [("folderPath", JStr "/src")]) Sample.down
                               initialState)
  = Ok (JObj [("success", JBool false);
              ("error", JStr "Failed to scan folder: Error: Failed to scan folder")]) /\
  (exists e,
     fst (suggestComponentForUITool (JObj [("uiDescription", JStr "a form")])
                                    Sample.brokenHits initialState)
     = Ok (failure "Failed to suggest components: " e)).
Proof.
  cbv zeta.
  destruct (shell_degrades_gracefully Sample.down initialState)
    as (Hdown & _ & _ & _ & _ & Htool).
  destruct (shell_degrades_gracefully Sample.healthOnly initialState)
    as (_ & Hrejected & _).
  destruct (shell_degrades_gracefully Sample.brokenHits initialState)
    as (_ & Hbroken & _ & _ & _ & Hunread).
  destruct (shell_degrades_gracefully Sample.up initialState)
    as (_ & _ & Hnameless & Hshape & Hnone & _).
  repeat apply conj.
  - destruct (Hdown "find a button") as (said & st' & H & Hchat & Hsaid).
    exists said, st'. split; [exact H|]. split; [exact Hchat | exact Hsaid].
  - specialize (Hrejected "find a button" _ eq_refl eq_refl).
    at_answer Hrejected. rewrite Hrejected. reflexivity.
  - specialize (Hrejected "explain Button" _ eq_refl eq_refl).
    at_answer Hrejected. rewrite Hrejected. reflexivity.
  - specialize (Hbroken "find a button" _ eq_refl eq_refl).
    at_answer Hbroken.
    destruct Hbroken as (shown & Hrun & Hshown).
    change (showable (determineIntent "find a button")
              (JObj [("status", JStr "healthy");
                     ("results", JArr [Sample.hit Sample.button; JNull])]))
      with false in Hshown.
    destruct Hshown as (mid & e & He & Hshown).
    exists shown, mid, e. split; [exact Hrun|]. split; [exact He | exact Hshown].
  - reflexivity.
  - rewrite (Hnameless "explain" eq_refl eq_refl). reflexivity.
  - apply (Hshape "explainComponent"). right. left. reflexivity.
  - eapply (Hnone JUndefined); [reflexivity|].
    right. right. right. left. reflexivity.
  - epose proof (Htool (JObj [("query", JStr "button")]) _ _ _ _ _ eq_refl
                       (or_introl eq_refl)) as H.
    at_answer H. rewrite H. reflexivity.
  - epose proof (Htool (JObj [("folderPath", JStr "/src")]) _ _ _ _ _ eq_refl
                       (or_intror (or_intror (or_intror (or_introl eq_refl)))))
      as H.
    at_answer H. rewrite H. reflexivity.
  - epose proof (Hunread (JObj [("uiDescription", JStr "a form")]) _ _ _ _ _
                         eq_refl (or_intror (or_intror (or_introl eq_refl))))
      as H.
    at_answer H.
    change (suggestToolReads
              (JObj [("status", JStr "healthy");
                     ("results", JArr [Sample.hit Sample.button; JNull])]))
      with false in H.
    exact H.
Defined.

(** ** Deleting from the sidebar (provider.ts) *)

Import Sidebar.

Lemma withClient_hasView (w : World) (st : State) :
  hasView (withClient w st) = hasView st.
Proof. unfold withClient. destruct (ragClient st); reflexivity. Qed.

Lemma withClient_posted (w : World) (st : State) :
  posted (withClient w st) = posted st.
Proof. unfold withClient. destruct (ragClient st); reflexivity. Qed.

Lemma postMessage_run (msg : JsValue) (w : World) (st : State) :
  hasView st = true -> postMessage msg w st = (Ok tt, logPosted msg st).
Proof.
  intros H. unfold postMessage, bind, getState, when. rewrite H. reflexivity.
Qed.


(** ** Field names across the boundary (tools.ts against client.ts) *)

(** [searchComponents] hands the response data on as it came. *)
Lemma searchComponents_untranslated c request w st data :
  service w (httpLog st) (mkRequest POST (baseUrl c) "/api/search" (Some request))
  = Resolved data ->
  fst (searchComponents c request w st) = Ok data.
Proof.
  intros H. unfold searchComponents, tryCatch, http. rewrite H. reflexivity.
Qed.

(** C1, at a failing input.  [scanFolder] reads the camelCase fields
    [folderPath], [includeStorybooks], [recursive] of its request and
    returns the camelCase field [componentsFound]; the scan tool hands it
    snake_case fields and reads [components_found] from its result.  So
    the folder the caller named and the [includeStorybooks] flag the
    caller cleared never reach the wire ([recursive], spelled alike in
    both casings, does), and the count the service reported never reaches
    the caller.  The search methods, unlike [scanFolder], hand the response on
    as it came, so their results carry the wire's snake_case names. *)
Theorem scan_tool_mixes_casings :
  let parameters :=
    JObj [("folderPath", JStr "/src/components");
          ("includeStorybooks", JBool false);
          ("recursive", JBool false)] in
  let run := scanComponentFolderTool parameters Sample.up initialState in
  map reqBody (httpLog (snd run))
  = [Some (JObj [("folder_path", JUndefined);
                 ("include_storybooks", JBool true);
                 ("include_tests", JBool false);
                 ("recursive", JBool false)])] /\
  Sample.upService [] (scanRequest (newRAGClient 8765)
                                   (JObj [("folder_path", JStr "/src/components")]))
  = Resolved (JObj [("components_found", JNum 2);
                    ("components", JArr [Sample.button; Sample.avatar])]) /\
  fst run
  = Ok (JObj [("success", JBool true);
              ("componentsFound", JUndefined);
              ("components", JArr [JStr "Button"; JStr "Avatar"]);
              ("errors", JArr [])]) /\
  infoMessages (snd (Extension.scanFolderCommand (Some "/src/components")
                                                 Sample.up initialState))
  = ["Scanned undefined components"] /\
  fst (searchComponents (newRAGClient 8765) (JObj [("query", JStr "button")])
                        Sample.up initialState)
  = Ok (JObj [("results", JArr [Sample.hit Sample.button]);
              ("total", JNum 1);
              ("query", JStr "")]) /\
  lookupProp Sample.button "import_path" = JStr "@ui/button" /\
  lookupProp Sample.button "importPath" = JUndefined.
Proof.
  cbv zeta. repeat apply conj; reflexivity.
Qed.

(** ** Worked examples *)

Example toLowerCase_ex :
  toLowerCase "What IS a Button?" = "what is a button?".
Proof. reflexivity. Qed.

Example showZ_ex :
  showZ 8765 = "8765" /\ showZ (-3) = "-3" /\ showZ 0 = "0".
Proof. repeat split; reflexivity. Qed.

Example includes_ex :
  includes "help me build a form" "help me build" = true /\
  includes "helpme build" "help me build" = false /\
  includes "" "" = true.
Proof. repeat split; reflexivity. Qed.

Example toStr_ex :
  toStr (JArr [JNum 1; JNull; JStr "a"; JArr [JBool true; JUndefined]])
  = "1,,a,true,".
Proof. reflexivity. Qed.

Example gtZero_ex :
  gtZero (JStr " 12 ") = true /\ gtZero (JStr "-1") = false /\
  gtZero JUndefined = false /\ gtZero (JArr [JNum 5]) = true.
Proof. repeat split; reflexivity. Qed.

Example determineIntent_ex :
  determineIntent "Explain the Button and suggest another" = explain /\
  determineIntent "I NEED a date picker" = suggest /\
  determineIntent "find a button" = search /\
  determineIntent "" = search.
Proof. repeat split; reflexivity. Qed.

Example extractComponentName_ex :
  extractComponentName "please explain   the Button Component" = Some "the" /\
  extractComponentName "What is DatePicker?" = Some "DatePicker" /\
  extractComponentName "tell me about Card" = Some "Card" /\
  extractComponentName "ab cd component" = Some "cd" /\
  extractComponentName "what isx" = None /\
  extractComponentName "explain ???" = None.
Proof. repeat split; reflexivity. Qed.

Example extractComponentName_spaces_ex :
  extractComponentName ("explain" ++ nbsp ++ "Button") = Some "Button" /\
  extractComponentName ("what" ++ ofBytes [226; 128; 168] ++ "is" ++
                        ofBytes [239; 187; 191; 227; 128; 128] ++ "Card")
  = Some "Card" /\
  extractComponentName ("Card" ++ ofBytes [226; 128; 138; 9] ++ "component")
  = Some "Card" /\
  extractComponentName ("explain" ++ ofBytes [194; 161] ++ "Button") = None /\
  extractComponentName ("explain" ++ ofBytes [226; 128; 139] ++ "Button") = None.
Proof. repeat split; reflexivity. Qed.

Example handleRequest_explain_ex :
  chat (snd (handleRequest "what is Avatar" Sample.up initialState))
  = ["🔍 Searching for components..." ++ nl ++ nl;
     "Component " ++ dq ++ "Avatar" ++ dq ++ " not found in the knowledge base."].
Proof. reflexivity. Qed.

Example handleRequest_search_down_ex :
  handleRequest "find a button" Sample.down initialState
  = (Ok emptyResult,
     logChat serviceDownNotice
       (logRequest (healthRequest (newRAGClient 9000))
          (setClient (Some (newRAGClient 9000)) initialState))).
Proof. reflexivity. Qed.

(* ===================================================================== *)
(** * Further properties of the code                                      *)
(* ===================================================================== *)

Import Vocabulary.

(** ** The component name taken from a query (agent.ts) *)

Lemma Contains_refl (s : string) : Contains s s.
Proof.
  exists "", "". simpl. induction s as [|c s IH]; simpl; [reflexivity|].
  rewrite <- IH. reflexivity.
Qed.

Lemma string_app_assoc (a b c : string) : (a ++ b) ++ c = a ++ b ++ c.
Proof. induction a as [|x a IH]; simpl; [reflexivity | rewrite IH; reflexivity]. Qed.

Lemma string_app_nil_r (a : string) : a ++ "" = a.
Proof. induction a as [|x a IH]; simpl; [reflexivity | rewrite IH; reflexivity]. Qed.



Lemma Contains_within (pre s post sub : string) :
  Contains s sub -> Contains (pre ++ s ++ post) sub.
Proof.
  intros [a [b ->]]. exists (pre ++ a), (b ++ post).
  rewrite !string_app_assoc. reflexivity.
Qed.





(** The run [skipSpaces] passes over is the longest: no white-space
    character is left at the head. *)
Lemma skipSpaces_longest (s : string) : dropSpace (skipSpaces s) = None.
Proof.
  assert (H : forall n s, String.length s <= n ->
                          dropSpace (skipSpaces s) = None).
  { clear s. induction n as [|n IH]; intros s Hn.
    - destruct s; [reflexivity | simpl in Hn; lia].
    - destruct s as [|a r1]; [reflexivity|].
      cbn [skipSpaces]. simpl in Hn.
      destruct (isSpace a) eqn:Ha; [apply IH; lia|].
      destruct r1 as [|b r2]; [cbn [dropSpace]; rewrite Ha; reflexivity|].
      simpl in Hn.
      destruct (isSpace2 a b) eqn:Hab; [apply IH; lia|].
      destruct r2 as [|c r3];
        [cbn [dropSpace]; rewrite Ha, Hab; reflexivity|].
      simpl in Hn.
      destruct (isSpace3 a b c) eqn:Habc; [apply IH; lia|].
      cbn [dropSpace]. rewrite Ha, Hab, Habc. reflexivity. }
  exact (H (String.length s) s (le_n _)).
Qed.





(** ** Intent and surrounding text (agent.ts) *)

Lemma toLowerCase_app (a b : string) :
  toLowerCase (a ++ b) = toLowerCase a ++ toLowerCase b.
Proof. induction a as [|c a IH]; simpl; [reflexivity | rewrite IH; reflexivity]. Qed.

Lemma lowerChar_idem (c : ascii) : lowerChar (lowerChar c) = lowerChar c.
Proof.
  destruct c as [[] [] [] [] [] [] [] []]; reflexivity.
Qed.

Lemma toLowerCase_idem (s : string) : toLowerCase (toLowerCase s) = toLowerCase s.
Proof.
  induction s as [|c s IH]; simpl; [reflexivity|].
  rewrite lowerChar_idem, IH. reflexivity.
Qed.

Lemma includes_within (pre s post sub : string) :
  includes s sub = true -> includes (pre ++ s ++ post) sub = true.
Proof. rewrite !includes_spec. apply Contains_within. Qed.

Lemma determineIntent_explain (query : string) :
  determineIntent query = explain <->
  includes (toLowerCase query) "explain" ||
  includes (toLowerCase query) "what is" ||
  includes (toLowerCase query) "tell me about" = true.
Proof.
  unfold determineIntent.
  destruct (includes (toLowerCase query) "explain" ||
            includes (toLowerCase query) "what is" ||
            includes (toLowerCase query) "tell me about").
  - split; reflexivity.
  - split; [|discriminate].
    destruct (_ || _); discriminate.
Qed.

(** X2.  The intent depends on the query only up to the case of its
    letters, and the explain intent survives any text put before and
    after the query: a query that asks to explain still does so inside a
    longer sentence, whatever suggest keywords that sentence adds. *)
Theorem explain_intent_survives_context (query pre post : string) :
  determineIntent (toLowerCase query) = determineIntent query /\
  (determineIntent query = explain ->
   determineIntent (pre ++ query ++ post) = explain).
Proof.
  split.
  - unfold determineIntent. rewrite toLowerCase_idem. reflexivity.
  - rewrite !determineIntent_explain, !toLowerCase_app, !orb_true_iff.
    intros [[H|H]|H]; [left; left | left; right | right];
      apply includes_within; exact H.
Qed.

Lemma explain_intent_survives_context_witness :
  determineIntent ("I need help: " ++ "What is Button" ++ ", recommend one")
  = explain.
Proof.
  apply (explain_intent_survives_context "What is Button" "I need help: "
           ", recommend one").
  reflexivity.
Defined.

(** ** The requests a chat turn issues (agent.ts) *)

Lemma quiet_ret {A} (a : A) : quiet (ret a).
Proof. intros w st. reflexivity. Qed.

Lemma quiet_throw {A} (e : JsError) : quiet (@throw A e).
Proof. intros w st. reflexivity. Qed.

Lemma quiet_lift {A} (r : Res A) : quiet (lift r).
Proof. intros w st. reflexivity. Qed.

Lemma quiet_bind {A B} (m : M A) (k : A -> M B) :
  quiet m -> (forall a, quiet (k a)) -> quiet (bind m k).
Proof.
  intros Hm Hk w st. unfold bind. specialize (Hm w st).
  destruct (m w st) as [[a|e] st1]; simpl in Hm; [rewrite Hk|]; exact Hm.
Qed.

Lemma quiet_tryCatch {A} (body : M A) (handler : JsError -> M A) :
  quiet body -> (forall e, quiet (handler e)) -> quiet (tryCatch body handler).
Proof.
  intros Hb Hh w st. unfold tryCatch. specialize (Hb w st).
  destruct (body w st) as [[a|e] st1]; simpl in Hb; [|rewrite Hh]; exact Hb.
Qed.

Lemma quiet_modify (f : State -> State) :
  (forall st, httpLog (f st) = httpLog st) -> quiet (modify f).
Proof. intros Hf w st. simpl. apply Hf. Qed.

Lemma quiet_getState : quiet getState.
Proof. intros w st. reflexivity. Qed.

Lemma quiet_forEach {A} (xs : list A) (body : A -> M unit) :
  (forall x, quiet (body x)) -> quiet (forEach xs body).
Proof.
  intros Hb. induction xs as [|x xs IH]; simpl.
  - apply quiet_ret.
  - apply quiet_bind; [apply Hb | intros _; exact IH].
Qed.

Lemma quiet_mapM {A B} (f : A -> M B) (xs : list A) :
  (forall x, quiet (f x)) -> quiet (mapM f xs).
Proof.
  intros Hf. induction xs as [|x xs IH]; simpl.
  - apply quiet_ret.
  - apply quiet_bind; [apply Hf | intros y].
    apply quiet_bind; [exact IH | intros ys; apply quiet_ret].
Qed.

Ltac quiet_tac :=
  repeat first
    [ apply quiet_ret
    | apply quiet_throw
    | apply quiet_lift
    | apply quiet_getState
    | apply quiet_modify; intros ?; reflexivity
    | apply quiet_forEach; intros ?
    | apply quiet_mapM; intros ?
    | apply quiet_tryCatch; [|intros ?]
    | apply quiet_bind; [|intros ?]
    | progress unfold when
    | match goal with
      | |- quiet (if ?b then _ else _) => destruct b
      | |- quiet (match ?o with Some _ => _ | None => _ end) => destruct o
      end ].

Ltac quiet_unfold :=
  unfold explainComponent, prop2, prop, when, markdown, consoleError,
    postMessage, showInformationMessage, showErrorMessage.

(** When what follows a call is quiet, the call decides the log. *)
Lemma bind_quiet_tail {A B} (m : M A) (k : A -> M B) (w : World) (st : State) :
  (forall a, quiet (k a)) ->
  httpLog (snd (bind m k w st)) = httpLog (snd (m w st)).
Proof.
  intros Hk. unfold bind.
  destruct (m w st) as [[a|e] st1]; [apply Hk | reflexivity].
Qed.

Lemma tryCatch_quiet_handler {A} (body : M A) (handler : JsError -> M A)
      (w : World) (st : State) :
  (forall e, quiet (handler e)) ->
  httpLog (snd (tryCatch body handler w st)) = httpLog (snd (body w st)).
Proof.
  intros Hh. unfold tryCatch.
  destruct (body w st) as [[a|e] st1]; [reflexivity | apply Hh].
Qed.

Lemma getComponentsByName_log (c : RAGClient) (name : JsValue) (w : World) (st : State) :
  httpLog (snd (getComponentsByName c name w st))
  = (httpLog st ++ [mkRequest GET (baseUrl c)
                      ("/api/components/name/" ++ toStr name) None])%list.
Proof.
  unfold getComponentsByName, tryCatch, bind, http.
  destruct (service w (httpLog st) _); reflexivity.
Qed.

Lemma handleSearch_log (query : string) (w : World) (st : State) :
  httpLog (snd (handleSearch query w st))
  = (httpLog st ++
     [mkRequest POST (baseUrl (currentClient w st)) "/api/search"
        (Some (JObj [("query", JStr query); ("limit", JNum 5)]))])%list.
Proof.
  unfold handleSearch. unfold bind at 1. rewrite getRAGClient_run.
  rewrite tryCatch_quiet_handler by (intros e; quiet_unfold; quiet_tac).
  rewrite bind_quiet_tail by (intros a; quiet_unfold; quiet_tac).
  rewrite searchComponents_log, withClient_httpLog. reflexivity.
Qed.

Lemma handleSuggest_log (query : string) (w : World) (st : State) :
  httpLog (snd (handleSuggest query w st))
  = (httpLog st ++
     [mkRequest POST (baseUrl (currentClient w st)) "/api/search/suggest"
        (Some (JObj [("query", JStr query); ("limit", JNum 5)]))])%list.
Proof.
  unfold handleSuggest. unfold bind at 1. rewrite getRAGClient_run.
  rewrite tryCatch_quiet_handler by (intros e; quiet_unfold; quiet_tac).
  rewrite bind_quiet_tail by (intros a; quiet_unfold; quiet_tac).
  rewrite suggestComponents_log, withClient_httpLog by discriminate.
  reflexivity.
Qed.

Lemma handleExplain_log (query : string) (w : World) (st : State) :
  httpLog (snd (handleExplain query w st))
  = (httpLog st ++
     match extractComponentName query with
     | Some name =>
         [mkRequest GET (baseUrl (currentClient w st))
            ("/api/components/name/" ++ name) None]
     | None => []
     end)%list.
Proof.
  unfold handleExplain. unfold bind at 1. rewrite getRAGClient_run.
  rewrite tryCatch_quiet_handler by (intros e; quiet_unfold; quiet_tac).
  destruct (extractComponentName query) as [name|].
  - rewrite bind_quiet_tail by (intros a; quiet_unfold; quiet_tac).
    rewrite getComponentsByName_log, withClient_httpLog. reflexivity.
  - simpl. rewrite withClient_httpLog, app_nil_r. reflexivity.
Qed.

Lemma afterHealthCheck_facts (w : World) (st : State) :
  httpLog (afterHealthCheck w st)
  = (httpLog st ++ [healthRequest (currentClient w st)])%list /\
  currentClient w (afterHealthCheck w st) = currentClient w st.
Proof.
  unfold afterHealthCheck. split.
  - simpl. rewrite withClient_httpLog. reflexivity.
  - unfold currentClient at 1. simpl. rewrite withClient_ragClient. reflexivity.
Qed.

(** X3.  A chat turn issues the health request and, when that reports
    the service healthy, at most one more request, chosen by the intent:
    a search for the whole prompt with limit 5, a suggestion for the whole
    prompt with limit 5, or the lookup by name of the word taken from the
    prompt; when no name can be taken, or the service is not healthy,
    nothing more.  A chat turn never creates, updates, deletes or scans. *)
Theorem chat_turn_requests (prompt : string) (w : World) (st : State) :
  let c := currentClient w st in
  httpLog (snd (handleRequest prompt w st))
  = (httpLog st ++
     healthRequest c ::
     match fst (healthCheck c w (withClient w st)) with
     | Ok true =>
         match determineIntent prompt with
         | search =>
             [mkRequest POST (baseUrl c) "/api/search"
                (Some (JObj [("query", JStr prompt); ("limit", JNum 5)]))]
         | suggest =>
             [mkRequest POST (baseUrl c) "/api/search/suggest"
                (Some (JObj [("query", JStr prompt); ("limit", JNum 5)]))]
         | explain =>
             match extractComponentName prompt with
             | Some name =>
                 [mkRequest GET (baseUrl c) ("/api/components/name/" ++ name)
                    None]
             | None => []
             end
         end
     | _ => []
     end)%list.
Proof.
  cbv zeta. rewrite handleRequest_run, healthCheck_run, withClient_httpLog.
  cbn [fst].
  destruct (saysHealthy _).
  - destruct (afterHealthCheck_facts w st) as [Hlog Hc].
    destruct (determineIntent prompt); cbn [route].
    + rewrite handleSearch_log, Hlog, Hc, <- app_assoc. reflexivity.
    + rewrite handleSuggest_log, Hlog, Hc, <- app_assoc. reflexivity.
    + rewrite handleExplain_log, Hlog, Hc, <- app_assoc. reflexivity.
  - simpl. rewrite withClient_httpLog. reflexivity.
Qed.

(** ** What a client method does with a failure (client.ts) *)

(** X4.  Each client method that wraps one request issues exactly that
    request.  When the request resolves, the method returns the response
    data untouched; when it is rejected, the transport error goes to the
    console only and the caller gets a fixed [Error] that names the
    operation, whatever went wrong (a 404 and a refused connection look
    the same).  [deleteComponent] does the same and returns nothing. *)
Theorem client_hides_transport_errors (c : RAGClient) (x y : JsValue)
        (w : World) (st : State) :
  (forall call request label message,
     In (call, request, (label, message)) (clientCalls c x y) ->
     call w st
     = match service w (httpLog st) request with
       | Resolved data => (Ok data, logRequest request st)
       | Rejected e =>
           (Throw (Error message), logConsole label e (logRequest request st))
       end) /\
  deleteComponent c x w st
  = (let request :=
       mkRequest DELETE (baseUrl c) ("/api/components/" ++ toStr x) None in
     match service w (httpLog st) request with
     | Resolved _ => (Ok tt, logRequest request st)
     | Rejected e =>
         (Throw (Error "Failed to delete component"),
          logConsole "Failed to delete component:" e (logRequest request st))
     end).
Proof.
  split.
  - intros call request label message Hin. simpl in Hin.
    repeat (destruct Hin as [[= <- <- <- <-] | Hin];
            [ unfold searchComponents, suggestComponents, getAllComponents,
                getComponent, getComponentsByName, createComponent,
                updateComponent, tryCatch, bind, http;
              destruct (service w (httpLog st) _); reflexivity |]).
    destruct Hin.
  - cbv zeta. unfold deleteComponent, tryCatch, bind, http.
    destruct (service w (httpLog st) _); reflexivity.
Qed.

Lemma client_hides_transport_errors_witness :
  getComponent (newRAGClient 8765) (JStr "missing") Sample.up initialState
  = (Throw (Error "Failed to get component"),
     logConsole "Failed to get component:"
       (mkError "AxiosError" "Request failed with status code 404")
       (logRequest (mkRequest GET "http://localhost:8765"
                      "/api/components/missing" None) initialState)).
Proof.
  destruct (client_hides_transport_errors (newRAGClient 8765) (JStr "missing")
              JUndefined Sample.up initialState) as [H _].
  apply (H (getComponent (newRAGClient 8765) (JStr "missing"))
           (mkRequest GET "http://localhost:8765" "/api/components/missing" None)
           "Failed to get component:" "Failed to get component").
  simpl. do 3 right. left. reflexivity.
Defined.

(** ** How a scan fails (client.ts) *)

(** X5.  Whatever makes [scanFolder] fail, the caller sees the one error
    [Failed to scan folder]: a request that is [undefined] or [null]
    (then nothing is sent at all), a rejected POST, and a POST that
    resolves without data (then the request has been sent).  It succeeds
    in no other way than by a POST that resolved with data. *)
Theorem scanFolder_failures (c : RAGClient) (request : JsValue)
        (w : World) (st : State) :
  ((exists v, fst (scanFolder c request w st) = Ok v) \/
   fst (scanFolder c request w st) = Throw (Error "Failed to scan folder")) /\
  (isNullish request = true ->
   fst (scanFolder c request w st) = Throw (Error "Failed to scan folder") /\
   httpLog (snd (scanFolder c request w st)) = httpLog st) /\
  (isNullish request = false ->
   forall data,
     service w (httpLog st) (scanRequest c request) = Resolved data ->
     isNullish data = true ->
     fst (scanFolder c request w st) = Throw (Error "Failed to scan folder") /\
     httpLog (snd (scanFolder c request w st))
     = (httpLog st ++ [scanRequest c request])%list) /\
  (forall v,
     fst (scanFolder c request w st) = Ok v ->
     isNullish request = false /\
     exists data,
       service w (httpLog st) (scanRequest c request) = Resolved data /\
       isNullish data = false).
Proof.
  assert (Hnull : isNullish request = true ->
                  scanFolder c request w st
                  = (Throw (Error "Failed to scan folder"),
                     logConsole "Scan failed:"
                       (TypeError ("Cannot read properties of " ++
                                   typeName request ++ " (reading 'folderPath')"))
                       st)).
  { intros H. destruct request; try discriminate; reflexivity. }
  assert (Hrun : isNullish request = false ->
                 scanFolder c request w st
                 = match service w (httpLog st) (scanRequest c request) with
                   | Resolved data =>
                       if isNullish data then
                         (Throw (Error "Failed to scan folder"),
                          logConsole "Scan failed:"
                            (TypeError ("Cannot read properties of " ++
                                        typeName data ++
                                        " (reading 'components_found')"))
                            (logRequest (scanRequest c request) st))
                       else
                         (Ok (JObj [("componentsFound",
                                     lookupProp data "components_found");
                                    ("components", lookupProp data "components");
                                    ("errors",
                                     or_else (lookupProp data "errors") (JArr []))]),
                          logRequest (scanRequest c request) st)
                   | Rejected e =>
                       (Throw (Error "Failed to scan folder"),
                        logConsole "Scan failed:" e
                          (logRequest (scanRequest c request) st))
                   end).
  { intros H. unfold scanFolder, tryCatch. unfold bind at 1.
    rewrite (pythonRequest_run _ _ _ H). unfold bind at 1, http.
    fold (scanRequest c request).
    destruct (service w (httpLog st) (scanRequest c request)) as [data|e];
      [|reflexivity].
    destruct (isNullish data) eqn:Hd.
    - destruct data; try discriminate; reflexivity.
    - expose. rewrite !(getProp_ok data) by exact Hd. reflexivity. }
  destruct (isNullish request) eqn:Hr.
  - rewrite (Hnull eq_refl). cbn [fst snd].
    repeat split; try discriminate; auto.
  - specialize (Hrun eq_refl).
    destruct (service w (httpLog st) (scanRequest c request)) as [data|e] eqn:Hs.
    + destruct (isNullish data) eqn:Hd; rewrite Hrun; cbn [fst snd];
        repeat split; try discriminate; eauto;
        try (match goal with
             | H : Resolved _ = Resolved _ |- _ => injection H as <-
             end; congruence).
    + rewrite Hrun. cbn [fst snd]. repeat split; try discriminate; auto.
Qed.

Lemma scanFolder_failures_witness :
  scanFolder (newRAGClient 8765) JNull Sample.up initialState
  = (Throw (Error "Failed to scan folder"),
     logConsole "Scan failed:"
       (TypeError "Cannot read properties of null (reading 'folderPath')")
       initialState) /\
  fst (scanFolder (newRAGClient 8765) (JObj [("folderPath", JStr "/src")])
                  (mkWorld None (fun _ _ => Resolved JNull)) initialState)
  = Throw (Error "Failed to scan folder").
Proof.
  split; [reflexivity|].
  destruct (scanFolder_failures (newRAGClient 8765)
              (JObj [("folderPath", JStr "/src")])
              (mkWorld None (fun _ _ => Resolved JNull)) initialState)
    as (_ & _ & H & _).
  exact (proj1 (H eq_refl JNull eq_refl eq_refl)).
Defined.

(** ** Loading and deleting from the sidebar (provider.ts) *)

Lemma withClient_errorMessages (w : World) (st : State) :
  errorMessages (withClient w st) = errorMessages st.
Proof. unfold withClient. destruct (ragClient st); reflexivity. Qed.

Lemma withClient_infoMessages (w : World) (st : State) :
  infoMessages (withClient w st) = infoMessages st.
Proof. unfold withClient. destruct (ragClient st); reflexivity. Qed.

(** X6.  [loadComponents] never throws.  It issues the one request
    [GET /api/components]; with a view attached it posts exactly one
    message, the response data under [componentsLoaded] when the request
    resolved and a fixed error text when it was rejected; with no view
    attached the request is still issued and nothing is posted. *)
Theorem loadComponents_posts_one_message (w : World) (st : State) :
  let request :=
    mkRequest GET (baseUrl (currentClient w st)) "/api/components" None in
  let message :=
    match service w (httpLog st) request with
    | Resolved data =>
        JObj [("type", JStr "componentsLoaded"); ("components", data)]
    | Rejected _ =>
        JObj [("type", JStr "error");
              ("message",
               JStr "Failed to load components: Error: Failed to get components")]
    end in
  fst (loadComponents w st) = Ok tt /\
  httpLog (snd (loadComponents w st)) = (httpLog st ++ [request])%list /\
  posted (snd (loadComponents w st))
  = (posted st ++ if hasView st then [message] else [])%list.
Proof.
  cbv zeta.
  assert (Hrun :
    loadComponents w st
    = (Ok tt,
       let request :=
         mkRequest GET (baseUrl (currentClient w st)) "/api/components" None in
       match service w (httpLog st) request with
       | Resolved data =>
           let st1 := logRequest request (withClient w st) in
           if hasView st
           then logPosted (JObj [("type", JStr "componentsLoaded");
                                 ("components", data)]) st1
           else st1
       | Rejected e =>
           let st1 := logConsole "Failed to get components:" e
                        (logRequest request (withClient w st)) in
           if hasView st
           then logPosted
                  (JObj [("type", JStr "error");
                         ("message",
                          JStr "Failed to load components: Error: Failed to get components")])
                  st1
           else st1
       end)).
  { unfold loadComponents, tryCatch. unfold bind at 1.
    rewrite getRAGClient_run.
    unfold bind at 1, getAllComponents, tryCatch, http.
    rewrite withClient_httpLog. cbv zeta.
    destruct (service w (httpLog st) _) as [data|e];
      cbv beta iota delta [bind consoleError modify throw postMessage getState
                             when];
      cbn [hasView logRequest logConsole]; rewrite withClient_hasView;
      destruct (hasView st); reflexivity. }
  rewrite Hrun. cbv zeta. cbn [fst snd].
  destruct (service w (httpLog st) _) as [data|e]; destruct (hasView st);
    cbn [httpLog posted logPosted logRequest logConsole];
    rewrite ?withClient_httpLog, ?withClient_posted, ?app_nil_r;
    repeat split; reflexivity.
Qed.

(** X7.  When the service rejects the deletion, [handleDeleteComponent]
    returns normally, shows the one error notification, posts nothing to
    the webview (so the list it shows stays as it was) and does not reload:
    the DELETE is the only request issued. *)
Theorem failed_delete_leaves_the_list (componentId : JsValue) (e : JsError)
        (w : World) (st : State) :
  let request :=
    mkRequest DELETE (baseUrl (currentClient w st))
              ("/api/components/" ++ toStr componentId) None in
  service w (httpLog st) request = Rejected e ->
  fst (handleDeleteComponent componentId w st) = Ok tt /\
  posted (snd (handleDeleteComponent componentId w st)) = posted st /\
  httpLog (snd (handleDeleteComponent componentId w st))
  = (httpLog st ++ [request])%list /\
  errorMessages (snd (handleDeleteComponent componentId w st))
  = (errorMessages st ++
     ["Failed to delete component: Error: Failed to delete component"])%list /\
  infoMessages (snd (handleDeleteComponent componentId w st)) = infoMessages st.
Proof.
  cbv zeta. intros Hdel.
  assert (Hrun :
    handleDeleteComponent componentId w st
    = (Ok tt,
       logError "Failed to delete component: Error: Failed to delete component"
         (logConsole "Failed to delete component:" e
            (logRequest (mkRequest DELETE (baseUrl (currentClient w st))
                           ("/api/components/" ++ toStr componentId) None)
               (withClient w st))))).
  { unfold handleDeleteComponent, tryCatch. unfold bind at 1.
    rewrite getRAGClient_run.
    unfold bind at 1, deleteComponent, tryCatch, bind at 1, http.
    rewrite withClient_httpLog, Hdel. reflexivity. }
  rewrite Hrun.
  cbn [fst snd posted httpLog errorMessages infoMessages logError logConsole
           logRequest].
  rewrite withClient_httpLog, withClient_posted, withClient_errorMessages,
    withClient_infoMessages.
  repeat split; reflexivity.
Qed.

Lemma failed_delete_leaves_the_list_witness :
  posted (snd (handleDeleteComponent (JStr "c1") Sample.down
                 (mkState None [] [] [] true [] [] [])))
  = [] /\
  errorMessages (snd (handleDeleteComponent (JStr "c1") Sample.down
                        (mkState None [] [] [] true [] [] [])))
  = ["Failed to delete component: Error: Failed to delete component"].
Proof.
  destruct (failed_delete_leaves_the_list (JStr "c1")
              (mkError "AxiosError" "connect ECONNREFUSED") Sample.down
              (mkState None [] [] [] true [] [] []) eq_refl)
    as (_ & Hposted & _ & Herr & _).
  split; [exact Hposted | exact Herr].
Defined.

(** ** Mapping over the answers of the service *)

Import Shell.

Lemma getProp_of_nullish (v : JsValue) (k : string) :
  isNullish v = true ->
  getProp v k
  = Throw (TypeError ("Cannot read properties of " ++ typeName v ++
                      " (reading '" ++ k ++ "')")).
Proof. destruct v; simpl; intros H; try discriminate; reflexivity. Qed.

Lemma mapM_pure {A B} (f : A -> M B) (g : A -> B) (xs : list A)
      (w : World) (st : State) :
  (forall x, In x xs -> f x w st = (Ok (g x), st)) ->
  mapM f xs w st = (Ok (map g xs), st).
Proof.
  induction xs as [|x xs IH]; intros Hf; [reflexivity|].
  cbn [mapM map]. unfold bind at 1. rewrite (Hf x) by (left; reflexivity).
  unfold bind at 1. rewrite IH by (intros y Hy; apply Hf; right; exact Hy).
  reflexivity.
Qed.

(** ** The component sheet (provider.ts) *)

Import Details.

Lemma appendEach_extends {A} (piece : A -> Res string) (xs : list A) :
  (forall x, In x xs -> exists s, piece x = Ok s) ->
  forall content, exists rest, appendEach piece xs content = Ok (content ++ rest).
Proof.
  induction xs as [|x xs IH]; intros Hp content.
  - exists "". simpl. rewrite string_app_nil_r. reflexivity.
  - destruct (Hp x (or_introl eq_refl)) as [s Hs].
    cbn [appendEach]. rewrite Hs. cbn [bindR].
    destruct (IH (fun y Hy => Hp y (or_intror Hy)) (content ++ s)) as [rest Hr].
    exists (s ++ rest). rewrite Hr, string_app_assoc. reflexivity.
Qed.

Lemma entries_non_null (items : list JsValue) (x : JsValue) :
  forallb (fun x => negb (isNullish x)) items = true ->
  In x items -> isNullish x = false.
Proof.
  rewrite forallb_forall. intros H Hin. apply negb_true_iff. apply H. exact Hin.
Qed.

Lemma propsSection_extends (content : string) (props : JsValue) :
  entriesOrAbsent props = true ->
  exists rest, propsSection content props = Ok (content ++ rest).
Proof.
  intros H.
  destruct props as [ | | b | | n | s | items | fields];
    try discriminate H;
    try (exists ""; rewrite string_app_nil_r; reflexivity).
  unfold propsSection.
  destruct (nonEmpty (JArr items));
    [|exists ""; rewrite string_app_nil_r; reflexivity].
  cbn [iterate bindR entriesOrAbsent] in *.
  destruct (appendEach_extends propLines items) with
      (content := content ++ "## Props" ++ nl ++ nl) as [rest Hr].
  { intros x Hx. unfold propLines.
    rewrite !(getProp_ok x) by (eapply entries_non_null; eauto).
    cbn [bindR]. eexists. reflexivity. }
  rewrite Hr. cbn [bindR]. exists ("## Props" ++ nl ++ nl ++ rest ++ nl).
  rewrite !string_app_assoc. reflexivity.
Qed.

Lemma examplesSection_extends (content : string) (examples : JsValue) :
  entriesOrAbsent examples = true ->
  exists rest, examplesSection content examples = Ok (content ++ rest).
Proof.
  intros H.
  destruct examples as [ | | b | | n | s | items | fields];
    try discriminate H;
    try (exists ""; rewrite string_app_nil_r; reflexivity).
  unfold examplesSection.
  destruct (nonEmpty (JArr items));
    [|exists ""; rewrite string_app_nil_r; reflexivity].
  cbn [iterate bindR entriesOrAbsent] in *.
  destruct (appendEach_extends exampleLines items) with
      (content := content ++ "## Examples" ++ nl ++ nl) as [rest Hr].
  { intros x Hx. unfold exampleLines.
    rewrite !(getProp_ok x) by (eapply entries_non_null; eauto).
    cbn [bindR]. eexists. reflexivity. }
  rewrite Hr. cbn [bindR]. exists ("## Examples" ++ nl ++ nl ++ rest).
  rewrite !string_app_assoc. reflexivity.
Qed.

Lemma tagsSection_extends (content : string) (tags : JsValue) :
  arrayOrAbsent tags = true ->
  exists rest, tagsSection content tags = Ok (content ++ rest).
Proof.
  intros H.
  destruct tags as [ | | b | | n | s | items | fields];
    try discriminate H;
    try (exists ""; rewrite string_app_nil_r; reflexivity).
  unfold tagsSection.
  destruct (nonEmpty (JArr items));
    [|exists ""; rewrite string_app_nil_r; reflexivity].
  cbn [arrayItems bindR]. eexists. reflexivity.
Qed.

(** X12.  For a component as the service sends it (an object whose
    [props] and [examples] are absent or lists of entries, and whose
    [tags] is absent or a list), the sheet is always produced and opens
    with the name as title and the description, and showing the component
    opens exactly that one document and contacts nobody; for a component
    that is [undefined] or [null] nothing is opened and a [TypeError]
    escapes. *)
Theorem component_sheet_for_wellformed_component
        (component : JsValue) (env : Env) (d : Desk) :
  (sheetable component = true ->
   exists rest,
     formatComponentDetails component
     = Ok ("# " ++ toStr (lookupProp component "name") ++ nl ++ nl ++
           toStr (lookupProp component "description") ++ nl ++ nl ++ rest) /\
     handleShowComponent component env d
     = (Ok tt,
        logDocument
          ("# " ++ toStr (lookupProp component "name") ++ nl ++ nl ++
           toStr (lookupProp component "description") ++ nl ++ nl ++ rest) d)) /\
  (isNullish component = true ->
   exists message,
     handleShowComponent component env d = (Throw (TypeError message), d)).
Proof.
  split.
  - unfold sheetable. rewrite !andb_true_iff, negb_true_iff.
    intros [[[Hc Hprops] Hexamples] Htags].
    assert (Hsheet : exists rest,
      formatComponentDetails component
      = Ok ("# " ++ toStr (lookupProp component "name") ++ nl ++ nl ++
            toStr (lookupProp component "description") ++ nl ++ nl ++ rest)).
    { unfold formatComponentDetails.
      rewrite !(getProp_ok component) by exact Hc. cbn [bindR].
      set (header := "# " ++ toStr (lookupProp component "name") ++ nl ++ nl).
      match goal with
      | |- context [propsSection ?content _] =>
          assert (exists r0, content
                             = (header ++ toStr (lookupProp component "description")
                                       ++ nl ++ nl) ++ r0) as [r0 ->]
      end.
      { destruct (truthy (lookupProp component "category")),
          (truthy (lookupProp component "file_path")),
          (truthy (lookupProp component "import_path"));
          eexists; rewrite ?string_app_assoc;
          try reflexivity; rewrite string_app_nil_r; reflexivity. }
      destruct (propsSection_extends
                  ((header ++ toStr (lookupProp component "description") ++
                           nl ++ nl) ++ r0) _ Hprops) as [r1 ->].
      cbn [bindR].
      destruct (examplesSection_extends
                  (((header ++ toStr (lookupProp component "description") ++
                            nl ++ nl) ++ r0) ++ r1) _ Hexamples) as [r2 ->].
      cbn [bindR].
      destruct (tagsSection_extends
                  ((((header ++ toStr (lookupProp component "description") ++
                             nl ++ nl) ++ r0) ++ r1) ++ r2) _ Htags) as [r3 ->].
      cbn [bindR]. exists (r0 ++ r1 ++ r2 ++ r3).
      unfold header. rewrite !string_app_assoc. reflexivity. }
    destruct Hsheet as [rest Hsheet]. exists rest. split; [exact Hsheet|].
    unfold handleShowComponent, bindE, liftRes. rewrite Hsheet. reflexivity.
  - intros Hc. destruct (getProp_nullish component "name" Hc) as [e He].
    destruct component; try discriminate Hc;
      eexists; reflexivity.
Qed.

Lemma component_sheet_for_wellformed_component_witness :
  documents (snd (handleShowComponent Sample.avatar
                    (SampleShell.bare Sample.up)
                    initialDesk))
  = ["# Avatar" ++ nl ++ nl ++ "A user picture" ++ nl ++ nl ++
     "**File:** " ++ bq ++ "/src/Avatar.tsx" ++ bq ++ nl ++ nl].
Proof.
  destruct (component_sheet_for_wellformed_component Sample.avatar
              (SampleShell.bare Sample.up)
              initialDesk) as [H _].
  destruct (H eq_refl) as (rest & Hsheet & Hshow).
  rewrite Hshow. cbn [snd documents logDocument initialDesk app].
  f_equal. injection Hsheet as Hsheet. rewrite <- Hsheet. reflexivity.
Defined.

(** ** Starting and stopping the service (service-manager.ts) *)

Lemma repeat_snoc {A} (x : A) (n : nat) (l : list A) :
  ((l ++ [x]) ++ repeat x n = l ++ repeat x (S n))%list.
Proof. rewrite <- app_assoc. reflexivity. Qed.

Lemma repeat_end {A} (x : A) (n : nat) :
  (repeat x n ++ [x] = repeat x (S n))%list.
Proof. induction n as [|n IH]; simpl; [reflexivity | rewrite IH; reflexivity]. Qed.

(** One round of the loop of [waitForService]. *)
Lemma waitForService_step (port : Z) (n : nat) (env : Env) (d : Desk) :
  waitForService port (S n) env d
  = match service (world env) (httpLog (host d)) (probeRequest port) with
    | Resolved _ => (Ok tt, setHost (logRequest (probeRequest port) (host d)) d)
    | Rejected _ =>
        waitForService port n env
          (logSleep 1000 (setHost (logRequest (probeRequest port) (host d)) d))
    end.
Proof.
  cbn [waitForService]. unfold bindE at 1, tryE, bindE, probe.
  destruct (service (world env) (httpLog (host d)) (probeRequest port));
    reflexivity.
Qed.

Lemma waitForService_spec (port : Z) (maxAttempts : nat) (env : Env) (d : Desk) :
  let run := waitForService port maxAttempts env d in
  let request := probeRequest port in
  let answer (j : nat) :=
    service (world env) (httpLog (host d) ++ repeat request j) request in
  exists k,
    httpLog (host (snd run)) = (httpLog (host d) ++ repeat request k)%list /\
    serviceProcess (snd run) = serviceProcess d /\
    killed (snd run) = killed d /\
    output (snd run) = output d /\
    ((fst run = Ok tt /\
      (1 <= k <= maxAttempts)%nat /\
      sleeps (snd run) = (sleeps d ++ repeat 1000%Z (k - 1))%list /\
      (exists data, answer (k - 1)%nat = Resolved data) /\
      (forall j, (j < k - 1)%nat -> exists e, answer j = Rejected e))
     \/
     (fst run = Throw (Error "RAG service failed to start within timeout") /\
      k = maxAttempts /\
      sleeps (snd run) = (sleeps d ++ repeat 1000%Z k)%list /\
      (forall j, (j < k)%nat -> exists e, answer j = Rejected e))).
Proof.
  cbv zeta. revert d. induction maxAttempts as [|n IH]; intros d.
  - exists 0%nat. cbn [waitForService repeat]. unfold throwE. cbn [fst snd].
    rewrite !app_nil_r. do 4 (split; [reflexivity|]).
    right. repeat split. intros j Hj. lia.
  - rewrite waitForService_step.
    destruct (service (world env) (httpLog (host d)) (probeRequest port))
      as [data|e] eqn:Hs.
    + exists 1%nat. cbn [fst snd host setHost httpLog logRequest serviceProcess
                          killed output sleeps repeat Nat.sub].
      rewrite !app_nil_r. do 4 (split; [reflexivity|]).
      left. repeat split; try lia.
      exists data. exact Hs.
    + destruct (IH (logSleep 1000
                      (setHost (logRequest (probeRequest port) (host d)) d)))
        as (k & Hlog & Hp & Hk & Ho & Hcase).
      cbn [host setHost logSleep httpLog logRequest serviceProcess killed
             output sleeps] in Hlog, Hp, Hk, Ho, Hcase.
      exists (S k). rewrite Hlog, Hp, Hk, Ho, repeat_snoc.
      do 4 (split; [reflexivity|]).
      assert (Hanswer : forall j,
                service (world env)
                  ((httpLog (host d) ++ [probeRequest port]) ++
                   repeat (probeRequest port) j) (probeRequest port)
                = service (world env)
                    (httpLog (host d) ++ repeat (probeRequest port) (S j))
                    (probeRequest port))
        by (intros j; rewrite repeat_snoc; reflexivity).
      destruct Hcase as [(Hr & Hrange & Hsl & [data Hdata] & Hrej)
                        |(Hr & -> & Hsl & Hrej)].
      * left. repeat split; try lia; try exact Hr.
        -- rewrite Hsl, <- app_assoc. f_equal.
           destruct k as [|k]; [lia|]. cbn [Nat.sub repeat].
           rewrite Nat.sub_0_r. reflexivity.
        -- exists data. rewrite Hanswer in Hdata.
           destruct k as [|k]; [lia|]. cbn [Nat.sub] in *.
           rewrite Nat.sub_0_r in *. exact Hdata.
        -- intros j Hj. destruct j as [|j].
           ++ exists e. cbn [repeat]. rewrite app_nil_r. exact Hs.
           ++ destruct (Hrej j) as [e' He']; [lia|].
              exists e'. rewrite Hanswer in He'. exact He'.
      * right. repeat split; try exact Hr.
        -- rewrite Hsl, <- app_assoc. reflexivity.
        -- intros j Hj. destruct j as [|j].
           ++ exists e. cbn [repeat]. rewrite app_nil_r. exact Hs.
           ++ destruct (Hrej j) as [e' He']; [lia|].
              exists e'. rewrite Hanswer in He'. exact He'.
Qed.

(** X13.  [waitForService] probes [GET http://localhost:<port>/api/health]
    again and again: it returns at the first probe that resolves,
    whatever the response says, having waited a second after each probe
    rejected before it; if [maxAttempts] probes in a row are rejected it
    throws the time-out error, having waited a second after each.  It
    never probes more than [maxAttempts] times and touches neither the
    registered process nor the output channel. *)
Theorem waitForService_probes_until_answered
        (port : Z) (maxAttempts : nat) (env : Env) (d : Desk) :
  let run := waitForService port maxAttempts env d in
  let request := probeRequest port in
  let answer (j : nat) :=
    service (world env) (httpLog (host d) ++ repeat request j) request in
  exists k,
    httpLog (host (snd run)) = (httpLog (host d) ++ repeat request k)%list /\
    serviceProcess (snd run) = serviceProcess d /\
    killed (snd run) = killed d /\
    output (snd run) = output d /\
    ((fst run = Ok tt /\
      (1 <= k <= maxAttempts)%nat /\
      sleeps (snd run) = (sleeps d ++ repeat 1000%Z (k - 1))%list /\
      (exists data, answer (k - 1)%nat = Resolved data) /\
      (forall j, (j < k - 1)%nat -> exists e, answer j = Rejected e))
     \/
     (fst run = Throw (Error "RAG service failed to start within timeout") /\
      k = maxAttempts /\
      sleeps (snd run) = (sleeps d ++ repeat 1000%Z k)%list /\
      (forall j, (j < k)%nat -> exists e, answer j = Rejected e))).
Proof. exact (waitForService_spec port maxAttempts env d). Qed.

Lemma waitForService_probes_until_answered_witness :
  (List.length
     (httpLog (host (snd (waitForService 8765 30
                            (SampleShell.bare Sample.down)
                            initialDesk)))) <= 30)%nat.
Proof.
  destruct (waitForService_probes_until_answered 8765 30
              (SampleShell.bare Sample.down)
              initialDesk) as (k & Hlog & _ & _ & _ & Hcase).
  rewrite Hlog. cbn [initialDesk host httpLog initialState app].
  rewrite repeat_length.
  destruct Hcase as [(_ & Hk & _) | (_ & Hk & _)]; lia.
Defined.

Lemma findPython_frame (env : Env) (d : Desk) :
  host (snd (findPython env d)) = host d /\
  serviceProcess (snd (findPython env d)) = serviceProcess d /\
  output (snd (findPython env d)) = output d /\
  killed (snd (findPython env d)) = killed d.
Proof.
  unfold findPython, bindE, getEnv.
  destruct (pythonExtension env) as [ext|]; [|repeat split].
  destruct (isActive ext); cbn [negb];
    [|destruct (activate ext); [repeat split|]];
    unfold retE, throwE, liftRes;
    (destruct (activeEnvironmentPath ext) as [pythonEnv|e]; [|repeat split]);
    (destruct (truthy pythonEnv); repeat split).
Qed.


Lemma emit_run (events : list ChildEvent) (env : Env) (d : Desk) :
  emit events env d = (Ok tt, afterEvents events d).
Proof.
  revert d. induction events as [|event events IH]; intros d.
  - unfold afterEvents. cbn [emit retE existsb map]. rewrite app_nil_r.
    destruct d; reflexivity.
  - cbn [emit]. unfold bindE at 1.
    assert (Hone : onChildEvent event env d
                   = (Ok tt, afterEvents [event] d)).
    { destruct event; unfold afterEvents; cbn [existsb isClose orb map childLine];
        reflexivity. }
    rewrite Hone, IH. unfold afterEvents.
    cbn [host serviceProcess pythonPath output killed sleeps documents
         existsb map].
    rewrite <- app_assoc. cbn [app].
    destruct (isClose event); cbn [orb];
      [destruct (existsb isClose events)|]; reflexivity.
Qed.

Lemma startService_run (port : Z) (env : Env) (d : Desk) :
  serviceProcess d = None ->
  startService port env d
  = match findPython env (logOutput "Starting RAG service..." d) with
    | (Throw e, d1) => (Ok false, logOutput (startFailure e) d1)
    | (Ok _, d1) =>
        match workspaceFolder env with
        | None =>
            (Ok false,
             logOutput (startFailure (Error "No workspace folder found")) d1)
        | Some fsPath =>
            if existsSync env (servicePathOf env fsPath) then
              match spawnError env (pythonPath d1) with
              | Some e => (Ok false, logOutput (startFailure e) d1)
              | None =>
                  let p := serviceProcessOf env fsPath (pythonPath d1) port in
                  match waitForService port 30 env (setProcess (Some p) d1) with
                  | (Ok _, d2) =>
                      (Ok true,
                       logOutput "RAG service started successfully"
                         (afterEvents (childEvents env p (httpLog (host d2)))
                                      d2))
                  | (Throw e, d2) =>
                      (Ok false,
                       logOutput (startFailure e)
                         (afterEvents (childEvents env p (httpLog (host d2)))
                                      d2))
                  end
              end
            else
              (Ok false,
               logOutput
                 (startFailure
                    (Error ("RAG service not found at " ++
                            servicePathOf env fsPath))) d1)
        end
    end.
Proof.
  intros Hnone. unfold startService. unfold bindE at 1, getDesk.
  rewrite Hnone. unfold tryE. unfold bindE at 1, appendLine at 1, update at 1.
  unfold bindE at 1.
  destruct (findPython env (logOutput "Starting RAG service..." d))
    as [[u|e] d1]; [|reflexivity].
  unfold bindE at 1, getEnv.
  destruct (workspaceFolder env) as [fsPath|]; [|reflexivity].
  fold (servicePathOf env fsPath).
  destruct (existsSync env (servicePathOf env fsPath)); cbn [negb];
    [|reflexivity].
  unfold bindE at 1, getDesk. unfold bindE at 1, spawn.
  destruct (spawnError env (pythonPath d1)) as [e|]; [reflexivity|].
  unfold bindE at 1, update at 1. unfold bindE at 1, awaiting.
  fold (serviceProcessOf env fsPath (pythonPath d1) port). cbv zeta.
  destruct (waitForService port 30 env _) as [[u'|e] d2];
    rewrite emit_run; reflexivity.
Qed.







Lemma stopService_run (env : Env) (d : Desk) :
  stopService env d
  = (Ok tt,
     match serviceProcess d with
     | Some p =>
         logOutput "RAG service stopped"
           (setProcess None
              (logKilled p (logOutput "Stopping RAG service..." d)))
     | None => d
     end).
Proof.
  unfold stopService, bindE, getDesk. destruct (serviceProcess d); reflexivity.
Qed.

(** X16.  [stopService] never throws and leaves no process registered.
    It kills the registered process and nothing else, and a second stop
    does nothing at all, not even a line of output; the client, the
    views and the request log are not touched.  [deactivate] is the same
    stop. *)
Theorem stopService_kills_what_is_registered (env : Env) (d : Desk) :
  let after := snd (stopService env d) in
  fst (stopService env d) = Ok tt /\
  serviceProcess after = None /\
  fst (isRunning env after) = Ok false /\
  killed after
  = (killed d ++ match serviceProcess d with Some p => [p] | None => [] end)%list /\
  host after = host d /\
  stopService env after = (Ok tt, after) /\
  deactivate env d = stopService env d.
Proof.
  cbv zeta. rewrite !stopService_run. cbn [fst snd].
  destruct (serviceProcess d) as [p|] eqn:Hd;
    cbn [serviceProcess killed host logOutput setProcess logKilled];
    unfold isRunning, bindE, getDesk, retE;
    cbn [serviceProcess logOutput setProcess fst];
    rewrite ?Hd, ?app_nil_r; repeat split; reflexivity.
Qed.

(** ** Scans that do not say what to scan (extension.ts, tools.ts) *)

Lemma scanFolder_log (c : RAGClient) (request : JsValue) (w : World) (st : State) :
  isNullish request = false ->
  httpLog (snd (Client.scanFolder c request w st))
  = (httpLog st ++ [scanRequest c request])%list /\
  ragClient (snd (Client.scanFolder c request w st)) = ragClient st /\
  (forall v, fst (Client.scanFolder c request w st) = Ok v ->
             lookupProp v "components_found" = JUndefined).
Proof.
  intros H. rewrite (scanFolder_run _ _ _ _ H).
  destruct (service w (httpLog st) (scanRequest c request)) as [data|e];
    [destruct (isNullish data)|]; cbn [fst snd httpLog ragClient logConsole
                                         logRequest];
    repeat split; try discriminate.
  intros v [= <-]. reflexivity.
Qed.

Lemma autoScanOne_run (path : string) (env : Env) (d : Desk) :
  exists line st,
    autoScanOne path env d = (Ok tt, logOutput line (setHost st d)) /\
    httpLog st
    = (httpLog (host d) ++
       [mkRequest POST (baseUrl (currentClient (world env) (host d)))
          "/api/scan" (Some (blindScanWire true))])%list /\
    ragClient st = Some (currentClient (world env) (host d)).
Proof.
  unfold autoScanOne, tryE. unfold bindE at 1, liftHost at 1.
  rewrite getRAGClient_run. cbn [host setHost].
  unfold bindE at 1, liftHost at 1. cbn [host setHost].
  set (request := JObj [("folder_path", JStr path);
                        ("include_storybooks", JBool true);
                        ("include_tests", JBool false);
                        ("recursive", JBool true)]).
  destruct (scanFolder_log (currentClient (world env) (host d)) request
              (world env) (withClient (world env) (host d)) eq_refl)
    as (Hlog & Hc & _).
  rewrite withClient_httpLog in Hlog. rewrite withClient_ragClient in Hc.
  destruct (Client.scanFolder (currentClient (world env) (host d)) request (world env)
              (withClient (world env) (host d))) as [[v|e] st];
    cbn [snd] in Hlog, Hc; eexists; exists st;
    (split; [reflexivity | split; [exact Hlog | exact Hc]]).
Qed.

(** X17.  The auto-scan at start goes through every configured path,
    whether the scans before it failed or not, and writes one line to the
    output channel for each; but every request it posts is the same one,
    with no folder in it: the configured paths never reach the service. *)
Theorem autoScan_posts_one_blind_scan_per_path
        (paths : list string) (env : Env) (d : Desk) :
  let request :=
    mkRequest POST (baseUrl (currentClient (world env) (host d))) "/api/scan"
              (Some (blindScanWire true)) in
  fst (autoScan paths env d) = Ok tt /\
  httpLog (host (snd (autoScan paths env d)))
  = (httpLog (host d) ++ repeat request (List.length paths))%list /\
  exists lines,
    output (snd (autoScan paths env d)) = (output d ++ lines)%list /\
    List.length lines = List.length paths.
Proof.
  cbv zeta. revert d. induction paths as [|path paths IH]; intros d.
  - cbn [autoScan repeat List.length fst snd]. unfold retE. cbn [fst snd].
    rewrite app_nil_r. repeat split. exists []. rewrite app_nil_r.
    split; reflexivity.
  - destruct (autoScanOne_run path env d) as (line & st & Hrun & Hlog & Hc).
    assert (Hstep : autoScan (path :: paths) env d
                    = autoScan paths env (logOutput line (setHost st d)))
      by (cbn [autoScan]; unfold bindE; rewrite Hrun; reflexivity).
    rewrite Hstep.
    destruct (IH (logOutput line (setHost st d))) as (Hr & Hl & lines & Ho & Hn).
    cbn [host logOutput setHost output] in Hl, Ho.
    assert (Hcur : currentClient (world env) st
                   = currentClient (world env) (host d))
      by (unfold currentClient at 1; rewrite Hc; reflexivity).
    rewrite Hcur, Hlog in Hl.
    split; [exact Hr|]. split.
    + rewrite Hl. cbn [List.length]. rewrite repeat_snoc. reflexivity.
    + exists (line :: lines). rewrite Ho, <- app_assoc. cbn [List.length].
      split; [reflexivity | rewrite Hn; reflexivity].
Qed.

Lemma yields_throw {A} (e : JsError) (P : A -> Prop) : yields (@throw A e) P.
Proof. intros w st a st' [=]. Qed.

Lemma yields_bind_strong {A B} (m : M A) (k : A -> M B)
      (Q : A -> Prop) (P : B -> Prop) :
  yields m Q -> (forall a, Q a -> yields (k a) P) -> yields (bind m k) P.
Proof.
  intros Hm Hk w st b st'. unfold bind.
  destruct (m w st) as [[a|e] st1] eqn:E; [|discriminate].
  apply (Hk a (Hm _ _ _ _ E)).
Qed.

Lemma yields_prop (v : JsValue) (k : string) :
  yields (prop v k) (fun x => x = lookupProp v k).
Proof.
  intros w st a st'. unfold prop, lift, lookupProp.
  destruct (getProp v k); intros [= <- _]; reflexivity.
Qed.

Lemma yields_scanFolder (c : RAGClient) (request : JsValue) :
  yields (Client.scanFolder c request)
         (fun v => lookupProp v "components_found" = JUndefined).
Proof.
  unfold Client.scanFolder.
  apply yields_tryCatch.
  - repeat (apply yields_bind; intros ?). apply yields_ret. reflexivity.
  - intros e. apply yields_bind. intros _. apply yields_throw.
Qed.

Lemma loadComponents_run (w : World) (st : State) :
  loadComponents w st
  = (Ok tt,
     let request :=
       mkRequest GET (baseUrl (currentClient w st)) "/api/components" None in
     match service w (httpLog st) request with
     | Resolved data =>
         let st1 := logRequest request (withClient w st) in
         if hasView st
         then logPosted (JObj [("type", JStr "componentsLoaded");
                               ("components", data)]) st1
         else st1
     | Rejected e =>
         let st1 := logConsole "Failed to get components:" e
                      (logRequest request (withClient w st)) in
         if hasView st
         then logPosted
                (JObj [("type", JStr "error");
                       ("message",
                        JStr "Failed to load components: Error: Failed to get components")])
                st1
         else st1
     end).
Proof.
  unfold loadComponents, tryCatch. unfold bind at 1.
  rewrite getRAGClient_run.
  unfold bind at 1, getAllComponents, tryCatch, http.
  rewrite withClient_httpLog. cbv zeta.
  destruct (service w (httpLog st) _) as [data|e];
    cbv beta iota delta [bind consoleError modify throw postMessage getState
                           when];
    cbn [hasView logRequest logConsole]; rewrite withClient_hasView;
    destruct (hasView st); reflexivity.
Qed.

Lemma loadComponents_frame (w : World) (st : State) :
  infoMessages (snd (loadComponents w st)) = infoMessages st /\
  httpLog (snd (loadComponents w st))
  = (httpLog st ++ [mkRequest GET (baseUrl (currentClient w st))
                      "/api/components" None])%list.
Proof.
  rewrite loadComponents_run. cbv zeta. cbn [snd].
  destruct (service w (httpLog st) _); destruct (hasView st);
    cbn [infoMessages httpLog logPosted logRequest logConsole];
    rewrite withClient_infoMessages, withClient_httpLog; split; reflexivity.
Qed.

(** X18.  The callers of [scanFolder] lose the folder and the count.
    Whatever parameters the scan tool is given, the request it causes
    names no folder and asks for storybooks, and a successful result
    never carries a count; whatever folder is picked for the scan
    command, its request names no folder either, and when the scan
    succeeds the notification reads [Scanned undefined components] and
    the sidebar is reloaded. *)
Theorem scan_callers_lose_folder_and_count
        (parameters : JsValue) (folder : string) (w : World) (st : State) :
  let c := currentClient w st in
  let blind recursive :=
    mkRequest POST (baseUrl c) "/api/scan" (Some (blindScanWire recursive)) in
  (isNullish parameters = false ->
   httpLog (snd (scanComponentFolderTool parameters w st))
   = (httpLog st ++
      [blind (negb (strictEq (lookupProp parameters "recursive")
                             (JBool false)))])%list) /\
  (forall fields st',
     scanComponentFolderTool parameters w st
     = (Ok (JObj (("success", JBool true) :: fields)), st') ->
     lookup "componentsFound" fields = JUndefined) /\
  (forall data,
     service w (httpLog st) (blind true) = Resolved data ->
     isNullish data = false ->
     infoMessages (snd (Extension.scanFolderCommand (Some folder) w st))
     = (infoMessages st ++ ["Scanned undefined components"])%list /\
     httpLog (snd (Extension.scanFolderCommand (Some folder) w st))
     = (httpLog st ++
        [blind true; mkRequest GET (baseUrl c) "/api/components" None])%list).
Proof.
  cbv zeta. split; [|split].
  - intros Hp. unfold scanComponentFolderTool. unfold bind at 1.
    rewrite getRAGClient_run.
    rewrite tryCatch_quiet_handler by (intros e; apply quiet_ret).
    do 3 (unfold bind at 1, prop at 1, lift at 1; rewrite (getProp_ok _ _ Hp)).
    rewrite bind_quiet_tail by (intros a; quiet_unfold; quiet_tac).
    match goal with
    | |- context [Client.scanFolder ?c0 ?r0 ?w0 ?s0] =>
        rewrite (proj1 (scanFolder_log c0 r0 w0 s0 eq_refl))
    end.
    rewrite withClient_httpLog. reflexivity.
  - intros fields st' Hrun.
    assert (Hy : yields (scanComponentFolderTool parameters)
                   (fun v => forall fields,
                        v = JObj (("success", JBool true) :: fields) ->
                        lookup "componentsFound" fields = JUndefined)).
    { unfold scanComponentFolderTool, failure.
      apply yields_bind. intros client.
      apply yields_tryCatch;
        [|intros e; apply yields_ret; intros f [=]].
      do 3 (apply yields_bind; intros ?).
      apply (yields_bind_strong _ _ _ _ (yields_scanFolder _ _)).
      intros result Hresult.
      apply (yields_bind_strong _ _ _ _ (yields_prop _ _)).
      intros found ->. rewrite Hresult.
      repeat (apply yields_bind; intros ?).
      apply yields_ret. intros f [= <-]. reflexivity. }
    exact (Hy _ _ _ _ Hrun fields eq_refl).
  - intros data Hs Hd.
    assert (Hrun :
      Extension.scanFolderCommand (Some folder) w st
      = Sidebar.loadComponents w
          (logInfo "Scanned undefined components"
             (logRequest (mkRequest POST (baseUrl (currentClient w st))
                            "/api/scan" (Some (blindScanWire true)))
                (withClient w st)))).
    { unfold Extension.scanFolderCommand, tryCatch. unfold bind at 1.
      rewrite getRAGClient_run. unfold bind at 1.
      rewrite scanFolder_run by reflexivity.
      rewrite withClient_httpLog.
      change (scanRequest (currentClient w st) _)
        with (mkRequest POST (baseUrl (currentClient w st)) "/api/scan"
                (Some (blindScanWire true))).
      rewrite Hs, Hd.
      unfold bind at 1, prop at 1, lift at 1.
      cbn [getProp lookup String.eqb Ascii.eqb Bool.eqb].
      unfold bind at 1, showInformationMessage at 1, modify at 1.
      cbn [toStr].
      destruct (loadComponents w _) as [[[]|e] st2] eqn:E.
      - reflexivity.
      - rewrite loadComponents_run in E. discriminate E. }
    rewrite Hrun.
    match goal with
    | |- context [loadComponents w ?s0] =>
        destruct (loadComponents_frame w s0) as [Hi Hl];
          assert (currentClient w s0 = currentClient w st) as Hc
            by (unfold currentClient at 1; simpl;
                rewrite withClient_ragClient; reflexivity)
    end.
    rewrite Hi, Hl, Hc.
    cbn [infoMessages httpLog logInfo logRequest].
    rewrite withClient_infoMessages, withClient_httpLog, <- app_assoc.
    split; reflexivity.
Qed.

Lemma scan_callers_lose_folder_and_count_witness :
  httpLog (snd (scanComponentFolderTool
                  (JObj [("folderPath", JStr "/src/forms")]) Sample.up
                  initialState))
  = [mkRequest POST "http://localhost:8765" "/api/scan"
       (Some (blindScanWire true))] /\
  infoMessages (snd (Extension.scanFolderCommand (Some "/src/forms") Sample.up
                       initialState))
  = ["Scanned undefined components"].
Proof.
  destruct (scan_callers_lose_folder_and_count
              (JObj [("folderPath", JStr "/src/forms")]) "/src/forms"
              Sample.up initialState) as (Htool & _ & Hcommand).
  split.
  - exact (Htool eq_refl).
  - exact (proj1 (Hcommand (JObj [("components_found", JNum 2);
                                  ("components",
                                   JArr [Sample.button; Sample.avatar])])
                           eq_refl eq_refl)).
Defined.

(** ** What the search tools hand back (tools.ts) *)

Lemma mapM_throws {A B} (f : A -> M B) (g : A -> B) (good : list A) (bad : A)
      (rest : list A) (e : JsError) (w : World) (st : State) :
  (forall x, In x good -> f x w st = (Ok (g x), st)) ->
  f bad w st = (Throw e, st) ->
  mapM f (good ++ bad :: rest)%list w st = (Throw e, st).
Proof.
  intros Hgood Hbad. induction good as [|x good IH]; cbn [app mapM].
  - unfold bind at 1. rewrite Hbad. reflexivity.
  - unfold bind at 1. rewrite (Hgood x) by (left; reflexivity).
    unfold bind at 1. rewrite IH by (intros y Hy; apply Hgood; right; exact Hy).
    reflexivity.
Qed.

(** X19.  When the service answers a search with a list of hits, each
    with a component, the search tool returns one entry per hit, in the
    order of the hits, each with the name, description, import path
    (renamed from [import_path]), props and score of its hit.  The
    suggest tool does the same and adds the examples cut down to the
    first one, provided the component of every hit has a list of
    examples; at the first hit whose component has no examples
    ([undefined] or [null]) it gives up and returns the failure object
    with the error of the failed read, although the hits before it were
    in order. *)
Theorem search_tools_keep_one_entry_per_hit
        (parameters data : JsValue) (hits : list JsValue) (w : World) (st : State) :
  let c := currentClient w st in
  let suggestRequest :=
    mkRequest POST (baseUrl c) "/api/search/suggest"
      (Some (JObj [("query", lookupProp parameters "uiDescription");
                   ("limit", or_else (lookupProp parameters "limit")
                                     (JNum 5))])) in
  isNullish parameters = false ->
  getProp data "results" = Ok (JArr hits) ->
  (forallb isHit hits = true ->
   service w (httpLog st)
     (mkRequest POST (baseUrl c) "/api/search"
        (Some (JObj [("query", lookupProp parameters "query");
                     ("limit", or_else (lookupProp parameters "limit")
                                       (JNum 10))])))
   = Resolved data ->
   fst (searchComponentsTool parameters w st)
   = Ok (JObj [("success", JBool true);
               ("components", JArr (map searchEntry hits))])) /\
  (forallb isHit hits = true ->
   forallb hasExamples hits = true ->
   service w (httpLog st) suggestRequest = Resolved data ->
   fst (suggestComponentForUITool parameters w st)
   = Ok (JObj [("success", JBool true);
               ("suggestions", JArr (map suggestEntry hits))])) /\
  (forall good bad rest,
     hits = (good ++ bad :: rest)%list ->
     forallb isHit good = true ->
     forallb hasExamples good = true ->
     isHit bad = true ->
     isNullish (lookupProp (lookupProp bad "component") "examples") = true ->
     service w (httpLog st) suggestRequest = Resolved data ->
     fst (suggestComponentForUITool parameters w st)
     = Ok (failure "Failed to suggest components: "
             (TypeError
                ("Cannot read properties of " ++
                 typeName (lookupProp (lookupProp bad "component") "examples") ++
                 " (reading 'slice')")))).
Proof.
  cbv zeta. intros Hp Hres.
  assert (Hhit : forall l, forallb isHit l = true ->
                           forall h, In h l ->
                                     isNullish h = false /\
                                     isNullish (lookupProp h "component") = false).
  { intros l Hl h Hh. rewrite forallb_forall in Hl. specialize (Hl h Hh).
    unfold isHit in Hl. rewrite andb_true_iff, !negb_true_iff in Hl. exact Hl. }
  assert (Hlimit : or_else (lookupProp parameters "limit") (JNum 5)
                   <> JUndefined).
  { unfold or_else.
    destruct (truthy (lookupProp parameters "limit")) eqn:E; [|discriminate].
    intros H. rewrite H in E. discriminate. }
  assert (Hentry : forall h s0,
             isNullish h = false ->
             isNullish (lookupProp h "component") = false ->
             hasExamples h = true ->
             (name <- prop2 h "component" "name" ;;
              description <- prop2 h "component" "description" ;;
              import_path <- prop2 h "component" "import_path" ;;
              props <- prop2 h "component" "props" ;;
              score <- prop h "score" ;;
              examples <- prop2 h "component" "examples" ;;
              firstExample <- lift (sliceFirst "r.component.examples" 1 examples) ;;
              ret (JObj [("name", name);
                         ("description", description);
                         ("importPath", import_path);
                         ("props", props);
                         ("score", score);
                         ("examples", firstExample)])) w s0
             = (Ok (suggestEntry h), s0)).
  { intros h s0 H1 H2 Hex. unfold hasExamples in Hex.
    unfold prop2, prop, lift, bind, suggestEntry.
    rewrite !(getProp_ok h) by exact H1.
    rewrite !(getProp_ok (lookupProp h "component")) by exact H2.
    destruct (lookupProp (lookupProp h "component") "examples");
      try discriminate Hex; reflexivity. }
  split; [|split].
  - intros Hhits Hs. unfold searchComponentsTool. unfold bind at 1.
    rewrite getRAGClient_run. unfold tryCatch.
    do 2 (unfold bind at 1, prop at 1, lift at 1; rewrite (getProp_ok _ _ Hp)).
    unfold bind at 1, searchComponents, tryCatch, http.
    rewrite withClient_httpLog, Hs.
    unfold bind at 1, prop at 1, lift at 1. rewrite Hres.
    unfold bind at 1, lift at 1. cbn [arrayItems].
    unfold bind at 1. rewrite (mapM_pure _ searchEntry); [reflexivity|].
    intros h Hh. destruct (Hhit hits Hhits h Hh) as [H1 H2].
    unfold prop2, prop, lift, bind, searchEntry.
    rewrite !(getProp_ok h) by exact H1.
    rewrite !(getProp_ok (lookupProp h "component")) by exact H2.
    reflexivity.
  - intros Hhits Hex Hs. rewrite forallb_forall in Hex.
    unfold suggestComponentForUITool. unfold bind at 1.
    rewrite getRAGClient_run. unfold tryCatch.
    do 2 (unfold bind at 1, prop at 1, lift at 1; rewrite (getProp_ok _ _ Hp)).
    unfold bind at 1, suggestComponents, tryCatch, http.
    destruct (or_else (lookupProp parameters "limit") (JNum 5)) eqn:El;
      try congruence;
      rewrite withClient_httpLog, Hs;
      unfold bind at 1, prop at 1, lift at 1; rewrite Hres;
      unfold bind at 1, lift at 1; cbn [arrayItems];
      unfold bind at 1;
      (rewrite (mapM_pure _ suggestEntry); [reflexivity|]);
      intros h Hh; destruct (Hhit hits Hhits h Hh) as [H1 H2];
      apply Hentry; auto.
  - intros good bad rest -> Hgood Hex Hbad Hnone Hs.
    rewrite forallb_forall in Hex.
    unfold isHit in Hbad. rewrite andb_true_iff, !negb_true_iff in Hbad.
    destruct Hbad as [Hb1 Hb2].
    unfold suggestComponentForUITool. unfold bind at 1.
    rewrite getRAGClient_run. unfold tryCatch.
    do 2 (unfold bind at 1, prop at 1, lift at 1; rewrite (getProp_ok _ _ Hp)).
    unfold bind at 1, suggestComponents, tryCatch, http.
    destruct (or_else (lookupProp parameters "limit") (JNum 5)) eqn:El;
      try congruence;
      rewrite withClient_httpLog, Hs;
      unfold bind at 1, prop at 1, lift at 1; rewrite Hres;
      unfold bind at 1, lift at 1; cbn [arrayItems];
      unfold bind at 1;
      (erewrite (mapM_throws _ suggestEntry); [reflexivity| |]);
      try (intros h Hh; destruct (Hhit good Hgood h Hh) as [H1 H2];
           apply Hentry; auto);
      unfold prop2, prop, lift, bind;
      rewrite !(getProp_ok bad) by exact Hb1;
      rewrite !(getProp_ok (lookupProp bad "component")) by exact Hb2;
      destruct (lookupProp (lookupProp bad "component") "examples");
      try discriminate Hnone; reflexivity.
Qed.

Lemma search_tools_keep_one_entry_per_hit_witness :
  let data := JObj [("results", JArr [Sample.hit Sample.button;
                                      Sample.hit Sample.avatar])] in
  let poor := JObj [("results", JArr [Sample.hit Sample.button;
                                      Sample.hit Sample.card;
                                      Sample.hit Sample.avatar])] in
  fst (suggestComponentForUITool (JObj [("uiDescription", JStr "a form")])
                                 (Sample.answering data) initialState)
  = Ok (JObj [("success", JBool true);
              ("suggestions", JArr [suggestEntry (Sample.hit Sample.button);
                                    suggestEntry (Sample.hit Sample.avatar)])]) /\
  fst (suggestComponentForUITool (JObj [("uiDescription", JStr "a form")])
                                 (Sample.answering poor) initialState)
  = Ok (JObj [("success", JBool false);
              ("error",
               JStr "Failed to suggest components: TypeError: Cannot read properties of undefined (reading 'slice')")]).
Proof.
  cbv zeta. split.
  - destruct (search_tools_keep_one_entry_per_hit
                (JObj [("uiDescription", JStr "a form")])
                (JObj [("results", JArr [Sample.hit Sample.button;
                                         Sample.hit Sample.avatar])])
                [Sample.hit Sample.button; Sample.hit Sample.avatar]
                (Sample.answering
                   (JObj [("results", JArr [Sample.hit Sample.button;
                                            Sample.hit Sample.avatar])]))
                initialState eq_refl eq_refl) as (_ & H & _).
    exact (H eq_refl eq_refl eq_refl).
  - destruct (search_tools_keep_one_entry_per_hit
                (JObj [("uiDescription", JStr "a form")])
                (JObj [("results", JArr [Sample.hit Sample.button;
                                         Sample.hit Sample.card;
                                         Sample.hit Sample.avatar])])
                [Sample.hit Sample.button; Sample.hit Sample.card;
                 Sample.hit Sample.avatar]
                (Sample.answering
                   (JObj [("results", JArr [Sample.hit Sample.button;
                                            Sample.hit Sample.card;
                                            Sample.hit Sample.avatar])]))
                initialState eq_refl eq_refl) as (_ & _ & H).
    exact (H [Sample.hit Sample.button] (Sample.hit Sample.card)
             [Sample.hit Sample.avatar] eq_refl eq_refl eq_refl eq_refl eq_refl
             eq_refl).
Defined.

(** ** The requests a sidebar message causes (provider.ts) *)

Lemma postMessage_any (msg : JsValue) (w : World) (st : State) :
  postMessage msg w st = (Ok tt, if hasView st then logPosted msg st else st).
Proof.
  unfold postMessage, bind, getState, when. destruct (hasView st); reflexivity.
Qed.

Lemma currentClient_same (w : World) (st st' : State) (c : RAGClient) :
  ragClient st' = Some c -> ragClient st = Some c ->
  currentClient w st' = currentClient w st.
Proof. intros H H'. unfold currentClient. rewrite H, H'. reflexivity. Qed.

Lemma handleSearchComponents_log (query : JsValue) (w : World) (st : State) :
  httpLog (snd (handleSearchComponents query w st))
  = (httpLog st ++
     [mkRequest POST (baseUrl (currentClient w st)) "/api/search"
        (Some (JObj [("query", query); ("limit", JNum 20)]))])%list.
Proof.
  unfold handleSearchComponents.
  rewrite tryCatch_quiet_handler by (intros e; quiet_unfold; quiet_tac).
  unfold bind at 1. rewrite getRAGClient_run.
  rewrite bind_quiet_tail by (intros a; quiet_unfold; quiet_tac).
  rewrite searchComponents_log, withClient_httpLog. reflexivity.
Qed.

Lemma handleDeleteComponent_log (componentId : JsValue) (w : World) (st : State) :
  let c := currentClient w st in
  let delete :=
    mkRequest DELETE (baseUrl c) ("/api/components/" ++ toStr componentId) None in
  httpLog (snd (handleDeleteComponent componentId w st))
  = (httpLog st ++
     delete ::
     match service w (httpLog st) delete with
     | Resolved _ => [mkRequest GET (baseUrl c) "/api/components" None]
     | Rejected _ => []
     end)%list.
Proof.
  cbv zeta. unfold handleDeleteComponent.
  rewrite tryCatch_quiet_handler by (intros e; quiet_unfold; quiet_tac).
  unfold bind at 1. rewrite getRAGClient_run.
  unfold bind at 1, deleteComponent, tryCatch, bind at 1, http.
  rewrite withClient_httpLog.
  destruct (service w (httpLog st) _) as [data|e].
  - cbv beta iota delta [ret]. unfold bind at 1. rewrite postMessage_any.
    rewrite bind_quiet_tail by (intros a; quiet_unfold; quiet_tac).
    match goal with
    | |- context [loadComponents w ?s0] =>
        rewrite (proj2 (loadComponents_frame w s0));
          assert (currentClient w s0 = currentClient w st) as ->
            by (unfold currentClient at 1;
                replace (ragClient s0) with (ragClient (withClient w st))
                  by (destruct (hasView (logRequest _ (withClient w st)));
                      reflexivity);
                rewrite withClient_ragClient; reflexivity);
          replace (httpLog s0)
            with (httpLog (withClient w st) ++
                  [mkRequest DELETE (baseUrl (currentClient w st))
                     ("/api/components/" ++ toStr componentId) None])%list
            by (destruct (hasView (logRequest _ (withClient w st)));
                reflexivity)
    end.
    rewrite withClient_httpLog, <- app_assoc. reflexivity.
  - cbn [fst snd]. cbv beta iota delta [bind consoleError modify throw].
    cbn [snd httpLog logConsole logRequest].
    rewrite withClient_httpLog. reflexivity.
Qed.

Lemma scanFolderCommand_log (folder : string) (w : World) (st : State) :
  let c := currentClient w st in
  let scan := mkRequest POST (baseUrl c) "/api/scan" (Some (blindScanWire true)) in
  httpLog (snd (Extension.scanFolderCommand (Some folder) w st))
  = (httpLog st ++
     scan ::
     match service w (httpLog st) scan with
     | Resolved data =>
         if isNullish data then []
         else [mkRequest GET (baseUrl c) "/api/components" None]
     | Rejected _ => []
     end)%list.
Proof.
  cbv zeta. unfold Extension.scanFolderCommand.
  rewrite tryCatch_quiet_handler by (intros e; quiet_unfold; quiet_tac).
  unfold bind at 1. rewrite getRAGClient_run. unfold bind at 1.
  rewrite scanFolder_run by reflexivity.
  rewrite withClient_httpLog.
  change (scanRequest (currentClient w st) _)
    with (mkRequest POST (baseUrl (currentClient w st)) "/api/scan"
            (Some (blindScanWire true))).
  destruct (service w (httpLog st) _) as [data|e];
    [destruct (isNullish data)|].
  - cbn [snd httpLog logConsole logRequest].
    rewrite withClient_httpLog. reflexivity.
  - unfold bind at 1, prop at 1, lift at 1.
    cbn [getProp lookup String.eqb Ascii.eqb Bool.eqb].
    unfold bind at 1, showInformationMessage at 1, modify at 1.
    match goal with
    | |- context [loadComponents w ?s0] =>
        rewrite (proj2 (loadComponents_frame w s0));
          assert (currentClient w s0 = currentClient w st) as ->
            by (unfold currentClient at 1; simpl;
                rewrite withClient_ragClient; reflexivity)
    end.
    cbn [httpLog logInfo logRequest].
    rewrite withClient_httpLog, <- app_assoc. reflexivity.
  - cbn [snd httpLog logConsole logRequest].
    rewrite withClient_httpLog. reflexivity.
Qed.

(** X20.  A message from the webview causes at most two requests, fixed
    by its type: [getComponents] the listing; [searchComponents] one
    search with the query as sent and limit 20; [deleteComponent] the
    deletion and, only when that was accepted, the listing;
    [scanFolder] nothing when the folder dialog is cancelled, else one
    scan and, only when that succeeded, the listing; [showComponent] and
    every other message nothing.  No message from the webview creates or
    updates a component. *)
Theorem sidebar_message_requests (data : JsValue) (env : Env) (d : Desk) :
  let w := world env in
  let st := host d in
  let c := currentClient w st in
  let type := lookupProp data "type" in
  let listing := mkRequest GET (baseUrl c) "/api/components" None in
  let delete :=
    mkRequest DELETE (baseUrl c)
              ("/api/components/" ++ toStr (lookupProp data "componentId")) None in
  let scan := mkRequest POST (baseUrl c) "/api/scan" (Some (blindScanWire true)) in
  httpLog (host (snd (onDidReceiveMessage data env d)))
  = (httpLog st ++
     if strictEq type (JStr "getComponents") then [listing]
     else if strictEq type (JStr "searchComponents") then
       [mkRequest POST (baseUrl c) "/api/search"
          (Some (JObj [("query", lookupProp data "query"); ("limit", JNum 20)]))]
     else if strictEq type (JStr "deleteComponent") then
       delete :: match service w (httpLog st) delete with
                 | Resolved _ => [listing]
                 | Rejected _ => []
                 end
     else if strictEq type (JStr "scanFolder") then
       match openDialog env with
       | None => []
       | Some _ =>
           scan :: match service w (httpLog st) scan with
                   | Resolved answer => if isNullish answer then [] else [listing]
                   | Rejected _ => []
                   end
       end
     else [])%list.
Proof.
  cbv zeta. unfold onDidReceiveMessage, bindE, liftRes.
  destruct (getProp data "type") as [type|e] eqn:E.
  2: { assert (isNullish data = true) as Hn
         by (destruct data; try discriminate E; reflexivity).
       assert (lookupProp data "type" = JUndefined) as ->
         by (unfold lookupProp; rewrite E; reflexivity).
       cbn [strictEq snd]. rewrite app_nil_r. reflexivity. }
  assert (lookupProp data "type" = type) as ->
      by (unfold lookupProp; rewrite E; reflexivity).
  destruct (strictEq type (JStr "getComponents")).
  { unfold liftHost.
    pose proof (proj2 (loadComponents_frame (world env) (host d))) as H.
    destruct (loadComponents (world env) (host d)) as [r st'].
    exact H. }
  destruct (strictEq type (JStr "searchComponents")).
  { unfold liftHost.
    pose proof (handleSearchComponents_log (lookupProp data "query")
                  (world env) (host d)) as H.
    destruct (handleSearchComponents _ (world env) (host d)) as [r st'].
    exact H. }
  destruct (strictEq type (JStr "deleteComponent")).
  { unfold liftHost.
    pose proof (handleDeleteComponent_log (lookupProp data "componentId")
                  (world env) (host d)) as H.
    destruct (handleDeleteComponent _ (world env) (host d)) as [r st'].
    exact H. }
  destruct (strictEq type (JStr "scanFolder")).
  { unfold handleScanFolder, bindE, getEnv, liftHost.
    destruct (openDialog env) as [folder|].
    - pose proof (scanFolderCommand_log folder (world env) (host d)) as H.
      destruct (Extension.scanFolderCommand _ (world env) (host d)) as [r st'].
      exact H.
    - cbn [Extension.scanFolderCommand ret snd host setHost].
      rewrite app_nil_r. reflexivity. }
  destruct (strictEq type (JStr "showComponent")).
  { unfold handleShowComponent, bindE, liftRes.
    destruct (formatComponentDetails (lookupProp data "component"));
      cbn [snd host logDocument update]; rewrite app_nil_r; reflexivity. }
  cbn [snd retE]. rewrite app_nil_r. reflexivity.
Qed.

(** ** What the provider posts back (provider.ts) *)

Lemma loadComponents_outcome (w : World) (st : State) :
  let request :=
    mkRequest GET (baseUrl (currentClient w st)) "/api/components" None in
  let message :=
    match service w (httpLog st) request with
    | Resolved data =>
        JObj [("type", JStr "componentsLoaded"); ("components", data)]
    | Rejected _ =>
        JObj [("type", JStr "error");
              ("message",
               JStr "Failed to load components: Error: Failed to get components")]
    end in
  posted (snd (loadComponents w st))
  = (posted st ++ if hasView st then [message] else [])%list /\
  httpLog (snd (loadComponents w st)) = (httpLog st ++ [request])%list /\
  infoMessages (snd (loadComponents w st)) = infoMessages st /\
  errorMessages (snd (loadComponents w st)) = errorMessages st.
Proof.
  cbv zeta. rewrite loadComponents_run. cbv zeta. cbn [snd].
  destruct (service w (httpLog st) _); destruct (hasView st);
    cbn [posted infoMessages errorMessages httpLog logPosted logRequest
         logConsole];
    rewrite withClient_posted, withClient_infoMessages,
      withClient_errorMessages, withClient_httpLog, ?app_nil_r;
    repeat split; reflexivity.
Qed.

(** X8.  After a deletion that the service accepted, the provider posts
    [componentDeleted] with the id it was given and then the outcome of
    the reload, in this order: [componentsLoaded] with whatever the
    service lists now, or the load error.  It issues the DELETE and then
    the listing, and shows [Component deleted], also when the reload
    failed; with no view attached nothing is posted. *)
Theorem successful_delete_posts_deleted_then_reloaded
        (componentId data : JsValue) (w : World) (st : State) :
  let c := currentClient w st in
  let delete :=
    mkRequest DELETE (baseUrl c) ("/api/components/" ++ toStr componentId) None in
  let reload := mkRequest GET (baseUrl c) "/api/components" None in
  let reloaded :=
    match service w (httpLog st ++ [delete]) reload with
    | Resolved components =>
        JObj [("type", JStr "componentsLoaded"); ("components", components)]
    | Rejected _ =>
        JObj [("type", JStr "error");
              ("message",
               JStr "Failed to load components: Error: Failed to get components")]
    end in
  let after := snd (handleDeleteComponent componentId w st) in
  service w (httpLog st) delete = Resolved data ->
  fst (handleDeleteComponent componentId w st) = Ok tt /\
  httpLog after = (httpLog st ++ [delete; reload])%list /\
  posted after
  = (posted st ++
     if hasView st then [componentDeleted componentId; reloaded] else [])%list /\
  infoMessages after = (infoMessages st ++ ["Component deleted"])%list /\
  errorMessages after = errorMessages st.
Proof.
  cbv zeta. intros Hdel.
  set (s1 := logRequest
               (mkRequest DELETE (baseUrl (currentClient w st))
                          ("/api/components/" ++ toStr componentId) None)
               (withClient w st)).
  set (s2 := if hasView s1 then logPosted (componentDeleted componentId) s1
             else s1).
  assert (Hrun :
    handleDeleteComponent componentId w st
    = (Ok tt, logInfo "Component deleted" (snd (loadComponents w s2)))).
  { unfold handleDeleteComponent, tryCatch. unfold bind at 1.
    rewrite getRAGClient_run.
    unfold bind at 1, deleteComponent, tryCatch, bind at 1, http.
    rewrite withClient_httpLog, Hdel.
    cbv beta iota delta [ret]. unfold bind at 1. rewrite postMessage_any.
    fold s1. fold (componentDeleted componentId). fold s2.
    unfold bind at 1. rewrite loadComponents_run.
    unfold showInformationMessage, modify. reflexivity. }
  assert (Hfacts :
    hasView s2 = hasView st /\
    ragClient s2 = Some (currentClient w st) /\
    httpLog s2
    = (httpLog st ++
       [mkRequest DELETE (baseUrl (currentClient w st))
          ("/api/components/" ++ toStr componentId) None])%list /\
    posted s2
    = (posted st ++
       if hasView st then [componentDeleted componentId] else [])%list /\
    infoMessages s2 = infoMessages st /\
    errorMessages s2 = errorMessages st).
  { unfold s2, s1. cbn [hasView logRequest]. rewrite withClient_hasView.
    destruct (hasView st) eqn:Hv;
      cbn [hasView ragClient httpLog posted infoMessages errorMessages
           logPosted logRequest];
      rewrite withClient_hasView, withClient_ragClient, withClient_httpLog,
        withClient_posted, withClient_infoMessages, withClient_errorMessages,
        ?app_nil_r;
      repeat split; try reflexivity; exact Hv. }
  destruct Hfacts as (Hview & Hrag & Hlog & Hposted & Hinfo & Herr).
  assert (Hclient : currentClient w s2 = currentClient w st)
    by (unfold currentClient at 1; rewrite Hrag; reflexivity).
  rewrite Hrun.
  cbn [fst snd httpLog posted infoMessages errorMessages logInfo].
  destruct (loadComponents_outcome w s2) as (Hp & Hl & Hi & He).
  rewrite Hp, Hl, Hi, He, Hview, Hclient, Hlog, Hposted, Hinfo, Herr,
    <- !app_assoc.
  destruct (hasView st); repeat split; reflexivity.
Qed.

Lemma successful_delete_posts_deleted_then_reloaded_witness :
  posted (snd (handleDeleteComponent (JStr "c1") Sample.up
                 (mkState None [] [] [] true [] [] [])))
  = [componentDeleted (JStr "c1");
     JObj [("type", JStr "componentsLoaded");
           ("components", JArr [Sample.button; Sample.avatar])]].
Proof.
  destruct (successful_delete_posts_deleted_then_reloaded
              (JStr "c1") (JStr "") Sample.up
              (mkState None [] [] [] true [] [] []) eq_refl)
    as (_ & _ & Hposted & _).
  exact Hposted.
Defined.

(** X11.  [handleSearchComponents] never throws and issues one request:
    the query reaches the service as it was sent, in [POST /api/search]
    with limit 20.  With a view attached it posts one message: when the
    service answers with a list of hits, [searchResults] with the
    [component] of each hit, in the order of the hits; when the request
    is rejected, the error [Search failed: Error: Failed to search
    components]; when the service answers without data, the error of the
    failed read. *)
Theorem search_posts_the_component_of_each_hit
        (query : JsValue) (w : World) (st : State) :
  let request :=
    mkRequest POST (baseUrl (currentClient w st)) "/api/search"
      (Some (JObj [("query", query); ("limit", JNum 20)])) in
  let after := snd (handleSearchComponents query w st) in
  let failed text :=
    JObj [("type", JStr "error"); ("message", JStr ("Search failed: " ++ text))] in
  fst (handleSearchComponents query w st) = Ok tt /\
  httpLog after = (httpLog st ++ [request])%list /\
  (forall data hits,
     service w (httpLog st) request = Resolved data ->
     getProp data "results" = Ok (JArr hits) ->
     (forall h, In h hits -> isNullish h = false) ->
     posted after
     = (posted st ++
        if hasView st
        then [JObj [("type", JStr "searchResults");
                    ("results",
                     JArr (map (fun h => lookupProp h "component") hits))]]
        else [])%list) /\
  (forall e,
     service w (httpLog st) request = Rejected e ->
     posted after
     = (posted st ++
        if hasView st then [failed "Error: Failed to search components"]
        else [])%list) /\
  (forall data,
     service w (httpLog st) request = Resolved data ->
     isNullish data = true ->
     posted after
     = (posted st ++
        if hasView st
        then [failed ("TypeError: Cannot read properties of " ++
                      typeName data ++ " (reading 'results')")%string]
        else [])%list).
Proof.
  cbv zeta. split; [|split; [apply handleSearchComponents_log|]].
  - unfold handleSearchComponents, tryCatch.
    match goal with
    | |- fst (match ?body with _ => _ end) = _ =>
        destruct body as [[[]|e] s1]; [reflexivity|]
    end.
    rewrite postMessage_any. reflexivity.
  - repeat split.
    + intros data hits Hs Hres Hhits.
      unfold handleSearchComponents, tryCatch. unfold bind at 1.
      rewrite getRAGClient_run.
      unfold bind at 1, searchComponents, tryCatch, http.
      rewrite withClient_httpLog, Hs.
      unfold bind at 1, prop at 1, lift at 1. rewrite Hres.
      unfold bind at 1, lift at 1. cbn [arrayItems].
      unfold bind at 1.
      rewrite (mapM_pure _ (fun h => lookupProp h "component"))
        by (intros h Hh; unfold prop, lift; rewrite (getProp_ok h) by auto;
            reflexivity).
      rewrite postMessage_any. cbn [snd hasView logRequest].
      rewrite withClient_hasView.
      destruct (hasView st); cbn [posted logPosted logRequest];
        rewrite withClient_posted, ?app_nil_r; reflexivity.
    + intros e Hs.
      unfold handleSearchComponents, tryCatch. unfold bind at 1.
      rewrite getRAGClient_run.
      unfold bind at 1, searchComponents, tryCatch, http.
      rewrite withClient_httpLog, Hs.
      cbv beta iota delta [bind consoleError modify throw].
      rewrite postMessage_any. cbn [snd hasView logRequest logConsole].
      rewrite withClient_hasView.
      destruct (hasView st); cbn [posted logPosted logRequest logConsole];
        rewrite withClient_posted, ?app_nil_r; reflexivity.
    + intros data Hs Hnull.
      unfold handleSearchComponents, tryCatch. unfold bind at 1.
      rewrite getRAGClient_run.
      unfold bind at 1, searchComponents, tryCatch, http.
      rewrite withClient_httpLog, Hs.
      unfold bind at 1, prop at 1, lift at 1.
      rewrite (getProp_of_nullish data "results" Hnull).
      rewrite postMessage_any. cbn [snd hasView logRequest].
      rewrite withClient_hasView.
      destruct (hasView st); cbn [posted logPosted logRequest];
        rewrite withClient_posted, ?app_nil_r; reflexivity.
Qed.

Lemma search_posts_the_component_of_each_hit_witness :
  posted (snd (handleSearchComponents (JStr "button") Sample.up
                 (mkState None [] [] [] true [] [] [])))
  = [JObj [("type", JStr "searchResults");
           ("results", JArr [Sample.button])]] /\
  posted (snd (handleSearchComponents (JStr "button") Sample.down
                 (mkState None [] [] [] true [] [] [])))
  = [JObj [("type", JStr "error");
           ("message",
            JStr "Search failed: Error: Failed to search components")]].
Proof.
  split.
  - destruct (search_posts_the_component_of_each_hit (JStr "button") Sample.up
                (mkState None [] [] [] true [] [] []))
      as (_ & _ & Hhits & _).
    rewrite (Hhits (JObj [("results", JArr [Sample.hit Sample.button]);
                          ("total", JNum 1); ("query", JStr "")])
                   [Sample.hit Sample.button] eq_refl eq_refl).
    + reflexivity.
    + intros h [<- | []]. reflexivity.
  - destruct (search_posts_the_component_of_each_hit (JStr "button") Sample.down
                (mkState None [] [] [] true [] [] []))
      as (_ & _ & _ & Hrej & _).
    rewrite (Hrej (mkError "AxiosError" "connect ECONNREFUSED") eq_refl).
    reflexivity.
Defined.

Lemma autoScan_log
      (paths : list string) (env : Env) (d : Desk) :
  fst (autoScan paths env d) = Ok tt /\
  httpLog (host (snd (autoScan paths env d)))
  = (httpLog (host d) ++
     repeat (mkRequest POST (baseUrl (currentClient (world env) (host d)))
               "/api/scan" (Some (blindScanWire true)))
            (List.length paths))%list.
Proof.
  revert d. induction paths as [|path paths IH]; intros d.
  - cbn [autoScan repeat List.length]. unfold retE. cbn [fst snd].
    rewrite app_nil_r. split; reflexivity.
  - destruct (autoScanOne_run path env d) as (line & st & Hrun & Hlog & Hc).
    assert (Hstep : autoScan (path :: paths) env d
                    = autoScan paths env (logOutput line (setHost st d)))
      by (cbn [autoScan]; unfold bindE; rewrite Hrun; reflexivity).
    rewrite Hstep.
    destruct (IH (logOutput line (setHost st d))) as (Hr & Hl).
    cbn [host logOutput setHost] in Hl.
    assert (Hcur : currentClient (world env) st
                   = currentClient (world env) (host d))
      by (unfold currentClient at 1; rewrite Hc; reflexivity).
    rewrite Hcur, Hlog in Hl.
    split; [exact Hr|].
    rewrite Hl. cbn [List.length]. rewrite repeat_snoc. reflexivity.
Qed.

Lemma startService_already (port : Z) (env : Env) (d : Desk) (p : Process) :
  serviceProcess d = Some p ->
  startService port env d
  = (Ok true, logOutput "RAG service is already running" d).
Proof.
  intros Hp. unfold startService. unfold bindE at 1, getDesk.
  rewrite Hp. reflexivity.
Qed.

Lemma startService_reports_total (port : Z) (env : Env) (d : Desk) :
  exists started, fst (startService port env d) = Ok started.
Proof.
  destruct (serviceProcess d) as [p|] eqn:Hd.
  { exists true. unfold startService. unfold bindE at 1, getDesk.
    rewrite Hd. reflexivity. }
  rewrite (startService_run port env d Hd).
  destruct (findPython env _) as [[u|e] d1]; [|eexists; reflexivity].
  destruct (workspaceFolder env) as [fsPath|]; [|eexists; reflexivity].
  destruct (existsSync env _); [|eexists; reflexivity].
  destruct (spawnError env _); [eexists; reflexivity|].
  cbv zeta.
  destruct (waitForService port 30 env _) as [[u'|e] d2]; eexists; reflexivity.
Qed.

(** ** Activation (extension.ts) *)

Lemma waitForService_client (port : Z) (n : nat) (env : Env) (d : Desk) :
  ragClient (host (snd (waitForService port n env d))) = ragClient (host d).
Proof.
  revert d. induction n as [|n IH]; intros d; [reflexivity|].
  rewrite waitForService_step.
  destruct (service (world env) (httpLog (host d)) (probeRequest port));
    [reflexivity|].
  rewrite IH. reflexivity.
Qed.

(** What [startService] does to the request log, the client and the
    output channel. *)
Lemma startService_probes (port : Z) (env : Env) (d : Desk) :
  exists k,
    (k <= 30)%nat /\
    httpLog (host (snd (startService port env d)))
    = (httpLog (host d) ++ repeat (probeRequest port) k)%list /\
    ragClient (host (snd (startService port env d))) = ragClient (host d) /\
    (serviceProcess d = None ->
     exists rest,
       output (snd (startService port env d))
       = (output d ++ "Starting RAG service..." :: rest)%list).
Proof.
  destruct (serviceProcess d) as [p|] eqn:Hd.
  { exists 0%nat. rewrite (startService_already port env d p Hd).
    cbn [fst snd host logOutput repeat].
    rewrite app_nil_r. repeat split; try lia; congruence. }
  rewrite (startService_run port env d Hd).
  destruct (findPython_frame env (logOutput "Starting RAG service..." d))
    as (Hh & _ & Ho & _).
  cbn [logOutput host output] in Hh, Ho.
  destruct (findPython env (logOutput "Starting RAG service..." d))
    as [[u|e] d1]; cbn [snd] in Hh, Ho.
  2: { exists 0%nat. cbn [fst snd host output logOutput repeat].
       rewrite Hh, Ho, app_nil_r, <- app_assoc.
       repeat split; try lia; eexists; reflexivity. }
  destruct (workspaceFolder env) as [fsPath|].
  2: { exists 0%nat. cbn [fst snd host output logOutput repeat].
       rewrite Hh, Ho, app_nil_r, <- app_assoc.
       repeat split; try lia; eexists; reflexivity. }
  destruct (existsSync env (servicePathOf env fsPath)).
  2: { exists 0%nat. cbn [fst snd host output logOutput repeat].
       rewrite Hh, Ho, app_nil_r, <- app_assoc.
       repeat split; try lia; eexists; reflexivity. }
  destruct (spawnError env (pythonPath d1)) as [e|].
  { exists 0%nat. cbn [fst snd host output logOutput repeat].
    rewrite Hh, Ho, app_nil_r, <- app_assoc.
    repeat split; try lia; eexists; reflexivity. }
  cbv zeta.
  set (d2 := setProcess (Some (serviceProcessOf env fsPath (pythonPath d1) port))
                        d1).
  destruct (waitForService_spec port 30 env d2)
    as (k & Hlog & _ & _ & Hout & Hcase).
  pose proof (waitForService_client port 30 env d2) as Hc.
  assert (Hk : (k <= 30)%nat)
    by (destruct Hcase as [(_ & Hk & _) | (_ & Hk & _)]; lia).
  exists k.
  destruct (waitForService port 30 env d2) as [[u'|e] d3];
    cbn [fst snd host output logOutput afterEvents] in *;
    unfold d2 in Hlog, Hc, Hout; cbn [setProcess host output] in Hlog, Hc, Hout;
    rewrite Hlog, Hc, Hout, Hh, Ho, <- !app_assoc;
    repeat split; try lia; eexists; reflexivity.
Qed.

Lemma setHost_host (d : Desk) : setHost (host d) d = d.
Proof. destruct d; reflexivity. Qed.

Lemma activateExtension_run (env : Env) (d : Desk) :
  activateExtension env d
  = autoScanPart
      (match componentPaths env with Some ps => ps | None => [] end) env
      (if match autoStart env with Some b => b | None => true end
       then snd (startService
                   (match configPort (world env) with
                    | Some p => p
                    | None => 8765%Z
                    end) env
                   (logOutput "Auto-starting RAG service..." d))
       else d).
Proof.
  unfold activateExtension. unfold bindE at 1, getEnv. unfold bindE at 1.
  destruct (match autoStart env with Some b => b | None => true end);
    [|reflexivity].
  unfold bindE at 1, liftHost at 1, configuredPort, bind, getWorld, ret.
  cbn [fst snd]. rewrite setHost_host.
  unfold bindE at 1, appendLine at 1, update at 1. unfold bindE at 1.
  destruct (startService_reports_total
              (match configPort (world env) with Some p => p | None => 8765%Z end)
              env (logOutput "Auto-starting RAG service..." d)) as [b Hb].
  destruct (startService _ env (logOutput "Auto-starting RAG service..." d))
    as [[b'|e] d1]; cbn [fst] in Hb; [reflexivity | discriminate].
Qed.

Lemma autoScanPart_log (paths : list string) (env : Env) (d : Desk) :
  fst (autoScanPart paths env d) = Ok tt /\
  httpLog (host (snd (autoScanPart paths env d)))
  = (httpLog (host d) ++
     repeat (mkRequest POST (baseUrl (currentClient (world env) (host d)))
               "/api/scan" (Some (blindScanWire true)))
            (List.length paths))%list.
Proof.
  destruct paths as [|path rest].
  - cbn [autoScanPart retE fst snd repeat List.length]. rewrite app_nil_r.
    split; reflexivity.
  - unfold autoScanPart, bindE, appendLine, update.
    exact (autoScan_log (path :: rest) env
             (logOutput "Auto-scanning configured component paths..." d)).
Qed.

(** X22.  Activation never throws.  It probes the service at most 30
    times when auto-start is on (the default), and not at all when it is
    switched off, and then posts one scan per configured component path,
    none of which names its folder. *)
Theorem activation_probes_then_scans (env : Env) (d : Desk) :
  let w := world env in
  let port := match configPort w with Some p => p | None => 8765%Z end in
  let paths := match componentPaths env with Some ps => ps | None => [] end in
  let scan :=
    mkRequest POST (baseUrl (currentClient w (host d))) "/api/scan"
              (Some (blindScanWire true)) in
  fst (activateExtension env d) = Ok tt /\
  exists k,
    (k <= if match autoStart env with Some b => b | None => true end
          then 30 else 0)%nat /\
    httpLog (host (snd (activateExtension env d)))
    = (httpLog (host d) ++ repeat (probeRequest port) k ++
       repeat scan (List.length paths))%list.
Proof.
  cbv zeta. rewrite activateExtension_run.
  destruct (match autoStart env with Some b => b | None => true end) eqn:Ha.
  - destruct (startService_probes
                (match configPort (world env) with Some p => p | None => 8765%Z end)
                env (logOutput "Auto-starting RAG service..." d))
      as (k & Hk & Hlog & Hc & _).
    cbn [host logOutput] in Hlog, Hc.
    destruct (autoScanPart_log
                (match componentPaths env with Some ps => ps | None => [] end)
                env
                (snd (startService
                        (match configPort (world env) with
                         | Some p => p
                         | None => 8765%Z
                         end) env
                        (logOutput "Auto-starting RAG service..." d))))
      as [Hr Hl].
    split; [exact Hr|]. exists k. split; [exact Hk|].
    rewrite Hl, Hlog, <- app_assoc.
    unfold currentClient. rewrite Hc. reflexivity.
  - destruct (autoScanPart_log
                (match componentPaths env with Some ps => ps | None => [] end)
                env d) as [Hr Hl].
    split; [exact Hr|]. exists 0%nat. split; [lia|].
    rewrite Hl. reflexivity.
Qed.
